(** * XPU manager data logic: rate computation and query assembly

    A shallow embedding of
    - [core/src/data_logic/time_weighted_average_data_handler.cpp]
      (counter overflow detection and time-weighted rates), and
    - [data_logic.cpp] (snapshot, statistics, engine and fabric assemblers,
      fabric link information), with the tables of [utility.cpp] they
      consult and its helpers [split] and [parallel_in_batches], and
    - the statistics and throttle-reason columns of [dump_task.cpp].

    Unsigned 64-bit and 32-bit quantities are integers of [Z] with the
    wrap-around of the C++ arithmetic written out.  The ordered containers
    ([std::map], [std::set]) are association lists in iteration order,
    because several loops of the source depend on that order. *)

From Stdlib Require Import ZArith List String Bool Lia.
Import ListNotations.
Open Scope Z_scope.

(** ** Machine integers *)

Module U64.
Definition modulus : Z := 2 ^ 64.
(** [std::numeric_limits<uint64_t>::max()], the "no data" sentinel. *)
Definition max : Z := modulus - 1.
Definition wrap (x : Z) : Z := x mod modulus.
Definition sub (a b : Z) : Z := wrap (a - b).
Definition div (a b : Z) : Z := a / b.
Definition in_range (x : Z) : Prop := 0 <= x < modulus.
End U64.

Module U32.
Definition modulus : Z := 2 ^ 32.
(** [std::numeric_limits<uint32_t>::max()]. *)
Definition max : Z := modulus - 1.
Definition wrap (x : Z) : Z := x mod modulus.
Definition add (a b : Z) : Z := wrap (a + b).
Definition in_range (x : Z) : Prop := 0 <= x < modulus.
End U32.

(** ** Ordered maps

    [std::map<K, V>] as the list of its entries in iteration order.  [find]
    is a lookup by key, [erase] removes a key, [update] overwrites the value
    stored under a key or adds the entry when the key is new, and [insert]
    is [std::map::insert]: it leaves an existing entry alone. *)

Class Key (K : Type) := {
  key_eqb : K -> K -> bool;
  key_eqb_eq : forall a b, key_eqb a b = true <-> a = b
}.

#[export] Instance Z_Key : Key Z :=
  {| key_eqb := Z.eqb; key_eqb_eq := Z.eqb_eq |}.

#[export] Instance string_Key : Key string :=
  {| key_eqb := String.eqb; key_eqb_eq := String.eqb_eq |}.

Module Map.
Section Ops.
Context {K V : Type} `{Key K}.

Fixpoint find (k : K) (m : list (K * V)) : option V :=
  match m with
  | [] => None
  | (k', v) :: rest => if key_eqb k k' then Some v else find k rest
  end.

Definition erase (k : K) (m : list (K * V)) : list (K * V) :=
  filter (fun kv => negb (key_eqb k (fst kv))) m.

Fixpoint update (k : K) (v : V) (m : list (K * V)) : list (K * V) :=
  match m with
  | [] => [(k, v)]
  | (k', v') :: rest =>
      if key_eqb k k' then (k', v) :: rest else (k', v') :: update k v rest
  end.

Definition insert (k : K) (v : V) (m : list (K * V)) : list (K * V) :=
  match find k m with
  | Some _ => m
  | None => m ++ [(k, v)]
  end.

Definition keys (m : list (K * V)) : list K := map fst m.

(** The keys of a [std::map] are pairwise different. *)
Fixpoint unique_keys (m : list (K * V)) : bool :=
  match m with
  | [] => true
  | (k, _) :: rest =>
      match find k rest with
      | Some _ => false
      | None => unique_keys rest
      end
  end.
End Ops.
End Map.

(** ** Measurement data *)

(** Modelled from the spec: the class [MeasurementData] and its entry
    types (declared in [measurement_data.h], which is missing) follow the
    spec's MeasurementSample {scale, current, timestamp, perSubdevice,
    multiEntity} and RawEntry {rawValue, rawTimestamp}.  [SubdeviceData] is
    the derived part of a per-sub-device entry. *)
Record SubdeviceData := {
  sd_current : Z;
  sd_min : Z;
  sd_avg : Z;
  sd_max : Z
}.

(** Modelled from the spec: the RawEntry of a sub-device (the struct is
    missing; the handler reads its members [raw_data] and
    [raw_timestamp]). *)
Record SubdeviceRawData := {
  raw_data : Z;
  raw_timestamp : Z
}.

(** Modelled from the spec: one multiEntity entry {current, min, avg, max,
    onSubdevice, subdeviceId} (the struct is missing; the assemblers read
    these members). *)
Record MultiMetricsData := {
  mm_current : Z;
  mm_min : Z;
  mm_avg : Z;
  mm_max : Z;
  on_subdevice : bool;
  subdevice_id : Z
}.

(** Modelled from the spec: [MeasurementData] (missing), with one field
    per accessor that the handler and the assemblers call. *)
Record MeasurementData := {
  getCurrent : Z;
  getMin : Z;
  getAvg : Z;
  getMax : Z;
  getScale : Z;
  getTimestamp : Z;
  hasDataOnDevice : bool;
  hasRawDataOnDevice : bool;
  getRawdata : Z;
  getRawTimestamp : Z;
  getSubdeviceDatas : list (Z * SubdeviceData);
  getSubdeviceRawDatas : list (Z * SubdeviceRawData);
  getMultiMetricsDatas : list (Z * MultiMetricsData)
}.

(** Modelled from the spec: the accessors of [MeasurementData] that are
    not plain getters (missing).  A sample has (raw) sub-device data when
    its per-sub-device map has an entry, and a reading of a sub-device
    without entry is the "no data" sentinel. *)
Definition hasSubdeviceData (m : MeasurementData) : bool :=
  match getSubdeviceDatas m with [] => false | _ :: _ => true end.

Definition hasSubdeviceRawData (m : MeasurementData) : bool :=
  match getSubdeviceRawDatas m with [] => false | _ :: _ => true end.

Definition getSubdeviceRawData (m : MeasurementData) (id : Z) : Z :=
  match Map.find id (getSubdeviceRawDatas m) with
  | Some r => raw_data r
  | None => U64.max
  end.

Definition getSubdeviceDataRawTimestamp (m : MeasurementData) (id : Z) : Z :=
  match Map.find id (getSubdeviceRawDatas m) with
  | Some r => raw_timestamp r
  | None => U64.max
  end.

Definition subdevice_field (f : SubdeviceData -> Z) (m : MeasurementData) (id : Z) : Z :=
  match Map.find id (getSubdeviceDatas m) with
  | Some d => f d
  | None => U64.max
  end.

Definition getSubdeviceDataCurrent := subdevice_field sd_current.
Definition getSubdeviceDataMin := subdevice_field sd_min.
Definition getSubdeviceDataAvg := subdevice_field sd_avg.
Definition getSubdeviceDataMax := subdevice_field sd_max.

(** Modelled from the spec: the setters of [MeasurementData] (missing)
    touch the derived value only (4.1: "mutates only the incoming sample's
    derived field"). *)
Definition setCurrent (v : Z) (m : MeasurementData) : MeasurementData :=
  {| getCurrent := v;
     getMin := getMin m; getAvg := getAvg m; getMax := getMax m;
     getScale := getScale m; getTimestamp := getTimestamp m;
     hasDataOnDevice := hasDataOnDevice m;
     hasRawDataOnDevice := hasRawDataOnDevice m;
     getRawdata := getRawdata m; getRawTimestamp := getRawTimestamp m;
     getSubdeviceDatas := getSubdeviceDatas m;
     getSubdeviceRawDatas := getSubdeviceRawDatas m;
     getMultiMetricsDatas := getMultiMetricsDatas m |}.

Definition set_subdevice_datas (ds : list (Z * SubdeviceData)) (m : MeasurementData)
  : MeasurementData :=
  {| getCurrent := getCurrent m;
     getMin := getMin m; getAvg := getAvg m; getMax := getMax m;
     getScale := getScale m; getTimestamp := getTimestamp m;
     hasDataOnDevice := hasDataOnDevice m;
     hasRawDataOnDevice := hasRawDataOnDevice m;
     getRawdata := getRawdata m; getRawTimestamp := getRawTimestamp m;
     getSubdeviceDatas := ds;
     getSubdeviceRawDatas := getSubdeviceRawDatas m;
     getMultiMetricsDatas := getMultiMetricsDatas m |}.

Definition set_subdevice_rawdatas (rs : list (Z * SubdeviceRawData)) (m : MeasurementData)
  : MeasurementData :=
  {| getCurrent := getCurrent m;
     getMin := getMin m; getAvg := getAvg m; getMax := getMax m;
     getScale := getScale m; getTimestamp := getTimestamp m;
     hasDataOnDevice := hasDataOnDevice m;
     hasRawDataOnDevice := hasRawDataOnDevice m;
     getRawdata := getRawdata m; getRawTimestamp := getRawTimestamp m;
     getSubdeviceDatas := getSubdeviceDatas m;
     getSubdeviceRawDatas := rs;
     getMultiMetricsDatas := getMultiMetricsDatas m |}.

(** Modelled from the spec: [setSubdeviceDataCurrent] (missing) writes the
    derived value of one sub-device and creates the entry when there is
    none. *)
Definition setSubdeviceDataCurrent (id v : Z) (m : MeasurementData) : MeasurementData :=
  let entry :=
    match Map.find id (getSubdeviceDatas m) with
    | Some d => {| sd_current := v; sd_min := sd_min d; sd_avg := sd_avg d; sd_max := sd_max d |}
    | None => {| sd_current := v; sd_min := U64.max; sd_avg := U64.max; sd_max := U64.max |}
    end in
  set_subdevice_datas (Map.update id entry (getSubdeviceDatas m)) m.

(** Modelled from the spec: [clearSubdeviceRawdata] (missing) clears the
    baseline of one sub-device (4.1: "per-sub-device counters are cleared
    independently"). *)
Definition clearSubdeviceRawdata (id : Z) (m : MeasurementData) : MeasurementData :=
  set_subdevice_rawdatas (Map.erase id (getSubdeviceRawDatas m)) m.

(** [SharedData::getData()]: device id to measurement, in key order. *)
Definition SharedData := list (string * MeasurementData).

(** ** TimeWeightedAverageDataHandler *)

(** The loops run over the entries of [p_data->getData()]; inside a turn
    [p_data->getData()[deviceId]] is the entry the iterator stands on, that
    is [measurementData], and the test [p_data->getData().find(deviceId) !=
    end] holds.  [p_preData->getData()[deviceId]] is a lookup, made only
    after [find] has succeeded. *)
Module TimeWeightedAverageDataHandler.

(** The test both loops make before they use a pair of raw values. *)
Definition both_valid (pre_data cur_data : Z) : bool :=
  negb (pre_data =? U64.max) && negb (cur_data =? U64.max).

(** Inner loop of [counterOverflowDetection] over the sub-device raw
    entries of the current sample: it runs while the previous sample has
    an entry for the sub-device at hand, and clears the previous entry of
    each sub-device whose counter went down. *)
Fixpoint overflow_subdevices (subs : list (Z * SubdeviceRawData))
         (measurementData pre : MeasurementData) : MeasurementData :=
  match subs with
  | [] => pre
  | (subDeviceId, _) :: rest =>
      match Map.find subDeviceId (getSubdeviceRawDatas pre) with
      | None => pre
      | Some _ =>
          let pre_data := getSubdeviceRawData pre subDeviceId in
          let cur_data := getSubdeviceRawData measurementData subDeviceId in
          let pre' :=
            if both_valid pre_data cur_data && (pre_data >? cur_data)
            then clearSubdeviceRawdata subDeviceId pre
            else pre in
          overflow_subdevices rest measurementData pre'
      end
  end.

(** Device-level test of [counterOverflowDetection]: [true] when the
    handler drops [p_preData]. *)
Definition device_overflow (p_preData : SharedData) (deviceId : string)
           (measurementData : MeasurementData) : bool :=
  match hasRawDataOnDevice measurementData, Map.find deviceId p_preData with
  | true, Some pre =>
      hasRawDataOnDevice pre &&
      (let pre_data := getRawdata pre in
       let cur_data := getRawdata measurementData in
       both_valid pre_data cur_data && (pre_data >? cur_data))
  | _, _ => false
  end.

Definition overflow_device_subdevices (p_preData : SharedData) (deviceId : string)
           (measurementData : MeasurementData) : SharedData :=
  match hasSubdeviceRawData measurementData, Map.find deviceId p_preData with
  | true, Some pre =>
      if hasSubdeviceRawData pre
      then Map.update deviceId
             (overflow_subdevices (getSubdeviceRawDatas measurementData) measurementData pre)
             p_preData
      else p_preData
  | _, _ => p_preData
  end.

(** Outer loop over the devices of the current sample.  [None] is
    [p_preData = nullptr]. *)
Fixpoint overflow_devices (devices : SharedData) (p_preData : SharedData)
  : option SharedData :=
  match devices with
  | [] => Some p_preData
  | (deviceId, measurementData) :: rest =>
      if device_overflow p_preData deviceId measurementData
      then None
      else overflow_devices rest
             (overflow_device_subdevices p_preData deviceId measurementData)
  end.

(** [counterOverflowDetection]: the new value of [p_preData]. *)
Definition counterOverflowDetection (p_preData p_data : option SharedData)
  : option SharedData :=
  match p_preData, p_data with
  | Some pre, Some cur => overflow_devices cur pre
  | _, _ => p_preData
  end.

(** Inner loop of [calculateData] over the sub-device raw entries. *)
Fixpoint calculate_subdevices (subs : list (Z * SubdeviceRawData))
         (pre measurementData : MeasurementData) : MeasurementData :=
  match subs with
  | [] => measurementData
  | (subDeviceId, subRawData) :: rest =>
      match Map.find subDeviceId (getSubdeviceRawDatas pre) with
      | None => measurementData
      | Some _ =>
          let pre_data := getSubdeviceRawData pre subDeviceId in
          let pre_data_raw_timestamp := getSubdeviceDataRawTimestamp pre subDeviceId in
          let cur_data := raw_data subRawData in
          let cur_data_raw_timestamp := raw_timestamp subRawData in
          let measurementData' :=
            if both_valid pre_data cur_data
               && negb (U64.sub cur_data_raw_timestamp pre_data_raw_timestamp =? 0)
            then setSubdeviceDataCurrent subDeviceId
                   (U64.div (U64.sub cur_data pre_data)
                            (U64.sub cur_data_raw_timestamp pre_data_raw_timestamp))
                   measurementData
            else measurementData in
          calculate_subdevices rest pre measurementData'
      end
  end.

Definition calculate_device_level (p_preData : SharedData) (deviceId : string)
           (measurementData : MeasurementData) : MeasurementData :=
  match hasRawDataOnDevice measurementData, Map.find deviceId p_preData with
  | true, Some pre =>
      if hasRawDataOnDevice pre then
        let pre_data := getRawdata pre in
        let pre_data_raw_timestamp := getRawTimestamp pre in
        let cur_data := getRawdata measurementData in
        let cur_data_raw_timestamp := getRawTimestamp measurementData in
        if both_valid pre_data cur_data
           && negb (U64.sub cur_data_raw_timestamp pre_data_raw_timestamp =? 0)
        then setCurrent
               (U64.div (U64.sub cur_data pre_data)
                        (U64.sub cur_data_raw_timestamp pre_data_raw_timestamp))
               measurementData
        else measurementData
      else measurementData
  | _, _ => measurementData
  end.

Definition calculate_device_subdevices (p_preData : SharedData) (deviceId : string)
           (measurementData : MeasurementData) : MeasurementData :=
  match hasSubdeviceRawData measurementData, Map.find deviceId p_preData with
  | true, Some pre =>
      if hasSubdeviceRawData pre
      then calculate_subdevices (getSubdeviceRawDatas measurementData) pre measurementData
      else measurementData
  | _, _ => measurementData
  end.

(** One turn of the device loop of [calculateData]. *)
Definition calculate_device (p_preData : SharedData) (deviceId : string)
           (measurementData : MeasurementData) : MeasurementData :=
  calculate_device_subdevices p_preData deviceId
    (calculate_device_level p_preData deviceId measurementData).

(** [calculateData]: the sample after the rates are filled in. *)
Definition calculateData (p_preData p_data : option SharedData) : option SharedData :=
  match p_preData, p_data with
  | Some pre, Some cur =>
      Some (map (fun entry => (fst entry, calculate_device pre (fst entry) (snd entry))) cur)
  | _, _ => p_data
  end.

(** [handleData] up to the statistics fold: the new [p_preData] and the
    sample as the statistics store receives it. *)
Definition handleData (p_preData p_data : option SharedData)
  : option SharedData * option SharedData :=
  match p_preData, p_data with
  | Some _, Some _ =>
      let p_preData' := counterOverflowDetection p_preData p_data in
      (p_preData', calculateData p_preData' p_data)
  | _, _ => (p_preData, p_data)
  end.

End TimeWeightedAverageDataHandler.

(** ** Tables of [utility.cpp] *)

Inductive MeasurementType :=
| METRIC_TEMPERATURE
| METRIC_FREQUENCY
| METRIC_POWER
| METRIC_MEMORY_USED
| METRIC_MEMORY_UTILIZATION
| METRIC_MEMORY_BANDWIDTH
| METRIC_MEMORY_READ
| METRIC_MEMORY_WRITE
| METRIC_MEMORY_READ_THROUGHPUT
| METRIC_MEMORY_WRITE_THROUGHPUT
| METRIC_COMPUTATION
| METRIC_ENGINE_UTILIZATION
| METRIC_ENGINE_GROUP_COMPUTE_ALL_UTILIZATION
| METRIC_ENGINE_GROUP_MEDIA_ALL_UTILIZATION
| METRIC_ENGINE_GROUP_COPY_ALL_UTILIZATION
| METRIC_ENGINE_GROUP_RENDER_ALL_UTILIZATION
| METRIC_ENGINE_GROUP_3D_ALL_UTILIZATION
| METRIC_ENERGY
| METRIC_EU_ACTIVE
| METRIC_EU_STALL
| METRIC_EU_IDLE
| METRIC_RAS_ERROR_CAT_RESET
| METRIC_RAS_ERROR_CAT_PROGRAMMING_ERRORS
| METRIC_RAS_ERROR_CAT_DRIVER_ERRORS
| METRIC_RAS_ERROR_CAT_CACHE_ERRORS_CORRECTABLE
| METRIC_RAS_ERROR_CAT_CACHE_ERRORS_UNCORRECTABLE
| METRIC_RAS_ERROR_CAT_DISPLAY_ERRORS_CORRECTABLE
| METRIC_RAS_ERROR_CAT_DISPLAY_ERRORS_UNCORRECTABLE
| METRIC_RAS_ERROR_CAT_NON_COMPUTE_ERRORS_CORRECTABLE
| METRIC_RAS_ERROR_CAT_NON_COMPUTE_ERRORS_UNCORRECTABLE
| METRIC_REQUEST_FREQUENCY
| METRIC_MEMORY_TEMPERATURE
| METRIC_FREQUENCY_THROTTLE
| METRIC_FREQUENCY_THROTTLE_REASON_GPU
| METRIC_PCIE_READ_THROUGHPUT
| METRIC_PCIE_WRITE_THROUGHPUT
| METRIC_PCIE_READ
| METRIC_PCIE_WRITE
| METRIC_FABRIC_THROUGHPUT
| METRIC_MEDIA_ENGINE_FREQUENCY
| METRIC_PERF
| METRIC_MAX.

Scheme Equality for MeasurementType.

#[export] Instance MeasurementType_Key : Key MeasurementType.
Proof.
  refine {| key_eqb := MeasurementType_beq |}.
  intros a b; split.
  - apply internal_MeasurementType_dec_bl.
  - apply internal_MeasurementType_dec_lb.
Defined.

Module DeviceCapability.
Inductive t :=
| METRIC_TEMPERATURE
| METRIC_FREQUENCY
| METRIC_POWER
| METRIC_MEMORY_USED_UTILIZATION
| METRIC_MEMORY_THROUGHPUT_BANDWIDTH
| METRIC_COMPUTATION
| METRIC_ENGINE_UTILIZATION
| METRIC_ENERGY
| METRIC_ENGINE_GROUP_COMPUTE_ALL_UTILIZATION
| METRIC_ENGINE_GROUP_MEDIA_ALL_UTILIZATION
| METRIC_ENGINE_GROUP_COPY_ALL_UTILIZATION
| METRIC_ENGINE_GROUP_RENDER_ALL_UTILIZATION
| METRIC_ENGINE_GROUP_3D_ALL_UTILIZATION
| METRIC_EU_ACTIVE_STALL_IDLE
| METRIC_RAS_ERROR
| METRIC_MEMORY_TEMPERATURE
| METRIC_FREQUENCY_THROTTLE
| METRIC_FREQUENCY_THROTTLE_REASON_GPU
| METRIC_PCIE_READ_THROUGHPUT
| METRIC_PCIE_WRITE_THROUGHPUT
| METRIC_PCIE_READ
| METRIC_PCIE_WRITE
| METRIC_FABRIC_THROUGHPUT
| METRIC_PERF
| DEVICE_CAPABILITY_MAX.

Scheme Equality for t.
End DeviceCapability.

Inductive xpum_stats_type_t :=
| XPUM_STATS_GPU_CORE_TEMPERATURE
| XPUM_STATS_GPU_FREQUENCY
| XPUM_STATS_POWER
| XPUM_STATS_MEMORY_USED
| XPUM_STATS_MEMORY_UTILIZATION
| XPUM_STATS_MEMORY_BANDWIDTH
| XPUM_STATS_MEMORY_READ
| XPUM_STATS_MEMORY_WRITE
| XPUM_STATS_MEMORY_READ_THROUGHPUT
| XPUM_STATS_MEMORY_WRITE_THROUGHPUT
| XPUM_STATS_GPU_UTILIZATION
| XPUM_STATS_ENGINE_UTILIZATION
| XPUM_STATS_ENGINE_GROUP_COMPUTE_ALL_UTILIZATION
| XPUM_STATS_ENGINE_GROUP_MEDIA_ALL_UTILIZATION
| XPUM_STATS_ENGINE_GROUP_COPY_ALL_UTILIZATION
| XPUM_STATS_ENGINE_GROUP_RENDER_ALL_UTILIZATION
| XPUM_STATS_ENGINE_GROUP_3D_ALL_UTILIZATION
| XPUM_STATS_ENERGY
| XPUM_STATS_EU_ACTIVE
| XPUM_STATS_EU_STALL
| XPUM_STATS_EU_IDLE
| XPUM_STATS_RAS_ERROR_CAT_RESET
| XPUM_STATS_RAS_ERROR_CAT_PROGRAMMING_ERRORS
| XPUM_STATS_RAS_ERROR_CAT_DRIVER_ERRORS
| XPUM_STATS_RAS_ERROR_CAT_CACHE_ERRORS_CORRECTABLE
| XPUM_STATS_RAS_ERROR_CAT_CACHE_ERRORS_UNCORRECTABLE
| XPUM_STATS_RAS_ERROR_CAT_DISPLAY_ERRORS_CORRECTABLE
| XPUM_STATS_RAS_ERROR_CAT_DISPLAY_ERRORS_UNCORRECTABLE
| XPUM_STATS_RAS_ERROR_CAT_NON_COMPUTE_ERRORS_CORRECTABLE
| XPUM_STATS_RAS_ERROR_CAT_NON_COMPUTE_ERRORS_UNCORRECTABLE
| XPUM_STATS_GPU_REQUEST_FREQUENCY
| XPUM_STATS_MEMORY_TEMPERATURE
| XPUM_STATS_FREQUENCY_THROTTLE
| XPUM_STATS_FREQUENCY_THROTTLE_REASON_GPU
| XPUM_STATS_PCIE_READ_THROUGHPUT
| XPUM_STATS_PCIE_WRITE_THROUGHPUT
| XPUM_STATS_PCIE_READ
| XPUM_STATS_PCIE_WRITE
| XPUM_STATS_FABRIC_THROUGHPUT
| XPUM_STATS_MEDIA_ENGINE_FREQUENCY
| XPUM_STATS_MAX.

Inductive FabricThroughputType :=
| RECEIVED
| TRANSMITTED
| RECEIVED_COUNTER
| TRANSMITTED_COUNTER.

Inductive xpum_fabric_throughput_type_t :=
| XPUM_FABRIC_THROUGHPUT_TYPE_RECEIVED
| XPUM_FABRIC_THROUGHPUT_TYPE_TRANSMITTED
| XPUM_FABRIC_THROUGHPUT_TYPE_RECEIVED_COUNTER
| XPUM_FABRIC_THROUGHPUT_TYPE_TRANSMITTED_COUNTER
| XPUM_FABRIC_THROUGHPUT_TYPE_MAX.

Inductive xpum_result_t :=
| XPUM_OK
| XPUM_GENERIC_ERROR
| XPUM_BUFFER_TOO_SMALL
| XPUM_RESULT_DEVICE_NOT_FOUND
| XPUM_METRIC_NOT_SUPPORTED
| XPUM_METRIC_NOT_ENABLED.

Module Utility.

Definition capabilityFromMeasurementType (measurementType : MeasurementType)
  : DeviceCapability.t :=
  match measurementType with
  | METRIC_TEMPERATURE => DeviceCapability.METRIC_TEMPERATURE
  | METRIC_FREQUENCY => DeviceCapability.METRIC_FREQUENCY
  | METRIC_REQUEST_FREQUENCY => DeviceCapability.METRIC_FREQUENCY
  | METRIC_MEDIA_ENGINE_FREQUENCY => DeviceCapability.METRIC_FREQUENCY
  | METRIC_POWER => DeviceCapability.METRIC_POWER
  | METRIC_MEMORY_USED => DeviceCapability.METRIC_MEMORY_USED_UTILIZATION
  | METRIC_MEMORY_UTILIZATION => DeviceCapability.METRIC_MEMORY_USED_UTILIZATION
  | METRIC_MEMORY_BANDWIDTH => DeviceCapability.METRIC_MEMORY_THROUGHPUT_BANDWIDTH
  | METRIC_MEMORY_READ => DeviceCapability.METRIC_MEMORY_THROUGHPUT_BANDWIDTH
  | METRIC_MEMORY_WRITE => DeviceCapability.METRIC_MEMORY_THROUGHPUT_BANDWIDTH
  | METRIC_MEMORY_READ_THROUGHPUT => DeviceCapability.METRIC_MEMORY_THROUGHPUT_BANDWIDTH
  | METRIC_MEMORY_WRITE_THROUGHPUT => DeviceCapability.METRIC_MEMORY_THROUGHPUT_BANDWIDTH
  | METRIC_COMPUTATION => DeviceCapability.METRIC_COMPUTATION
  | METRIC_ENGINE_UTILIZATION => DeviceCapability.METRIC_ENGINE_UTILIZATION
  | METRIC_ENERGY => DeviceCapability.METRIC_ENERGY
  | METRIC_ENGINE_GROUP_COMPUTE_ALL_UTILIZATION =>
      DeviceCapability.METRIC_ENGINE_GROUP_COMPUTE_ALL_UTILIZATION
  | METRIC_ENGINE_GROUP_MEDIA_ALL_UTILIZATION =>
      DeviceCapability.METRIC_ENGINE_GROUP_MEDIA_ALL_UTILIZATION
  | METRIC_ENGINE_GROUP_COPY_ALL_UTILIZATION =>
      DeviceCapability.METRIC_ENGINE_GROUP_COPY_ALL_UTILIZATION
  | METRIC_ENGINE_GROUP_RENDER_ALL_UTILIZATION =>
      DeviceCapability.METRIC_ENGINE_GROUP_RENDER_ALL_UTILIZATION
  | METRIC_ENGINE_GROUP_3D_ALL_UTILIZATION =>
      DeviceCapability.METRIC_ENGINE_GROUP_3D_ALL_UTILIZATION
  | METRIC_EU_ACTIVE => DeviceCapability.METRIC_EU_ACTIVE_STALL_IDLE
  | METRIC_EU_STALL => DeviceCapability.METRIC_EU_ACTIVE_STALL_IDLE
  | METRIC_EU_IDLE => DeviceCapability.METRIC_EU_ACTIVE_STALL_IDLE
  | METRIC_RAS_ERROR_CAT_RESET => DeviceCapability.METRIC_RAS_ERROR
  | METRIC_RAS_ERROR_CAT_PROGRAMMING_ERRORS => DeviceCapability.METRIC_RAS_ERROR
  | METRIC_RAS_ERROR_CAT_DRIVER_ERRORS => DeviceCapability.METRIC_RAS_ERROR
  | METRIC_RAS_ERROR_CAT_CACHE_ERRORS_CORRECTABLE => DeviceCapability.METRIC_RAS_ERROR
  | METRIC_RAS_ERROR_CAT_CACHE_ERRORS_UNCORRECTABLE => DeviceCapability.METRIC_RAS_ERROR
  | METRIC_RAS_ERROR_CAT_DISPLAY_ERRORS_CORRECTABLE => DeviceCapability.METRIC_RAS_ERROR
  | METRIC_RAS_ERROR_CAT_DISPLAY_ERRORS_UNCORRECTABLE => DeviceCapability.METRIC_RAS_ERROR
  | METRIC_RAS_ERROR_CAT_NON_COMPUTE_ERRORS_CORRECTABLE => DeviceCapability.METRIC_RAS_ERROR
  | METRIC_RAS_ERROR_CAT_NON_COMPUTE_ERRORS_UNCORRECTABLE => DeviceCapability.METRIC_RAS_ERROR
  | METRIC_MEMORY_TEMPERATURE => DeviceCapability.METRIC_MEMORY_TEMPERATURE
  | METRIC_FREQUENCY_THROTTLE => DeviceCapability.METRIC_FREQUENCY_THROTTLE
  | METRIC_FREQUENCY_THROTTLE_REASON_GPU =>
      DeviceCapability.METRIC_FREQUENCY_THROTTLE_REASON_GPU
  | METRIC_PCIE_READ_THROUGHPUT => DeviceCapability.METRIC_PCIE_READ_THROUGHPUT
  | METRIC_PCIE_WRITE_THROUGHPUT => DeviceCapability.METRIC_PCIE_WRITE_THROUGHPUT
  | METRIC_PCIE_READ => DeviceCapability.METRIC_PCIE_READ
  | METRIC_PCIE_WRITE => DeviceCapability.METRIC_PCIE_WRITE
  | METRIC_FABRIC_THROUGHPUT => DeviceCapability.METRIC_FABRIC_THROUGHPUT
  | METRIC_PERF => DeviceCapability.METRIC_PERF
  | METRIC_MAX => DeviceCapability.DEVICE_CAPABILITY_MAX
  end.

Definition isCounterMetric (type : MeasurementType) : bool :=
  match type with
  | METRIC_ENERGY
  | METRIC_MEMORY_READ
  | METRIC_MEMORY_WRITE
  | METRIC_RAS_ERROR_CAT_RESET
  | METRIC_RAS_ERROR_CAT_PROGRAMMING_ERRORS
  | METRIC_RAS_ERROR_CAT_DRIVER_ERRORS
  | METRIC_RAS_ERROR_CAT_CACHE_ERRORS_CORRECTABLE
  | METRIC_RAS_ERROR_CAT_CACHE_ERRORS_UNCORRECTABLE
  | METRIC_RAS_ERROR_CAT_DISPLAY_ERRORS_CORRECTABLE
  | METRIC_RAS_ERROR_CAT_DISPLAY_ERRORS_UNCORRECTABLE
  | METRIC_RAS_ERROR_CAT_NON_COMPUTE_ERRORS_CORRECTABLE
  | METRIC_RAS_ERROR_CAT_NON_COMPUTE_ERRORS_UNCORRECTABLE
  | METRIC_PCIE_READ
  | METRIC_PCIE_WRITE => true
  | _ => false
  end.

Definition xpumStatsTypeFromMeasurementType (measurementType : MeasurementType)
  : xpum_stats_type_t :=
  match measurementType with
  | METRIC_TEMPERATURE => XPUM_STATS_GPU_CORE_TEMPERATURE
  | METRIC_FREQUENCY => XPUM_STATS_GPU_FREQUENCY
  | METRIC_POWER => XPUM_STATS_POWER
  | METRIC_MEMORY_USED => XPUM_STATS_MEMORY_USED
  | METRIC_MEMORY_UTILIZATION => XPUM_STATS_MEMORY_UTILIZATION
  | METRIC_MEMORY_BANDWIDTH => XPUM_STATS_MEMORY_BANDWIDTH
  | METRIC_MEMORY_READ => XPUM_STATS_MEMORY_READ
  | METRIC_MEMORY_WRITE => XPUM_STATS_MEMORY_WRITE
  | METRIC_MEMORY_READ_THROUGHPUT => XPUM_STATS_MEMORY_READ_THROUGHPUT
  | METRIC_MEMORY_WRITE_THROUGHPUT => XPUM_STATS_MEMORY_WRITE_THROUGHPUT
  | METRIC_COMPUTATION => XPUM_STATS_GPU_UTILIZATION
  | METRIC_ENGINE_UTILIZATION => XPUM_STATS_ENGINE_UTILIZATION
  | METRIC_ENGINE_GROUP_COMPUTE_ALL_UTILIZATION =>
      XPUM_STATS_ENGINE_GROUP_COMPUTE_ALL_UTILIZATION
  | METRIC_ENGINE_GROUP_MEDIA_ALL_UTILIZATION =>
      XPUM_STATS_ENGINE_GROUP_MEDIA_ALL_UTILIZATION
  | METRIC_ENGINE_GROUP_COPY_ALL_UTILIZATION =>
      XPUM_STATS_ENGINE_GROUP_COPY_ALL_UTILIZATION
  | METRIC_ENGINE_GROUP_RENDER_ALL_UTILIZATION =>
      XPUM_STATS_ENGINE_GROUP_RENDER_ALL_UTILIZATION
  | METRIC_ENGINE_GROUP_3D_ALL_UTILIZATION =>
      XPUM_STATS_ENGINE_GROUP_3D_ALL_UTILIZATION
  | METRIC_ENERGY => XPUM_STATS_ENERGY
  | METRIC_EU_ACTIVE => XPUM_STATS_EU_ACTIVE
  | METRIC_EU_STALL => XPUM_STATS_EU_STALL
  | METRIC_EU_IDLE => XPUM_STATS_EU_IDLE
  | METRIC_RAS_ERROR_CAT_RESET => XPUM_STATS_RAS_ERROR_CAT_RESET
  | METRIC_RAS_ERROR_CAT_PROGRAMMING_ERRORS => XPUM_STATS_RAS_ERROR_CAT_PROGRAMMING_ERRORS
  | METRIC_RAS_ERROR_CAT_DRIVER_ERRORS => XPUM_STATS_RAS_ERROR_CAT_DRIVER_ERRORS
  | METRIC_RAS_ERROR_CAT_CACHE_ERRORS_CORRECTABLE =>
      XPUM_STATS_RAS_ERROR_CAT_CACHE_ERRORS_CORRECTABLE
  | METRIC_RAS_ERROR_CAT_CACHE_ERRORS_UNCORRECTABLE =>
      XPUM_STATS_RAS_ERROR_CAT_CACHE_ERRORS_UNCORRECTABLE
  | METRIC_RAS_ERROR_CAT_DISPLAY_ERRORS_CORRECTABLE =>
      XPUM_STATS_RAS_ERROR_CAT_DISPLAY_ERRORS_CORRECTABLE
  | METRIC_RAS_ERROR_CAT_DISPLAY_ERRORS_UNCORRECTABLE =>
      XPUM_STATS_RAS_ERROR_CAT_DISPLAY_ERRORS_UNCORRECTABLE
  | METRIC_RAS_ERROR_CAT_NON_COMPUTE_ERRORS_CORRECTABLE =>
      XPUM_STATS_RAS_ERROR_CAT_NON_COMPUTE_ERRORS_CORRECTABLE
  | METRIC_RAS_ERROR_CAT_NON_COMPUTE_ERRORS_UNCORRECTABLE =>
      XPUM_STATS_RAS_ERROR_CAT_NON_COMPUTE_ERRORS_UNCORRECTABLE
  | METRIC_REQUEST_FREQUENCY => XPUM_STATS_GPU_REQUEST_FREQUENCY
  | METRIC_MEMORY_TEMPERATURE => XPUM_STATS_MEMORY_TEMPERATURE
  | METRIC_FREQUENCY_THROTTLE => XPUM_STATS_FREQUENCY_THROTTLE
  | METRIC_FREQUENCY_THROTTLE_REASON_GPU => XPUM_STATS_FREQUENCY_THROTTLE_REASON_GPU
  | METRIC_PCIE_READ_THROUGHPUT => XPUM_STATS_PCIE_READ_THROUGHPUT
  | METRIC_PCIE_WRITE_THROUGHPUT => XPUM_STATS_PCIE_WRITE_THROUGHPUT
  | METRIC_PCIE_READ => XPUM_STATS_PCIE_READ
  | METRIC_PCIE_WRITE => XPUM_STATS_PCIE_WRITE
  | METRIC_FABRIC_THROUGHPUT => XPUM_STATS_FABRIC_THROUGHPUT
  | METRIC_MEDIA_ENGINE_FREQUENCY => XPUM_STATS_MEDIA_ENGINE_FREQUENCY
  | METRIC_PERF | METRIC_MAX => XPUM_STATS_MAX
  end.

Definition toXPUMFabricThroughputType (type : FabricThroughputType)
  : xpum_fabric_throughput_type_t :=
  match type with
  | RECEIVED => XPUM_FABRIC_THROUGHPUT_TYPE_RECEIVED
  | TRANSMITTED => XPUM_FABRIC_THROUGHPUT_TYPE_TRANSMITTED
  | RECEIVED_COUNTER => XPUM_FABRIC_THROUGHPUT_TYPE_RECEIVED_COUNTER
  | TRANSMITTED_COUNTER => XPUM_FABRIC_THROUGHPUT_TYPE_TRANSMITTED_COUNTER
  end.

End Utility.

(** ** The collaborators of [DataLogic] *)

Module FabricThroughputInfo.
Record t := {
  attach_id : Z;
  remote_fabric_id : Z;
  remote_attach_id : Z;
  type : FabricThroughputType
}.
End FabricThroughputInfo.

(** What the assemblers ask of a [Device].  [NUMBER_OF_SUBDEVICE] is the
    property of that name as the [uint32_t num_subdevice] receives it;
    [getEngineIndex] answers [U32.max] for a handle it does not know;
    [getFabricThroughputInfo] is [None] where the C++ method returns
    [false]. *)
Module Device.
Record t := {
  NUMBER_OF_SUBDEVICE : Z;
  PCI_BDF_ADDRESS : string;
  getCapability : list DeviceCapability.t;
  getEngineCount : Z;
  getEngineIndex : Z -> Z;
  getFabricThroughputInfoCount : Z;
  getFabricThroughputInfo : Z -> option FabricThroughputInfo.t
}.
End Device.

(** [DataHandlerManager]: the statistics store is read at a point in time
    (milliseconds), since the sampler thread fills it while a caller
    waits. *)
Module DataHandlerManager.
Record t := {
  getLatestData : MeasurementType -> Z -> option MeasurementData;
  getLatestStatistics : Z -> MeasurementType -> Z -> Z -> option MeasurementData;
  getStatsTimestamp : Z -> Z -> Z;
  getEngineStatsTimestamp : Z -> Z -> Z;
  getFabricStatsTimestamp : Z -> Z -> Z
}.
End DataHandlerManager.

(** [Core::instance()] with the configuration and the idle-power probe.
    [getDeviceIDByFabricID] is [None] for the empty string, and otherwise
    the number [std::stoi] reads from it.  [engineType] stands for
    [toXPUMEngineType (getEngineType handle)]. *)
Module Core.
Record t := {
  getDevice : Z -> option Device.t;
  getDeviceIDByFabricID : Z -> option Z;
  getEnabledMetrics : list MeasurementType;
  loadPVCIdlePowers : string -> MeasurementData;
  engineType : Z -> Z;
  p_data_handler_manager : option DataHandlerManager.t
}.
End Core.

(** ** Output rows *)

Module xpum_device_stats_data_t.
Record t := {
  metricsType : xpum_stats_type_t;
  isCounter : bool;
  value : Z;
  accumulated : Z;
  min : Z;
  avg : Z;
  max : Z;
  scale : Z
}.
End xpum_device_stats_data_t.

(** [count] of the C struct is the length of [dataList]. *)
Module xpum_device_stats_t.
Record t := {
  deviceId : Z;
  isTileData : bool;
  tileId : Z;
  dataList : list xpum_device_stats_data_t.t
}.
End xpum_device_stats_t.

Module xpum_device_metric_data_t.
Record t := {
  metricsType : xpum_stats_type_t;
  isCounter : bool;
  value : Z;
  timestamp : Z;
  scale : Z
}.
End xpum_device_metric_data_t.

Module xpum_device_metrics_t.
Record t := {
  deviceId : Z;
  isTileData : bool;
  tileId : Z;
  dataList : list xpum_device_metric_data_t.t
}.
End xpum_device_metrics_t.

Module xpum_device_engine_stats_t.
Record t := {
  isTileData : bool;
  tileId : Z;
  value : Z;
  min : Z;
  avg : Z;
  max : Z;
  index : Z;
  scale : Z;
  type : Z;
  deviceId : Z
}.
End xpum_device_engine_stats_t.

Module xpum_device_fabric_throughput_stats_t.
Record t := {
  tile_id : Z;
  remote_device_id : Z;
  remote_device_tile_id : Z;
  type : xpum_fabric_throughput_type_t;
  value : Z;
  accumulated : Z;
  min : Z;
  avg : Z;
  max : Z;
  scale : Z;
  deviceId : Z
}.
End xpum_device_fabric_throughput_stats_t.

Module xpum_device_fabric_throughput_metric_t.
Record t := {
  tile_id : Z;
  remote_device_id : Z;
  remote_device_tile_id : Z;
  type : xpum_fabric_throughput_type_t;
  scale : Z;
  value : Z
}.
End xpum_device_fabric_throughput_metric_t.

(** ** Calls, clock and exceptions *)

(** The [dataList] argument: a null pointer, or an array whose capacity the
    caller announces in [*count]. *)
Inductive out_buffer := nullptr | array.

(** What a call leaves behind: the result code, the final [*count], the
    rows stored in [dataList[0]], [dataList[1]], ... in that order, and
    [*begin] and [*end] where the call assigned them. *)
Module Reply.
Record t (row : Type) := {
  result : xpum_result_t;
  count : Z;
  dataList : list row;
  begin_time : option Z;
  end_time : option Z
}.
Arguments result {row} _.
Arguments count {row} _.
Arguments dataList {row} _.
Arguments begin_time {row} _.
Arguments end_time {row} _.
End Reply.

Inductive Event :=
| LatestStatistics (type : MeasurementType) (at_millis : Z)
| SleepFor (seconds : Z).

(** The system clock in milliseconds, advanced by [sleep_for] only, and
    the store queries and sleeps made so far. *)
Record World := {
  millis : Z;
  events : list Event
}.

Inductive outcome (A : Type) :=
| Returns (a : A) (w : World)
| Throws (what : string).
Arguments Returns {A} _ _.
Arguments Throws {A} _.

Definition M (A : Type) : Type := World -> outcome A.

Definition ret {A} (a : A) : M A := fun w => Returns a w.

Definition bind {A B} (c : M A) (k : A -> M B) : M B :=
  fun w => match c w with
           | Returns a w' => k a w'
           | Throws what => Throws what
           end.

Notation "x <- c ;; k" := (bind c (fun x => k))
  (at level 61, c at next level, right associativity).
Notation "c ;;; k" := (bind c (fun _ => k))
  (at level 61, right associativity).

(** [IlegalStateException("initialization is not done!")]. *)
Definition IlegalStateException : string := "initialization is not done!".

Definition throw {A} (what : string) : M A := fun _ => Throws what.

(** [duration_cast<seconds>(system_clock::now().time_since_epoch()).count()]. *)
Definition now_seconds : M Z := fun w => Returns (millis w / 1000) w.

(** [Utility::getCurrentTime()]. *)
Definition getCurrentTime : M Z := fun w => Returns (millis w) w.

(** [std::this_thread::sleep_for(std::chrono::seconds(s))]. *)
Definition sleep_for (s : Z) : M unit :=
  fun w => Returns tt {| millis := millis w + 1000 * s;
                         events := events w ++ [SleepFor s] |}.

(** ** DataLogic *)

Module DataLogic.
Section WithCore.

(** The numeric value of each [MeasurementType] enumerator (the
    declaration of the enumeration is not among the sources; the code
    compares enumerators by [<=] and [>=]). *)
Variable enum_value : MeasurementType -> Z.
Variable core : Core.t.

Definition getLatestData (type : MeasurementType) (device_id : Z)
  : M (option MeasurementData) :=
  match Core.p_data_handler_manager core with
  | None => throw IlegalStateException
  | Some manager => ret (DataHandlerManager.getLatestData manager type device_id)
  end.

Definition getLatestStatistics (type : MeasurementType) (device_id session_id : Z)
  : M (option MeasurementData) :=
  match Core.p_data_handler_manager core with
  | None => throw IlegalStateException
  | Some manager =>
      fun w =>
        Returns (DataHandlerManager.getLatestStatistics manager (millis w)
                   type device_id session_id)
                {| millis := millis w;
                   events := events w ++ [LatestStatistics type (millis w)] |}
  end.

Definition getStatsTimestamp (session_id device_id : Z) : M Z :=
  match Core.p_data_handler_manager core with
  | None => throw IlegalStateException
  | Some manager => ret (DataHandlerManager.getStatsTimestamp manager session_id device_id)
  end.

Definition getEngineStatsTimestamp (session_id device_id : Z) : M Z :=
  match Core.p_data_handler_manager core with
  | None => throw IlegalStateException
  | Some manager =>
      ret (DataHandlerManager.getEngineStatsTimestamp manager session_id device_id)
  end.

Definition getFabricStatsTimestamp (session_id device_id : Z) : M Z :=
  match Core.p_data_handler_manager core with
  | None => throw IlegalStateException
  | Some manager =>
      ret (DataHandlerManager.getFabricStatsTimestamp manager session_id device_id)
  end.

(** The loop that erases from [metric_types] every metric whose
    capability the device does not list. *)
Definition has_capability (capabilities : list DeviceCapability.t)
           (metric : MeasurementType) : bool :=
  existsb (fun cap =>
             DeviceCapability.t_beq cap (Utility.capabilityFromMeasurementType metric))
          capabilities.

Definition erase_unsupported (capabilities : list DeviceCapability.t)
           (metric_types : list MeasurementType) : list MeasurementType :=
  filter (has_capability capabilities) metric_types.

(** [metric_types.find(type) != metric_types.end()]. *)
Definition contains (metric_types : list MeasurementType) (type : MeasurementType) : bool :=
  existsb (MeasurementType_beq type) metric_types.

(** [m_datas]: metric type to data, and the flag [hasDataOnDevice]. *)
Definition Datas : Type := list (MeasurementType * MeasurementData) * bool.

Definition record_data (metric : MeasurementType) (p_data : MeasurementData)
           (acc : Datas) : Datas :=
  (Map.insert metric p_data (fst acc), snd acc || hasDataOnDevice p_data).

Definition is_multi_entity (metric : MeasurementType) : bool :=
  match metric with
  | METRIC_ENGINE_UTILIZATION | METRIC_FABRIC_THROUGHPUT => true
  | _ => false
  end.

Definition is_power (metric : MeasurementType) : bool :=
  match metric with
  | METRIC_POWER => true
  | _ => false
  end.

(** The metric types for which [getMetricsStatistics] polls the store. *)
Definition is_polled (metric : MeasurementType) : bool :=
  ((enum_value metric >=? enum_value METRIC_RAS_ERROR_CAT_RESET)
   && (enum_value metric <=? enum_value METRIC_RAS_ERROR_CAT_NON_COMPUTE_ERRORS_UNCORRECTABLE))
  || ((enum_value metric >=? enum_value METRIC_EU_ACTIVE)
      && (enum_value metric <=? enum_value METRIC_EU_IDLE)).

(** The polling loop [while (end_time - start_time <= 30)].  Every turn
    that finds nothing sleeps one second, so [31 - (end_time - start_time)]
    turns are enough; [fuel] counts them down. *)
Fixpoint poll_statistics (fuel : nat) (metric : MeasurementType)
         (device_id session_id start_time end_time : Z) : M (option MeasurementData) :=
  if end_time - start_time <=? 30 then
    match fuel with
    | O => ret None
    | S fuel' =>
        p_data <- getLatestStatistics metric device_id session_id ;;
        match p_data with
        | Some data => ret (Some data)
        | None =>
            sleep_for 1 ;;;
            end_time' <- now_seconds ;;
            poll_statistics fuel' metric device_id session_id start_time end_time'
        end
    end
  else ret None.

Definition poll_turns (start_time end_time : Z) : nat :=
  Z.to_nat (31 - (end_time - start_time)).

(** One turn of the metric loop of [getMetricsStatistics]. *)
Definition statistics_of_metric (bdf : string) (device_id session_id : Z)
           (metric : MeasurementType) (acc : Datas) : M Datas :=
  if negb (is_multi_entity metric) then
    let p_pvc_idle_power := Core.loadPVCIdlePowers core bdf in
    p_data <- (if is_power metric && hasDataOnDevice p_pvc_idle_power
               then ret (Some p_pvc_idle_power)
               else getLatestStatistics metric device_id session_id) ;;
    match p_data with
    | Some data => ret (record_data metric data acc)
    | None =>
        if is_polled metric then
          start_time <- now_seconds ;;
          end_time <- now_seconds ;;
          polled <- poll_statistics (poll_turns start_time end_time) metric
                      device_id session_id start_time end_time ;;
          match polled with
          | Some data => ret (record_data metric data acc)
          | None => ret acc
          end
        else ret acc
    end
  else ret acc.

Fixpoint collect_statistics (bdf : string) (device_id session_id : Z)
         (metric_types : list MeasurementType) (acc : Datas) : M Datas :=
  match metric_types with
  | [] => ret acc
  | metric :: rest =>
      acc' <- statistics_of_metric bdf device_id session_id metric acc ;;
      collect_statistics bdf device_id session_id rest acc'
  end.

(** A statistics row from the four numbers of one scope. *)
Definition stats_data (type : MeasurementType) (scale current min avg max : Z)
  : xpum_device_stats_data_t.t :=
  if Utility.isCounterMetric type then
    {| xpum_device_stats_data_t.metricsType := Utility.xpumStatsTypeFromMeasurementType type;
       xpum_device_stats_data_t.isCounter := true;
       xpum_device_stats_data_t.value := U64.sub current min;
       xpum_device_stats_data_t.accumulated := current;
       xpum_device_stats_data_t.min := 0;
       xpum_device_stats_data_t.avg := 0;
       xpum_device_stats_data_t.max := 0;
       xpum_device_stats_data_t.scale := scale |}
  else
    {| xpum_device_stats_data_t.metricsType := Utility.xpumStatsTypeFromMeasurementType type;
       xpum_device_stats_data_t.isCounter := false;
       xpum_device_stats_data_t.value := current;
       xpum_device_stats_data_t.accumulated := 0;
       xpum_device_stats_data_t.min := min;
       xpum_device_stats_data_t.avg := avg;
       xpum_device_stats_data_t.max := max;
       xpum_device_stats_data_t.scale := scale |}.

Definition device_stats_data (entry : MeasurementType * MeasurementData)
  : xpum_device_stats_data_t.t :=
  let measurementData := snd entry in
  stats_data (fst entry) (getScale measurementData) (getCurrent measurementData)
             (getMin measurementData) (getAvg measurementData) (getMax measurementData).

Definition subdevice_stats_data (i : Z) (entry : MeasurementType * MeasurementData)
  : xpum_device_stats_data_t.t :=
  let measurementData := snd entry in
  stats_data (fst entry) (getScale measurementData)
             (getSubdeviceDataCurrent measurementData i)
             (getSubdeviceDataMin measurementData i)
             (getSubdeviceDataAvg measurementData i)
             (getSubdeviceDataMax measurementData i).

(** The test a sub-device row makes for each metric. *)
Definition subdevice_has_data (i : Z) (measurementData : MeasurementData) : bool :=
  hasSubdeviceData measurementData
  && match Map.find i (getSubdeviceDatas measurementData) with
     | Some _ => true
     | None => false
     end
  && negb (getSubdeviceDataCurrent measurementData i =? U64.max).

Definition device_stats (deviceId : Z) (datas : Datas) : xpum_device_stats_t.t :=
  {| xpum_device_stats_t.deviceId := deviceId;
     xpum_device_stats_t.isTileData := false;
     xpum_device_stats_t.tileId := 0;
     xpum_device_stats_t.dataList :=
       if snd datas
       then map device_stats_data (filter (fun entry => hasDataOnDevice (snd entry)) (fst datas))
       else [] |}.

Definition subdevice_stats (deviceId i : Z) (datas : Datas) : xpum_device_stats_t.t :=
  {| xpum_device_stats_t.deviceId := deviceId;
     xpum_device_stats_t.isTileData := true;
     xpum_device_stats_t.tileId := i;
     xpum_device_stats_t.dataList :=
       map (subdevice_stats_data i)
           (filter (fun entry => subdevice_has_data i (snd entry)) (fst datas)) |}.

(** [for (uint32_t i = 0; i < num_subdevice; i++)]: the remaining tile
    numbers, the announced capacity, and the rows stored so far ([index]
    is their number). *)
Fixpoint store_subdevice_stats (tiles : list Z) (deviceId : Z) (datas : Datas)
         (capacity : Z) (stored : list xpum_device_stats_t.t)
  : xpum_result_t * Z * list xpum_device_stats_t.t :=
  match tiles with
  | [] => (XPUM_OK, Z.of_nat (List.length stored), stored)
  | i :: rest =>
      if Z.of_nat (List.length stored) >=? capacity
      then (XPUM_BUFFER_TOO_SMALL, capacity, stored)
      else store_subdevice_stats rest deviceId datas capacity
             (stored ++ [subdevice_stats deviceId i datas])
  end.

(** The tile numbers [0 .. num_subdevice - 1]. *)
Definition tiles_of (num_subdevice : Z) : list Z :=
  map Z.of_nat (seq 0 (Z.to_nat num_subdevice)).

Definition store_stats (num_subdevice deviceId : Z) (datas : Datas) (capacity : Z)
  : xpum_result_t * Z * list xpum_device_stats_t.t :=
  if 0 >=? capacity
  then (XPUM_BUFFER_TOO_SMALL, capacity, [])
  else store_subdevice_stats (tiles_of num_subdevice) deviceId datas capacity
         [device_stats deviceId datas].

(** [DataLogic::getMetricsStatistics].  [count] is the value of [*count]
    at the call. *)
Definition getMetricsStatistics (deviceId : Z) (dataList : out_buffer) (count : Z)
           (session_id : Z) : M (Reply.t xpum_device_stats_t.t) :=
  match Core.getDevice core deviceId with
  | None =>
      ret {| Reply.result := XPUM_RESULT_DEVICE_NOT_FOUND; Reply.count := count; Reply.dataList := [];
             Reply.begin_time := None; Reply.end_time := None |}
  | Some device =>
      let num_subdevice := Device.NUMBER_OF_SUBDEVICE device in
      match dataList with
      | nullptr =>
          ret {| Reply.result := XPUM_OK; Reply.count := U32.add num_subdevice 1; Reply.dataList := [];
                 Reply.begin_time := None; Reply.end_time := None |}
      | array =>
          let bdf := Device.PCI_BDF_ADDRESS device in
          let metric_types :=
            erase_unsupported (Device.getCapability device) (Core.getEnabledMetrics core) in
          datas <- collect_statistics bdf deviceId session_id metric_types ([], false) ;;
          begin <- getStatsTimestamp session_id deviceId ;;
          end_ <- getCurrentTime ;;
          let '(code, count', stored) := store_stats num_subdevice deviceId datas count in
          ret {| Reply.result := code; Reply.count := count'; Reply.dataList := stored;
                 Reply.begin_time := Some begin; Reply.end_time := Some end_ |}
      end
  end.

(** The C++ comma operator: the left operand is evaluated and dropped. *)
Definition comma {A B : Type} (a : A) (b : B) : B := b.

(** One turn of the metric loop of [getLatestMetrics]. *)
Definition latest_of_metric (bdf : string) (device_id : Z)
           (metric : MeasurementType) (acc : Datas) : M Datas :=
  if negb (is_multi_entity metric) then
    let p_pvc_idle_power := Core.loadPVCIdlePowers core bdf in
    m_data <- (if comma (is_power metric && hasDataOnDevice p_pvc_idle_power) false
               then ret (Some p_pvc_idle_power)
               else getLatestData metric device_id) ;;
    match m_data with
    | Some data => ret (record_data metric data acc)
    | None => ret acc
    end
  else ret acc.

Fixpoint collect_latest (bdf : string) (device_id : Z)
         (metric_types : list MeasurementType) (acc : Datas) : M Datas :=
  match metric_types with
  | [] => ret acc
  | metric :: rest =>
      acc' <- latest_of_metric bdf device_id metric acc ;;
      collect_latest bdf device_id rest acc'
  end.

Definition metric_data (type : MeasurementType) (measurementData : MeasurementData)
           (value : Z) : xpum_device_metric_data_t.t :=
  {| xpum_device_metric_data_t.metricsType := Utility.xpumStatsTypeFromMeasurementType type;
     xpum_device_metric_data_t.isCounter := Utility.isCounterMetric type;
     xpum_device_metric_data_t.value := value;
     xpum_device_metric_data_t.timestamp := getTimestamp measurementData;
     xpum_device_metric_data_t.scale := getScale measurementData |}.

Definition device_metrics (deviceId : Z) (datas : Datas) : xpum_device_metrics_t.t :=
  {| xpum_device_metrics_t.deviceId := deviceId;
     xpum_device_metrics_t.isTileData := false;
     xpum_device_metrics_t.tileId := 0;
     xpum_device_metrics_t.dataList :=
       if snd datas
       then map (fun entry => metric_data (fst entry) (snd entry) (getCurrent (snd entry)))
                (filter (fun entry => hasDataOnDevice (snd entry)) (fst datas))
       else [] |}.

Definition subdevice_metrics (deviceId i : Z) (datas : Datas) : xpum_device_metrics_t.t :=
  {| xpum_device_metrics_t.deviceId := deviceId;
     xpum_device_metrics_t.isTileData := true;
     xpum_device_metrics_t.tileId := i;
     xpum_device_metrics_t.dataList :=
       map (fun entry =>
              metric_data (fst entry) (snd entry) (getSubdeviceDataCurrent (snd entry) i))
           (filter (fun entry => subdevice_has_data i (snd entry)) (fst datas)) |}.

(** [DataLogic::getLatestMetrics]: the final [*count] and the rows stored
    (the function returns [void] and makes no capacity test). *)
Definition getLatestMetrics (deviceId : Z) (dataList : out_buffer) (count : Z)
  : M (Z * list xpum_device_metrics_t.t) :=
  match Core.getDevice core deviceId with
  | None => ret (count, [])
  | Some device =>
      let num_subdevice := Device.NUMBER_OF_SUBDEVICE device in
      let count' := U32.add num_subdevice 1 in
      match dataList with
      | nullptr => ret (count', [])
      | array =>
          let bdf := Device.PCI_BDF_ADDRESS device in
          let metric_types :=
            erase_unsupported (Device.getCapability device) (Core.getEnabledMetrics core) in
          datas <- collect_latest bdf deviceId metric_types ([], false) ;;
          ret (count',
               device_metrics deviceId datas
               :: map (fun i => subdevice_metrics deviceId i datas) (tiles_of num_subdevice))
      end
  end.

(** The entry loop of [getEngineStatistics]. *)
Definition engine_stats (device : Device.t) (deviceId : Z) (p_data : MeasurementData)
           (engineHandle : Z) (measurementData : MultiMetricsData)
  : xpum_device_engine_stats_t.t :=
  {| xpum_device_engine_stats_t.isTileData := on_subdevice measurementData;
     xpum_device_engine_stats_t.tileId := subdevice_id measurementData;
     xpum_device_engine_stats_t.value := mm_current measurementData;
     xpum_device_engine_stats_t.min := mm_min measurementData;
     xpum_device_engine_stats_t.avg := mm_avg measurementData;
     xpum_device_engine_stats_t.max := mm_max measurementData;
     xpum_device_engine_stats_t.index := Device.getEngineIndex device engineHandle;
     xpum_device_engine_stats_t.scale := getScale p_data;
     xpum_device_engine_stats_t.type := Core.engineType core engineHandle;
     xpum_device_engine_stats_t.deviceId := deviceId |}.

(** The test an engine entry passes to become a row. *)
Definition engine_entry_usable (device : Device.t) (entry : Z * MultiMetricsData) : bool :=
  negb (Device.getEngineIndex device (fst entry) =? U32.max)
  && negb (mm_current (snd entry) =? U64.max).

Fixpoint store_engine_stats (entries : list (Z * MultiMetricsData)) (device : Device.t)
         (deviceId : Z) (p_data : MeasurementData) (capacity : Z)
         (stored : list xpum_device_engine_stats_t.t)
  : xpum_result_t * Z * list xpum_device_engine_stats_t.t :=
  match entries with
  | [] => (XPUM_OK, Z.of_nat (List.length stored), stored)
  | entry :: rest =>
      if engine_entry_usable device entry then
        if Z.of_nat (List.length stored) >=? capacity
        then (XPUM_BUFFER_TOO_SMALL, capacity, stored)
        else store_engine_stats rest device deviceId p_data capacity
               (stored ++ [engine_stats device deviceId p_data (fst entry) (snd entry)])
      else store_engine_stats rest device deviceId p_data capacity stored
  end.

(** [DataLogic::getEngineStatistics]. *)
Definition getEngineStatistics (deviceId : Z) (dataList : out_buffer) (count : Z)
           (session_id : Z) : M (Reply.t xpum_device_engine_stats_t.t) :=
  match Core.getDevice core deviceId with
  | None =>
      ret {| Reply.result := XPUM_RESULT_DEVICE_NOT_FOUND; Reply.count := count; Reply.dataList := [];
             Reply.begin_time := None; Reply.end_time := None |}
  | Some device =>
      let engine_count := Device.getEngineCount device in
      match dataList with
      | nullptr =>
          ret {| Reply.result := XPUM_OK; Reply.count := engine_count; Reply.dataList := [];
                 Reply.begin_time := None; Reply.end_time := None |}
      | array =>
          begin <- getEngineStatsTimestamp session_id deviceId ;;
          end_ <- getCurrentTime ;;
          let metric_types := Core.getEnabledMetrics core in
          if negb (contains metric_types METRIC_ENGINE_UTILIZATION) then
            ret {| Reply.result := XPUM_METRIC_NOT_ENABLED; Reply.count := 0; Reply.dataList := [];
                   Reply.begin_time := Some begin; Reply.end_time := Some end_ |}
          else if negb (contains (erase_unsupported (Device.getCapability device) metric_types)
                                 METRIC_ENGINE_UTILIZATION) then
            ret {| Reply.result := XPUM_METRIC_NOT_SUPPORTED; Reply.count := 0; Reply.dataList := [];
                   Reply.begin_time := Some begin; Reply.end_time := Some end_ |}
          else
            p_data <- getLatestStatistics METRIC_ENGINE_UTILIZATION deviceId session_id ;;
            match p_data with
            | None =>
                ret {| Reply.result := XPUM_OK; Reply.count := 0; Reply.dataList := [];
                       Reply.begin_time := Some begin; Reply.end_time := Some end_ |}
            | Some data =>
                let '(code, count', stored) :=
                  store_engine_stats (getMultiMetricsDatas data) device deviceId data count [] in
                ret {| Reply.result := code; Reply.count := count'; Reply.dataList := stored;
                       Reply.begin_time := Some begin; Reply.end_time := Some end_ |}
            end
      end
  end.

Definition is_fabric_counter (type : FabricThroughputType) : bool :=
  match type with
  | TRANSMITTED_COUNTER | RECEIVED_COUNTER => true
  | _ => false
  end.

Definition fabric_throughput_stats (deviceId : Z) (p_data : MeasurementData)
           (info : FabricThroughputInfo.t) (remote_device_id : Z)
           (measurementData : MultiMetricsData)
  : xpum_device_fabric_throughput_stats_t.t :=
  if is_fabric_counter (FabricThroughputInfo.type info) then
    {| xpum_device_fabric_throughput_stats_t.tile_id := FabricThroughputInfo.attach_id info;
       xpum_device_fabric_throughput_stats_t.remote_device_id := remote_device_id;
       xpum_device_fabric_throughput_stats_t.remote_device_tile_id :=
         FabricThroughputInfo.remote_attach_id info;
       xpum_device_fabric_throughput_stats_t.type :=
         Utility.toXPUMFabricThroughputType (FabricThroughputInfo.type info);
       xpum_device_fabric_throughput_stats_t.value :=
         U64.sub (mm_current measurementData) (mm_min measurementData);
       xpum_device_fabric_throughput_stats_t.accumulated := mm_current measurementData;
       xpum_device_fabric_throughput_stats_t.min := 0;
       xpum_device_fabric_throughput_stats_t.avg := 0;
       xpum_device_fabric_throughput_stats_t.max := 0;
       xpum_device_fabric_throughput_stats_t.scale := 1;
       xpum_device_fabric_throughput_stats_t.deviceId := deviceId |}
  else
    {| xpum_device_fabric_throughput_stats_t.tile_id := FabricThroughputInfo.attach_id info;
       xpum_device_fabric_throughput_stats_t.remote_device_id := remote_device_id;
       xpum_device_fabric_throughput_stats_t.remote_device_tile_id :=
         FabricThroughputInfo.remote_attach_id info;
       xpum_device_fabric_throughput_stats_t.type :=
         Utility.toXPUMFabricThroughputType (FabricThroughputInfo.type info);
       xpum_device_fabric_throughput_stats_t.value := mm_current measurementData;
       xpum_device_fabric_throughput_stats_t.accumulated := 0;
       xpum_device_fabric_throughput_stats_t.min := mm_min measurementData;
       xpum_device_fabric_throughput_stats_t.avg := mm_avg measurementData;
       xpum_device_fabric_throughput_stats_t.max := mm_max measurementData;
       xpum_device_fabric_throughput_stats_t.scale := getScale p_data;
       xpum_device_fabric_throughput_stats_t.deviceId := deviceId |}.

(** The second loop of [getFabricThroughputStatistics]; on
    [XPUM_GENERIC_ERROR] the function returns at once and [*count] keeps
    its value. *)
Fixpoint store_fabric_stats (entries : list (Z * MultiMetricsData)) (device : Device.t)
         (deviceId : Z) (p_data : MeasurementData) (count : Z)
         (stored : list xpum_device_fabric_throughput_stats_t.t)
  : xpum_result_t * Z * list xpum_device_fabric_throughput_stats_t.t :=
  match entries with
  | [] => (XPUM_OK, Z.of_nat (List.length stored), stored)
  | (fabricId, measurementData) :: rest =>
      match Device.getFabricThroughputInfo device fabricId with
      | Some info =>
          match Core.getDeviceIDByFabricID core (FabricThroughputInfo.remote_fabric_id info) with
          | None => (XPUM_GENERIC_ERROR, count, stored)
          | Some did =>
              store_fabric_stats rest device deviceId p_data count
                (stored ++ [fabric_throughput_stats deviceId p_data info did measurementData])
          end
      | None => store_fabric_stats rest device deviceId p_data count stored
      end
  end.

(** The first loop of [getFabricThroughputStatistics]: [total]. *)
Definition fabric_total (device : Device.t) (entries : list (Z * MultiMetricsData)) : Z :=
  Z.of_nat (List.length
              (filter (fun entry =>
                         match Device.getFabricThroughputInfo device (fst entry) with
                         | Some _ => true
                         | None => false
                         end) entries)).

Definition is_nullptr (dataList : out_buffer) : bool :=
  match dataList with
  | nullptr => true
  | array => false
  end.

(** [DataLogic::getFabricThroughputStatistics]. *)
Definition getFabricThroughputStatistics (deviceId : Z) (dataList : out_buffer) (count : Z)
           (session_id : Z) : M (Reply.t xpum_device_fabric_throughput_stats_t.t) :=
  let reply code n stored b e :=
    {| Reply.result := code; Reply.count := n; Reply.dataList := stored; Reply.begin_time := b; Reply.end_time := e |} in
  match Core.getDevice core deviceId with
  | None => ret (reply XPUM_RESULT_DEVICE_NOT_FOUND 0 [] None None)
  | Some device =>
      let metric_types := Core.getEnabledMetrics core in
      if negb (contains metric_types METRIC_FABRIC_THROUGHPUT) then
        ret (reply XPUM_METRIC_NOT_ENABLED 0 [] None None)
      else if negb (contains (erase_unsupported (Device.getCapability device) metric_types)
                             METRIC_FABRIC_THROUGHPUT) then
        ret (reply XPUM_METRIC_NOT_SUPPORTED 0 [] None None)
      else
        let throughput_count := Device.getFabricThroughputInfoCount device in
        if is_nullptr dataList || (throughput_count =? 0) then
          ret (reply XPUM_OK throughput_count [] None None)
        else
          p_data <- getLatestStatistics METRIC_FABRIC_THROUGHPUT deviceId session_id ;;
          match p_data with
          | None => ret (reply XPUM_OK 0 [] None None)
          | Some data =>
              let total := fabric_total device (getMultiMetricsDatas data) in
              if total >? count then
                ret (reply XPUM_BUFFER_TOO_SMALL total [] None None)
              else
                begin <- getFabricStatsTimestamp session_id deviceId ;;
                end_ <- getCurrentTime ;;
                if getTimestamp data <? begin then
                  ret (reply XPUM_OK 0 [] (Some begin) (Some end_))
                else
                  let '(code, count', stored) :=
                    store_fabric_stats (getMultiMetricsDatas data) device deviceId data count [] in
                  ret (reply code count' stored (Some begin) (Some end_))
          end
  end.

Definition fabric_throughput_metric (p_data : MeasurementData)
           (info : FabricThroughputInfo.t) (remote_device_id : Z)
           (measurementData : MultiMetricsData)
  : xpum_device_fabric_throughput_metric_t.t :=
  {| xpum_device_fabric_throughput_metric_t.tile_id := FabricThroughputInfo.attach_id info;
     xpum_device_fabric_throughput_metric_t.remote_device_id := remote_device_id;
     xpum_device_fabric_throughput_metric_t.remote_device_tile_id :=
       FabricThroughputInfo.remote_attach_id info;
     xpum_device_fabric_throughput_metric_t.type :=
       Utility.toXPUMFabricThroughputType (FabricThroughputInfo.type info);
     xpum_device_fabric_throughput_metric_t.scale :=
       if is_fabric_counter (FabricThroughputInfo.type info) then 1 else getScale p_data;
     xpum_device_fabric_throughput_metric_t.value := mm_current measurementData |}.

(** The entry loop of [getFabricThroughput]. *)
Fixpoint store_fabric_metrics (entries : list (Z * MultiMetricsData)) (device : Device.t)
         (p_data : MeasurementData) (count : Z)
         (stored : list xpum_device_fabric_throughput_metric_t.t)
  : xpum_result_t * Z * list xpum_device_fabric_throughput_metric_t.t :=
  match entries with
  | [] => (XPUM_OK, Z.of_nat (List.length stored), stored)
  | (fabricId, measurementData) :: rest =>
      match Device.getFabricThroughputInfo device fabricId with
      | Some info =>
          match Core.getDeviceIDByFabricID core (FabricThroughputInfo.remote_fabric_id info) with
          | None => (XPUM_GENERIC_ERROR, count, stored)
          | Some did =>
              if Z.of_nat (List.length stored) >=? count
              then (XPUM_BUFFER_TOO_SMALL, count, stored)
              else store_fabric_metrics rest device p_data count
                     (stored ++ [fabric_throughput_metric p_data info did measurementData])
          end
      | None => store_fabric_metrics rest device p_data count stored
      end
  end.

(** [DataLogic::getFabricThroughput]. *)
Definition getFabricThroughput (deviceId : Z) (dataList : out_buffer) (count : Z)
  : M (Reply.t xpum_device_fabric_throughput_metric_t.t) :=
  let reply code n stored :=
    {| Reply.result := code; Reply.count := n; Reply.dataList := stored;
       Reply.begin_time := None; Reply.end_time := None |} in
  match Core.getDevice core deviceId with
  | None => ret (reply XPUM_RESULT_DEVICE_NOT_FOUND 0 [])
  | Some device =>
      let metric_types := Core.getEnabledMetrics core in
      if negb (contains metric_types METRIC_FABRIC_THROUGHPUT) then
        ret (reply XPUM_METRIC_NOT_ENABLED 0 [])
      else if negb (contains (erase_unsupported (Device.getCapability device) metric_types)
                             METRIC_FABRIC_THROUGHPUT) then
        ret (reply XPUM_METRIC_NOT_SUPPORTED 0 [])
      else
        let throughput_count := Device.getFabricThroughputInfoCount device in
        if is_nullptr dataList || (count =? 0) then
          ret (reply XPUM_OK throughput_count [])
        else
          p_data <- getLatestData METRIC_FABRIC_THROUGHPUT deviceId ;;
          match p_data with
          | None => ret (reply XPUM_OK 0 [])
          | Some data =>
              let '(code, count', stored) :=
                store_fabric_metrics (getMultiMetricsDatas data) device data count [] in
              ret (reply code count' stored)
          end
  end.

End WithCore.
End DataLogic.

(** ** Vocabulary of the statements *)

Import TimeWeightedAverageDataHandler.
Import DataLogic.

(** A raw-value drop between two valid readings. *)
Definition counter_dropped (pre_data cur_data : Z) : bool :=
  both_valid pre_data cur_data && (pre_data >? cur_data).

(** [reached s subs pre_raw]: a loop over [subs] that stops at the first
    key without an entry in [pre_raw] gets as far as the key [s]. *)
Fixpoint reached (s : Z) (subs pre_raw : list (Z * SubdeviceRawData)) : bool :=
  match subs with
  | [] => false
  | (k, _) :: rest =>
      if k =? s then true
      else match Map.find k pre_raw with
           | Some _ => reached s rest pre_raw
           | None => false
           end
  end.

(** What the detection does to the previous entry of one device. *)
Definition detect_entry (measurementData pre : MeasurementData) : MeasurementData :=
  if hasSubdeviceRawData measurementData && hasSubdeviceRawData pre
  then overflow_subdevices (getSubdeviceRawDatas measurementData) measurementData pre
  else pre.

(** The current sample is a [std::map] of [std::map]s. *)
Definition well_formed (cur : SharedData) : bool :=
  Map.unique_keys cur
  && forallb (fun entry => Map.unique_keys (getSubdeviceRawDatas (snd entry))) cur.


(** The metric is enabled and the device has the capability for it. *)
Definition available (core : Core.t) (device : Device.t) (metric : MeasurementType) : bool :=
  contains (Core.getEnabledMetrics core) metric
  && contains (erase_unsupported (Device.getCapability device) (Core.getEnabledMetrics core))
              metric.

(** The store queries and sleeps of [turns] unsuccessful turns of the
    polling loop that starts at [t] milliseconds. *)
Fixpoint poll_events (metric : MeasurementType) (t : Z) (turns : nat) : list Event :=
  match turns with
  | O => []
  | S turns' =>
      LatestStatistics metric t :: SleepFor 1 :: poll_events metric (t + 1000) turns'
  end.

(** ** Samples used in the examples *)

Module Samples.

(** A sample with a device-level raw reading [(raw, time)], if any, and the
    sub-device raw readings [subs]; no derived value has been written. *)
Definition sample (on_device : option (Z * Z)) (subs : list (Z * SubdeviceRawData))
  : MeasurementData :=
  {| getCurrent := U64.max; getMin := U64.max; getAvg := U64.max; getMax := U64.max;
     getScale := 1; getTimestamp := 0;
     hasDataOnDevice := false;
     hasRawDataOnDevice := match on_device with Some _ => true | None => false end;
     getRawdata := match on_device with Some rt => fst rt | None => U64.max end;
     getRawTimestamp := match on_device with Some rt => snd rt | None => 0 end;
     getSubdeviceDatas := [];
     getSubdeviceRawDatas := subs;
     getMultiMetricsDatas := [] |}.

Definition reading (raw time : Z) : SubdeviceRawData :=
  {| raw_data := raw; raw_timestamp := time |}.

End Samples.

(** ** Fixtures used in the examples *)

Module Fixtures.

(** The enumerators numbered in the order of the [switch] of
    [Utility::xpumStatsTypeFromMeasurementType]. *)
Definition declared_order (type : MeasurementType) : Z :=
  match type with
  | METRIC_TEMPERATURE => 0
  | METRIC_FREQUENCY => 1
  | METRIC_POWER => 2
  | METRIC_MEMORY_USED => 3
  | METRIC_MEMORY_UTILIZATION => 4
  | METRIC_MEMORY_BANDWIDTH => 5
  | METRIC_MEMORY_READ => 6
  | METRIC_MEMORY_WRITE => 7
  | METRIC_MEMORY_READ_THROUGHPUT => 8
  | METRIC_MEMORY_WRITE_THROUGHPUT => 9
  | METRIC_COMPUTATION => 10
  | METRIC_ENGINE_UTILIZATION => 11
  | METRIC_ENGINE_GROUP_COMPUTE_ALL_UTILIZATION => 12
  | METRIC_ENGINE_GROUP_MEDIA_ALL_UTILIZATION => 13
  | METRIC_ENGINE_GROUP_COPY_ALL_UTILIZATION => 14
  | METRIC_ENGINE_GROUP_RENDER_ALL_UTILIZATION => 15
  | METRIC_ENGINE_GROUP_3D_ALL_UTILIZATION => 16
  | METRIC_ENERGY => 17
  | METRIC_EU_ACTIVE => 18
  | METRIC_EU_STALL => 19
  | METRIC_EU_IDLE => 20
  | METRIC_RAS_ERROR_CAT_RESET => 21
  | METRIC_RAS_ERROR_CAT_PROGRAMMING_ERRORS => 22
  | METRIC_RAS_ERROR_CAT_DRIVER_ERRORS => 23
  | METRIC_RAS_ERROR_CAT_CACHE_ERRORS_CORRECTABLE => 24
  | METRIC_RAS_ERROR_CAT_CACHE_ERRORS_UNCORRECTABLE => 25
  | METRIC_RAS_ERROR_CAT_DISPLAY_ERRORS_CORRECTABLE => 26
  | METRIC_RAS_ERROR_CAT_DISPLAY_ERRORS_UNCORRECTABLE => 27
  | METRIC_RAS_ERROR_CAT_NON_COMPUTE_ERRORS_CORRECTABLE => 28
  | METRIC_RAS_ERROR_CAT_NON_COMPUTE_ERRORS_UNCORRECTABLE => 29
  | METRIC_REQUEST_FREQUENCY => 30
  | METRIC_MEMORY_TEMPERATURE => 31
  | METRIC_FREQUENCY_THROTTLE => 32
  | METRIC_FREQUENCY_THROTTLE_REASON_GPU => 33
  | METRIC_PCIE_READ_THROUGHPUT => 34
  | METRIC_PCIE_WRITE_THROUGHPUT => 35
  | METRIC_PCIE_READ => 36
  | METRIC_PCIE_WRITE => 37
  | METRIC_FABRIC_THROUGHPUT => 38
  | METRIC_MEDIA_ENGINE_FREQUENCY => 39
  | METRIC_PERF => 40
  | METRIC_MAX => 41
  end.

(** Statistics of one scope. *)
Definition statistics (current min avg max : Z) (tiles : list (Z * SubdeviceData))
  : MeasurementData :=
  {| getCurrent := current; getMin := min; getAvg := avg; getMax := max;
     getScale := 100; getTimestamp := 5000;
     hasDataOnDevice := true;
     hasRawDataOnDevice := false; getRawdata := U64.max; getRawTimestamp := 0;
     getSubdeviceDatas := tiles;
     getSubdeviceRawDatas := [];
     getMultiMetricsDatas := [] |}.

(** A multi-entity sample: engines or fabric links. *)
Definition collection (timestamp : Z) (entries : list (Z * MultiMetricsData))
  : MeasurementData :=
  {| getCurrent := U64.max; getMin := U64.max; getAvg := U64.max; getMax := U64.max;
     getScale := 100; getTimestamp := timestamp;
     hasDataOnDevice := false;
     hasRawDataOnDevice := false; getRawdata := U64.max; getRawTimestamp := 0;
     getSubdeviceDatas := [];
     getSubdeviceRawDatas := [];
     getMultiMetricsDatas := entries |}.

Definition entity (current min avg max : Z) : MultiMetricsData :=
  {| mm_current := current; mm_min := min; mm_avg := avg; mm_max := max;
     on_subdevice := true; subdevice_id := 0 |}.

Definition no_data : MeasurementData := Samples.sample None [].

Definition tile (current min avg max : Z) : SubdeviceData :=
  {| sd_current := current; sd_min := min; sd_avg := avg; sd_max := max |}.

(** Fabric links 1 and 2 of the device: link 1 counts transmitted bytes
    towards fabric 70, link 2 reports the bandwidth received from fabric
    71; link 3 leads to fabric 99. *)
Definition link (fabricId : Z) : option FabricThroughputInfo.t :=
  if fabricId =? 1 then
    Some {| FabricThroughputInfo.attach_id := 0;
            FabricThroughputInfo.remote_fabric_id := 70;
            FabricThroughputInfo.remote_attach_id := 1;
            FabricThroughputInfo.type := TRANSMITTED_COUNTER |}
  else if fabricId =? 2 then
    Some {| FabricThroughputInfo.attach_id := 1;
            FabricThroughputInfo.remote_fabric_id := 71;
            FabricThroughputInfo.remote_attach_id := 0;
            FabricThroughputInfo.type := RECEIVED |}
  else if fabricId =? 3 then
    Some {| FabricThroughputInfo.attach_id := 1;
            FabricThroughputInfo.remote_fabric_id := 99;
            FabricThroughputInfo.remote_attach_id := 0;
            FabricThroughputInfo.type := RECEIVED |}
  else None.

(** A two-tile device with every capability the examples use; engine
    handles 10 and 11 are its engines 0 and 1. *)
Definition device : Device.t :=
  {| Device.NUMBER_OF_SUBDEVICE := 2;
     Device.PCI_BDF_ADDRESS := "0000:4d:00.0";
     Device.getCapability :=
       [DeviceCapability.METRIC_POWER; DeviceCapability.METRIC_ENERGY;
        DeviceCapability.METRIC_EU_ACTIVE_STALL_IDLE;
        DeviceCapability.METRIC_ENGINE_UTILIZATION;
        DeviceCapability.METRIC_FABRIC_THROUGHPUT];
     Device.getEngineCount := 2;
     Device.getEngineIndex :=
       fun handle => if handle =? 10 then 0 else if handle =? 11 then 1 else U32.max;
     Device.getFabricThroughputInfoCount := 2;
     Device.getFabricThroughputInfo := link |}.

(** The store: power and energy statistics on the device and on tile 0, an
    engine sample with an unknown handle and an entry without data, and a
    fabric sample given as [fabric]; nothing for the other metrics. *)
Definition manager (fabric : list (Z * MultiMetricsData)) : DataHandlerManager.t :=
  let latest type :=
    match type with
    | METRIC_POWER => Some (statistics 70 60 65 80 [(0, tile 35 30 32 40)])
    | METRIC_ENERGY => Some (statistics 9000 8000 8500 9000 [(0, tile 4500 4000 4200 4500)])
    | METRIC_ENGINE_UTILIZATION =>
        Some (collection 5000
                [(10, entity 50 10 30 90); (12, entity 60 10 30 90);
                 (11, entity U64.max 0 0 0)])
    | METRIC_FABRIC_THROUGHPUT => Some (collection 5000 fabric)
    | _ => None
    end in
  {| DataHandlerManager.getLatestData := fun type _ => latest type;
     DataHandlerManager.getLatestStatistics := fun _ type _ _ => latest type;
     DataHandlerManager.getStatsTimestamp := fun _ _ => 1000;
     DataHandlerManager.getEngineStatsTimestamp := fun _ _ => 1000;
     DataHandlerManager.getFabricStatsTimestamp := fun _ _ => 1000 |}.

(** Fabrics 70 and 71 belong to devices 1 and 2; fabric 99 is unknown. *)
Definition core (enabled : list MeasurementType) (idle_power : MeasurementData)
           (fabric : list (Z * MultiMetricsData)) : Core.t :=
  {| Core.getDevice := fun deviceId => if deviceId =? 0 then Some device else None;
     Core.getDeviceIDByFabricID :=
       fun fabric_id => if fabric_id =? 70 then Some 1
                        else if fabric_id =? 71 then Some 2 else None;
     Core.getEnabledMetrics := enabled;
     Core.loadPVCIdlePowers := fun _ => idle_power;
     Core.engineType := fun _ => 0;
     Core.p_data_handler_manager := Some (manager fabric) |}.

Definition start : World := {| millis := 7000; events := [] |}.

End Fixtures.

(** ** Further code of [utility.cpp] *)

(** [zes_engine_group_t] of the Level Zero headers: the enumerators that
    the two switches below name; [ZES_ENGINE_GROUP_other] stands for every
    other engine group. *)
Inductive zes_engine_group_t :=
| ZES_ENGINE_GROUP_COMPUTE_SINGLE
| ZES_ENGINE_GROUP_RENDER_SINGLE
| ZES_ENGINE_GROUP_MEDIA_DECODE_SINGLE
| ZES_ENGINE_GROUP_MEDIA_ENCODE_SINGLE
| ZES_ENGINE_GROUP_COPY_SINGLE
| ZES_ENGINE_GROUP_MEDIA_ENHANCEMENT_SINGLE
| ZES_ENGINE_GROUP_3D_SINGLE
| ZES_ENGINE_GROUP_FORCE_UINT32
| ZES_ENGINE_GROUP_other.

Inductive xpum_engine_type_t :=
| XPUM_ENGINE_TYPE_COMPUTE
| XPUM_ENGINE_TYPE_RENDER
| XPUM_ENGINE_TYPE_DECODE
| XPUM_ENGINE_TYPE_ENCODE
| XPUM_ENGINE_TYPE_COPY
| XPUM_ENGINE_TYPE_MEDIA_ENHANCEMENT
| XPUM_ENGINE_TYPE_3D
| XPUM_ENGINE_TYPE_UNKNOWN.

(** [int] on the platforms the library is built for: 32 bits, two's
    complement.  A conversion from [unsigned] keeps the value when [int]
    can hold it and wraps it otherwise; an addition whose result [int]
    cannot hold is undefined behaviour, [None] here. *)
Module Int32.
Definition max : Z := 2 ^ 31 - 1.
Definition min : Z := - 2 ^ 31.
Definition of_unsigned (x : Z) : Z := if x <=? max then x else x - U32.modulus.
Definition add (a b : Z) : option Z :=
  if (min <=? a + b) && (a + b <=? max) then Some (a + b) else None.
End Int32.

Module UtilityTables.

Definition measurementTypeFromCapability (capability : DeviceCapability.t)
  : MeasurementType :=
  match capability with
  | DeviceCapability.METRIC_TEMPERATURE => METRIC_TEMPERATURE
  | DeviceCapability.METRIC_FREQUENCY => METRIC_FREQUENCY
  | DeviceCapability.METRIC_POWER => METRIC_POWER
  | DeviceCapability.METRIC_ENERGY => METRIC_ENERGY
  | DeviceCapability.METRIC_MEMORY_USED_UTILIZATION => METRIC_MEMORY_USED
  | DeviceCapability.METRIC_MEMORY_THROUGHPUT_BANDWIDTH => METRIC_MEMORY_READ
  | DeviceCapability.METRIC_COMPUTATION => METRIC_COMPUTATION
  | DeviceCapability.METRIC_ENGINE_UTILIZATION => METRIC_ENGINE_UTILIZATION
  | DeviceCapability.METRIC_ENGINE_GROUP_COMPUTE_ALL_UTILIZATION =>
      METRIC_ENGINE_GROUP_COMPUTE_ALL_UTILIZATION
  | DeviceCapability.METRIC_ENGINE_GROUP_MEDIA_ALL_UTILIZATION =>
      METRIC_ENGINE_GROUP_MEDIA_ALL_UTILIZATION
  | DeviceCapability.METRIC_ENGINE_GROUP_COPY_ALL_UTILIZATION =>
      METRIC_ENGINE_GROUP_COPY_ALL_UTILIZATION
  | DeviceCapability.METRIC_ENGINE_GROUP_RENDER_ALL_UTILIZATION =>
      METRIC_ENGINE_GROUP_RENDER_ALL_UTILIZATION
  | DeviceCapability.METRIC_ENGINE_GROUP_3D_ALL_UTILIZATION =>
      METRIC_ENGINE_GROUP_3D_ALL_UTILIZATION
  | DeviceCapability.METRIC_EU_ACTIVE_STALL_IDLE => METRIC_EU_ACTIVE
  | DeviceCapability.METRIC_RAS_ERROR => METRIC_RAS_ERROR_CAT_RESET
  | DeviceCapability.METRIC_MEMORY_TEMPERATURE => METRIC_MEMORY_TEMPERATURE
  | DeviceCapability.METRIC_FREQUENCY_THROTTLE => METRIC_FREQUENCY_THROTTLE
  | DeviceCapability.METRIC_FREQUENCY_THROTTLE_REASON_GPU =>
      METRIC_FREQUENCY_THROTTLE_REASON_GPU
  | DeviceCapability.METRIC_PCIE_READ_THROUGHPUT => METRIC_PCIE_READ_THROUGHPUT
  | DeviceCapability.METRIC_PCIE_WRITE_THROUGHPUT => METRIC_PCIE_WRITE_THROUGHPUT
  | DeviceCapability.METRIC_PCIE_READ => METRIC_PCIE_READ
  | DeviceCapability.METRIC_PCIE_WRITE => METRIC_PCIE_WRITE
  | DeviceCapability.METRIC_FABRIC_THROUGHPUT => METRIC_FABRIC_THROUGHPUT
  | DeviceCapability.METRIC_PERF | DeviceCapability.DEVICE_CAPABILITY_MAX => METRIC_MAX
  end.

(** [Utility::getMetricsTypes]: the types in the order of the
    [push_back]s. *)
Definition getMetricsTypes : list MeasurementType :=
  [METRIC_FREQUENCY; METRIC_POWER; METRIC_ENERGY; METRIC_TEMPERATURE;
   METRIC_MEMORY_USED; METRIC_MEMORY_UTILIZATION; METRIC_MEMORY_BANDWIDTH;
   METRIC_MEMORY_READ; METRIC_MEMORY_WRITE;
   METRIC_MEMORY_READ_THROUGHPUT; METRIC_MEMORY_WRITE_THROUGHPUT;
   METRIC_COMPUTATION; METRIC_ENGINE_UTILIZATION;
   METRIC_ENGINE_GROUP_COMPUTE_ALL_UTILIZATION;
   METRIC_ENGINE_GROUP_MEDIA_ALL_UTILIZATION;
   METRIC_ENGINE_GROUP_COPY_ALL_UTILIZATION;
   METRIC_ENGINE_GROUP_RENDER_ALL_UTILIZATION;
   METRIC_ENGINE_GROUP_3D_ALL_UTILIZATION;
   METRIC_EU_ACTIVE; METRIC_EU_STALL; METRIC_EU_IDLE;
   METRIC_RAS_ERROR_CAT_RESET;
   METRIC_RAS_ERROR_CAT_PROGRAMMING_ERRORS;
   METRIC_RAS_ERROR_CAT_DRIVER_ERRORS;
   METRIC_RAS_ERROR_CAT_CACHE_ERRORS_CORRECTABLE;
   METRIC_RAS_ERROR_CAT_CACHE_ERRORS_UNCORRECTABLE;
   METRIC_RAS_ERROR_CAT_DISPLAY_ERRORS_CORRECTABLE;
   METRIC_RAS_ERROR_CAT_DISPLAY_ERRORS_UNCORRECTABLE;
   METRIC_RAS_ERROR_CAT_NON_COMPUTE_ERRORS_CORRECTABLE;
   METRIC_RAS_ERROR_CAT_NON_COMPUTE_ERRORS_UNCORRECTABLE;
   METRIC_REQUEST_FREQUENCY; METRIC_MEMORY_TEMPERATURE;
   METRIC_FREQUENCY_THROTTLE; METRIC_FREQUENCY_THROTTLE_REASON_GPU;
   METRIC_PCIE_READ_THROUGHPUT; METRIC_PCIE_WRITE_THROUGHPUT;
   METRIC_PCIE_READ; METRIC_PCIE_WRITE;
   METRIC_FABRIC_THROUGHPUT; METRIC_MEDIA_ENGINE_FREQUENCY].

(** [Utility::isMetric]: [std::find] over [getMetricsTypes]. *)
Definition isMetric (type : MeasurementType) : bool :=
  existsb (MeasurementType_beq type) getMetricsTypes.

Definition measurementTypeFromXpumStatsType (xpumStatsType : xpum_stats_type_t)
  : MeasurementType :=
  match xpumStatsType with
  | XPUM_STATS_GPU_CORE_TEMPERATURE => METRIC_TEMPERATURE
  | XPUM_STATS_GPU_FREQUENCY => METRIC_FREQUENCY
  | XPUM_STATS_POWER => METRIC_POWER
  | XPUM_STATS_MEMORY_USED => METRIC_MEMORY_USED
  | XPUM_STATS_MEMORY_UTILIZATION => METRIC_MEMORY_UTILIZATION
  | XPUM_STATS_MEMORY_BANDWIDTH => METRIC_MEMORY_BANDWIDTH
  | XPUM_STATS_MEMORY_READ => METRIC_MEMORY_READ
  | XPUM_STATS_MEMORY_WRITE => METRIC_MEMORY_WRITE
  | XPUM_STATS_MEMORY_READ_THROUGHPUT => METRIC_MEMORY_READ_THROUGHPUT
  | XPUM_STATS_MEMORY_WRITE_THROUGHPUT => METRIC_MEMORY_WRITE_THROUGHPUT
  | XPUM_STATS_GPU_UTILIZATION => METRIC_COMPUTATION
  | XPUM_STATS_ENGINE_UTILIZATION => METRIC_ENGINE_UTILIZATION
  | XPUM_STATS_ENGINE_GROUP_COMPUTE_ALL_UTILIZATION =>
      METRIC_ENGINE_GROUP_COMPUTE_ALL_UTILIZATION
  | XPUM_STATS_ENGINE_GROUP_MEDIA_ALL_UTILIZATION =>
      METRIC_ENGINE_GROUP_MEDIA_ALL_UTILIZATION
  | XPUM_STATS_ENGINE_GROUP_COPY_ALL_UTILIZATION =>
      METRIC_ENGINE_GROUP_COPY_ALL_UTILIZATION
  | XPUM_STATS_ENGINE_GROUP_RENDER_ALL_UTILIZATION =>
      METRIC_ENGINE_GROUP_RENDER_ALL_UTILIZATION
  | XPUM_STATS_ENGINE_GROUP_3D_ALL_UTILIZATION =>
      METRIC_ENGINE_GROUP_3D_ALL_UTILIZATION
  | XPUM_STATS_ENERGY => METRIC_ENERGY
  | XPUM_STATS_EU_ACTIVE => METRIC_EU_ACTIVE
  | XPUM_STATS_EU_STALL => METRIC_EU_STALL
  | XPUM_STATS_EU_IDLE => METRIC_EU_IDLE
  | XPUM_STATS_RAS_ERROR_CAT_RESET => METRIC_RAS_ERROR_CAT_RESET
  | XPUM_STATS_RAS_ERROR_CAT_PROGRAMMING_ERRORS => METRIC_RAS_ERROR_CAT_PROGRAMMING_ERRORS
  | XPUM_STATS_RAS_ERROR_CAT_DRIVER_ERRORS => METRIC_RAS_ERROR_CAT_DRIVER_ERRORS
  | XPUM_STATS_RAS_ERROR_CAT_CACHE_ERRORS_CORRECTABLE =>
      METRIC_RAS_ERROR_CAT_CACHE_ERRORS_CORRECTABLE
  | XPUM_STATS_RAS_ERROR_CAT_CACHE_ERRORS_UNCORRECTABLE =>
      METRIC_RAS_ERROR_CAT_CACHE_ERRORS_UNCORRECTABLE
  | XPUM_STATS_RAS_ERROR_CAT_DISPLAY_ERRORS_CORRECTABLE =>
      METRIC_RAS_ERROR_CAT_DISPLAY_ERRORS_CORRECTABLE
  | XPUM_STATS_RAS_ERROR_CAT_DISPLAY_ERRORS_UNCORRECTABLE =>
      METRIC_RAS_ERROR_CAT_DISPLAY_ERRORS_UNCORRECTABLE
  | XPUM_STATS_RAS_ERROR_CAT_NON_COMPUTE_ERRORS_CORRECTABLE =>
      METRIC_RAS_ERROR_CAT_NON_COMPUTE_ERRORS_CORRECTABLE
  | XPUM_STATS_RAS_ERROR_CAT_NON_COMPUTE_ERRORS_UNCORRECTABLE =>
      METRIC_RAS_ERROR_CAT_NON_COMPUTE_ERRORS_UNCORRECTABLE
  | XPUM_STATS_GPU_REQUEST_FREQUENCY => METRIC_REQUEST_FREQUENCY
  | XPUM_STATS_MEMORY_TEMPERATURE => METRIC_MEMORY_TEMPERATURE
  | XPUM_STATS_FREQUENCY_THROTTLE => METRIC_FREQUENCY_THROTTLE
  | XPUM_STATS_FREQUENCY_THROTTLE_REASON_GPU => METRIC_FREQUENCY_THROTTLE_REASON_GPU
  | XPUM_STATS_PCIE_READ_THROUGHPUT => METRIC_PCIE_READ_THROUGHPUT
  | XPUM_STATS_PCIE_WRITE_THROUGHPUT => METRIC_PCIE_WRITE_THROUGHPUT
  | XPUM_STATS_PCIE_READ => METRIC_PCIE_READ
  | XPUM_STATS_PCIE_WRITE => METRIC_PCIE_WRITE
  | XPUM_STATS_FABRIC_THROUGHPUT => METRIC_FABRIC_THROUGHPUT
  | XPUM_STATS_MEDIA_ENGINE_FREQUENCY => METRIC_MEDIA_ENGINE_FREQUENCY
  | XPUM_STATS_MAX => METRIC_MAX
  end.

Definition toXPUMEngineType (type : zes_engine_group_t) : xpum_engine_type_t :=
  match type with
  | ZES_ENGINE_GROUP_COMPUTE_SINGLE => XPUM_ENGINE_TYPE_COMPUTE
  | ZES_ENGINE_GROUP_RENDER_SINGLE => XPUM_ENGINE_TYPE_RENDER
  | ZES_ENGINE_GROUP_MEDIA_DECODE_SINGLE => XPUM_ENGINE_TYPE_DECODE
  | ZES_ENGINE_GROUP_MEDIA_ENCODE_SINGLE => XPUM_ENGINE_TYPE_ENCODE
  | ZES_ENGINE_GROUP_COPY_SINGLE => XPUM_ENGINE_TYPE_COPY
  | ZES_ENGINE_GROUP_MEDIA_ENHANCEMENT_SINGLE => XPUM_ENGINE_TYPE_MEDIA_ENHANCEMENT
  | ZES_ENGINE_GROUP_3D_SINGLE => XPUM_ENGINE_TYPE_3D
  | ZES_ENGINE_GROUP_FORCE_UINT32 | ZES_ENGINE_GROUP_other => XPUM_ENGINE_TYPE_UNKNOWN
  end.

Definition toZESEngineType (type : xpum_engine_type_t) : zes_engine_group_t :=
  match type with
  | XPUM_ENGINE_TYPE_COMPUTE => ZES_ENGINE_GROUP_COMPUTE_SINGLE
  | XPUM_ENGINE_TYPE_RENDER => ZES_ENGINE_GROUP_RENDER_SINGLE
  | XPUM_ENGINE_TYPE_DECODE => ZES_ENGINE_GROUP_MEDIA_DECODE_SINGLE
  | XPUM_ENGINE_TYPE_ENCODE => ZES_ENGINE_GROUP_MEDIA_ENCODE_SINGLE
  | XPUM_ENGINE_TYPE_COPY => ZES_ENGINE_GROUP_COPY_SINGLE
  | XPUM_ENGINE_TYPE_MEDIA_ENHANCEMENT => ZES_ENGINE_GROUP_MEDIA_ENHANCEMENT_SINGLE
  | XPUM_ENGINE_TYPE_3D => ZES_ENGINE_GROUP_3D_SINGLE
  | XPUM_ENGINE_TYPE_UNKNOWN => ZES_ENGINE_GROUP_FORCE_UINT32
  end.

(** The [for] loop of [Utility::parallel_in_batches]: [turns] iterations
    are left; the result lists the calls [functor(start, end)] in the
    order in which the loop makes (or starts) them.  [batch_size] and
    [batch_remainder] are [unsigned]; [start] and [real_batch_size] are
    [int]: [int real_batch_size = batch_size] converts, and
    [real_batch_size += 1] and [start + real_batch_size] add in [int].
    [None] stands for the undefined behaviour of an [int] addition that
    overflows. *)
Fixpoint batches (turns : nat) (batch_size batch_remainder : Z) (start : Z)
  : option (list (Z * Z)) :=
  match turns with
  | O => Some []
  | S turns' =>
      let real_batch_size := Int32.of_unsigned batch_size in
      match (if batch_remainder >? 0 then Int32.add real_batch_size 1
             else Some real_batch_size) with
      | None => None
      | Some real_batch_size =>
          let batch_remainder' :=
            if batch_remainder >? 0 then batch_remainder - 1 else batch_remainder in
          match Int32.add start real_batch_size with
          | None => None
          | Some next =>
              match batches turns' batch_size batch_remainder' next with
              | None => None
              | Some calls => Some ((start, next) :: calls)
              end
          end
      end
  end.

(** [Utility::parallel_in_batches]: the calls of [functor], or [None] for
    undefined behaviour: the division by zero that [num_threads = 0]
    causes, or an [int] overflow in the loop.  The two arguments are
    [unsigned], that is, within [U32.in_range]; the quotient and the
    remainder of two such values are again in that range. *)
Definition parallel_in_batches (num_elements num_threads : Z) : option (list (Z * Z)) :=
  if num_elements =? 0 then Some []
  else
    let num_threads := if num_threads >? num_elements then num_elements else num_threads in
    if num_threads =? 0 then None
    else batches (Z.to_nat num_threads) (num_elements / num_threads)
                 (num_elements mod num_threads) 0.

(** What one successful [std::getline(ss, item, delim)] reads from the
    unread characters [ss]: the item, without the delimiter that ended
    it, and the characters left. *)
Fixpoint getline_item (ss : string) (delim : Ascii.ascii) : string * string :=
  match ss with
  | EmptyString => (EmptyString, EmptyString)
  | String c rest =>
      if Ascii.eqb c delim then (EmptyString, rest)
      else let (item, rest') := getline_item rest delim in (String c item, rest')
  end.

(** [std::getline]: it fails ([None]) when nothing is left to read. *)
Definition getline (ss : string) (delim : Ascii.ascii) : option (string * string) :=
  match ss with
  | EmptyString => None
  | String _ _ => Some (getline_item ss delim)
  end.

(** [while (getline (ss, item, delim))]: every successful turn reads at
    least one character, so [fuel] need not exceed their number. *)
Fixpoint split_loop (fuel : nat) (ss : string) (delim : Ascii.ascii)
         (result : list string) : list string :=
  match fuel with
  | O => result
  | S fuel' =>
      match getline ss delim with
      | None => result
      | Some (item, rest) =>
          split_loop fuel' rest delim
            (if (0 <? String.length item)%nat then result ++ [item] else result)
      end
  end.

(** [Utility::split]. *)
Definition split (s : string) (delim : Ascii.ascii) : list string :=
  split_loop (String.length s) s delim [].

End UtilityTables.

(** ** The remaining queries of [DataLogic] *)

Module xpum_device_engine_metric_t.
Record t := {
  isTileData : bool;
  tileId : Z;
  value : Z;
  index : Z;
  scale : Z;
  type : Z
}.
End xpum_device_engine_metric_t.

Module FabricLinkInfo.
Record t := {
  tile_id : Z;
  remote_device_id : Z;
  remote_tile_id : Z
}.
End FabricLinkInfo.

Module DataLogicQueries.
Section WithCore.

Variable core : Core.t.

Definition engine_metric (device : Device.t) (p_data : MeasurementData)
           (engineHandle : Z) (measurementData : MultiMetricsData)
  : xpum_device_engine_metric_t.t :=
  {| xpum_device_engine_metric_t.isTileData := on_subdevice measurementData;
     xpum_device_engine_metric_t.tileId := subdevice_id measurementData;
     xpum_device_engine_metric_t.value := mm_current measurementData;
     xpum_device_engine_metric_t.index := Device.getEngineIndex device engineHandle;
     xpum_device_engine_metric_t.scale := getScale p_data;
     xpum_device_engine_metric_t.type := Core.engineType core engineHandle |}.

(** The entry loop of [getEngineUtilizations]; [count] is the value of
    [*count] while the loop runs. *)
Fixpoint store_engine_metrics (entries : list (Z * MultiMetricsData)) (device : Device.t)
         (p_data : MeasurementData) (count : Z)
         (stored : list xpum_device_engine_metric_t.t)
  : xpum_result_t * Z * list xpum_device_engine_metric_t.t :=
  match entries with
  | [] => (XPUM_OK, Z.of_nat (List.length stored), stored)
  | (engineHandle, measurementData) :: rest =>
      if negb (Device.getEngineIndex device engineHandle =? U32.max) then
        if Z.of_nat (List.length stored) >=? count
        then (XPUM_BUFFER_TOO_SMALL, count, stored)
        else store_engine_metrics rest device p_data count
               (stored ++ [engine_metric device p_data engineHandle measurementData])
      else store_engine_metrics rest device p_data count stored
  end.

(** [DataLogic::getEngineUtilizations].  [count] is the value of [*count]
    at the call; the function assigns [*count] before it reads it. *)
Definition getEngineUtilizations (deviceId : Z) (dataList : out_buffer) (count : Z)
  : M (Reply.t xpum_device_engine_metric_t.t) :=
  let reply code n stored :=
    {| Reply.result := code; Reply.count := n; Reply.dataList := stored;
       Reply.begin_time := None; Reply.end_time := None |} in
  match Core.getDevice core deviceId with
  | None => ret (reply XPUM_RESULT_DEVICE_NOT_FOUND 0 [])
  | Some device =>
      let metric_types := Core.getEnabledMetrics core in
      if negb (contains metric_types METRIC_ENGINE_UTILIZATION) then
        ret (reply XPUM_METRIC_NOT_ENABLED 0 [])
      else if negb (contains (erase_unsupported (Device.getCapability device) metric_types)
                             METRIC_ENGINE_UTILIZATION) then
        ret (reply XPUM_METRIC_NOT_SUPPORTED 0 [])
      else
        let engine_count := Device.getEngineCount device in
        match dataList with
        | nullptr => ret (reply XPUM_OK engine_count [])
        | array =>
            p_data <- getLatestData core METRIC_ENGINE_UTILIZATION deviceId ;;
            match p_data with
            | None => ret (reply XPUM_OK 0 [])
            | Some data =>
                let '(code, count', stored) :=
                  store_engine_metrics (getMultiMetricsDatas data) device data
                                       engine_count [] in
                ret (reply code count' stored)
            end
        end
  end.

(** [Device::getFabricThroughputIDS()]: attach id, then remote fabric id,
    then the remote attach ids, each level in key order. *)
Variable getFabricThroughputIDS : Device.t -> list (Z * list (Z * list Z)).






End WithCore.
End DataLogicQueries.

(** ** Columns of [dump_task.cpp] *)

Module DumpRawDataTask.
Section Columns.

(** The text [getScaledValue(data.value, data.scale * config.scale)] of
    an entry of [rawDataMap]; [getScaledValue] works in floating point,
    and the columns below only pass its result on. *)
Variable scaled_value : xpum_device_metric_data_t.t -> string.

(** The [getValue] of a statistics column ([DUMP_OPTION_STATS]):
    [lastTimestamp] is [dc.lastTimestamp] at the call and [found] the
    entry of [rawDataMap] for the statistics type of the column, if any;
    the result is the text and the new [dc.lastTimestamp]. *)
Definition stats_column (lastTimestamp : Z) (found : option xpum_device_metric_data_t.t)
  : string * Z :=
  match found with
  | Some data =>
      (if negb (lastTimestamp =? xpum_device_metric_data_t.timestamp data)
       then scaled_value data
       else EmptyString,
       xpum_device_metric_data_t.timestamp data)
  | None => (EmptyString, lastTimestamp)
  end.

(** The values of [xpum::dump::ZES_FREQ_THROTTLE_REASON_FLAG_...] (their
    declaration is not among the sources). *)
Variables FLAG_AVE_PWR_CAP FLAG_BURST_PWR_CAP FLAG_CURRENT_LIMIT FLAG_THERMAL_LIMIT
          FLAG_PSU_ALERT FLAG_SW_RANGE FLAG_HW_RANGE : Z.

(** [if (data.value & flag) ss += text]. *)
Definition add_reason (value flag : Z) (text ss : string) : string :=
  if negb (Z.land value flag =? 0) then (ss ++ text)%string else ss.

(** The text that the throttle-reason column builds from [data.value]. *)
Definition throttle_reasons (value : Z) : string :=
  let ss := EmptyString in
  let ss := add_reason value FLAG_AVE_PWR_CAP "AVE_PWR_CAP | " ss in
  let ss := add_reason value FLAG_BURST_PWR_CAP "BURST_PWR_CAP | " ss in
  let ss := add_reason value FLAG_CURRENT_LIMIT "CURRENT_LIMIT | " ss in
  let ss := add_reason value FLAG_THERMAL_LIMIT "THERMAL_LIMIT | " ss in
  let ss := add_reason value FLAG_PSU_ALERT "PSU_ALERT | " ss in
  let ss := add_reason value FLAG_SW_RANGE "SW_RANGE | " ss in
  let ss := add_reason value FLAG_HW_RANGE "HW_RANGE | " ss in
  let ss := if (String.length ss =? 0)%nat then (ss ++ "Not Throttled | ")%string else ss in
  String.substring 0 (String.length ss - 3) ss.

(** The [getValue] of the throttle-reason column
    ([DUMP_OPTION_THROTTLE_REASON]): it returns the text before the
    assignment to [dc.lastTimestamp] is reached. *)
Definition throttle_column (lastTimestamp : Z) (found : option xpum_device_metric_data_t.t)
  : string * Z :=
  match found with
  | Some data =>
      if negb (lastTimestamp =? xpum_device_metric_data_t.timestamp data)
      then (throttle_reasons (xpum_device_metric_data_t.value data), lastTimestamp)
      else (EmptyString, xpum_device_metric_data_t.timestamp data)
  | None => (EmptyString, lastTimestamp)
  end.

(** The flags in the order of the tests, with their names. *)
Definition reasons : list (Z * string) :=
  [(FLAG_AVE_PWR_CAP, "AVE_PWR_CAP"%string); (FLAG_BURST_PWR_CAP, "BURST_PWR_CAP"%string);
   (FLAG_CURRENT_LIMIT, "CURRENT_LIMIT"%string); (FLAG_THERMAL_LIMIT, "THERMAL_LIMIT"%string);
   (FLAG_PSU_ALERT, "PSU_ALERT"%string); (FLAG_SW_RANGE, "SW_RANGE"%string);
   (FLAG_HW_RANGE, "HW_RANGE"%string)].

(** The names of the flags that are set in [value]. *)
Definition reasons_of (value : Z) : list string :=
  map snd (filter (fun reason => negb (Z.land value (fst reason) =? 0)) reasons).

End Columns.
End DumpRawDataTask.

(** ** Vocabulary of the further statements *)

(** The character [c] occurs in [s]. *)
Fixpoint occurs (c : Ascii.ascii) (s : string) : bool :=
  match s with
  | EmptyString => false
  | String c' rest => Ascii.eqb c' c || occurs c rest
  end.

(** [s] with every occurrence of [c] left out. *)
Fixpoint without (c : Ascii.ascii) (s : string) : string :=
  match s with
  | EmptyString => EmptyString
  | String c' rest => if Ascii.eqb c' c then without c rest else String c' (without c rest)
  end.

(** What [split] may return: an item that is not empty and holds no
    delimiter. *)
Definition is_item (delim : Ascii.ascii) (item : string) : Prop :=
  item <> EmptyString /\ occurs delim item = false.

(** The calls [(start, end)] follow one another from [first] to [last],
    each over a range that is not empty. *)
Fixpoint chained (first : Z) (calls : list (Z * Z)) (last : Z) : Prop :=
  match calls with
  | [] => first = last
  | (a, b) :: rest => a = first /\ a < b /\ chained b rest last
  end.

(** The engine handle of the entry is known to the device. *)
Definition engine_index_known (device : Device.t) (entry : Z * MultiMetricsData) : bool :=
  negb (Device.getEngineIndex device (fst entry) =? U32.max).




(** The metric is enabled, the device lists its capability, and it is
    not one of the multi-entity metrics. *)
Definition reportable (core : Core.t) (device : Device.t) (type : MeasurementType) : Prop :=
  In type (Core.getEnabledMetrics core)
  /\ has_capability (Device.getCapability device) type = true
  /\ is_multi_entity type = false.

(** The core before [DataLogic::init]: no handler manager yet. *)
Definition before_init (core : Core.t) : Core.t :=
  {| Core.getDevice := Core.getDevice core;
     Core.getDeviceIDByFabricID := Core.getDeviceIDByFabricID core;
     Core.getEnabledMetrics := Core.getEnabledMetrics core;
     Core.loadPVCIdlePowers := Core.loadPVCIdlePowers core;
     Core.engineType := Core.engineType core;
     Core.p_data_handler_manager := None |}.

(** The three ways in which a query for [metric] on a device fails before
    any data is looked at; [XPUM_OK] when none applies. *)
Definition availability_code (core : Core.t) (deviceId : Z) (metric : MeasurementType)
  : xpum_result_t :=
  match Core.getDevice core deviceId with
  | None => XPUM_RESULT_DEVICE_NOT_FOUND
  | Some device =>
      if negb (contains (Core.getEnabledMetrics core) metric)
      then XPUM_METRIC_NOT_ENABLED
      else if negb (has_capability (Device.getCapability device) metric)
           then XPUM_METRIC_NOT_SUPPORTED
           else XPUM_OK
  end.

(** The result is one of the codes of the row loops. *)
Definition row_loop_code (code : xpum_result_t) : Prop :=
  code = XPUM_OK \/ code = XPUM_BUFFER_TOO_SMALL \/ code = XPUM_GENERIC_ERROR.

(** The metric types for which a statistics call may wait. *)
Definition waits_for (enum_value : MeasurementType -> Z) (metric : MeasurementType) : bool :=
  negb (is_multi_entity metric) && is_polled enum_value metric.

(** The event is a sleep, or a query of the store for one of
    [metric_types]. *)
Definition queries_within (metric_types : list MeasurementType) (event : Event) : Prop :=
  match event with
  | LatestStatistics type _ => In type metric_types
  | SleepFor _ => True
  end.

(** The event is not a query of the store for [metric]. *)
Definition not_query_of (metric : MeasurementType) (event : Event) : Prop :=
  match event with
  | LatestStatistics type _ => type <> metric
  | SleepFor _ => True
  end.

(** The seconds slept in a sequence of events. *)
Fixpoint slept (trace : list Event) : Z :=
  match trace with
  | [] => 0
  | SleepFor seconds :: rest => seconds + slept rest
  | LatestStatistics _ _ :: rest => slept rest
  end.

(** No row of a statistics reply is about [metric]. *)
Definition no_row_of (metric : MeasurementType) (reply : Reply.t xpum_device_stats_t.t)
  : Prop :=
  forall stats row,
    In stats (Reply.dataList reply) ->
    In row (xpum_device_stats_t.dataList stats) ->
    xpum_device_stats_data_t.metricsType row
    <> Utility.xpumStatsTypeFromMeasurementType metric.

(** * Properties *)

(** ** Machine integers *)

Lemma U64_sub_no_borrow a b :
  U64.in_range a -> U64.in_range b -> b <= a -> U64.sub a b = a - b.
Proof.
  unfold U64.in_range, U64.sub, U64.wrap, U64.modulus. intros Ha Hb Hle.
  apply Z.mod_small. lia.
Qed.

Lemma U64_sub_diag a : U64.sub a a = 0.
Proof. unfold U64.sub, U64.wrap. rewrite Z.sub_diag. reflexivity. Qed.

Lemma U64_sub_pos a b :
  U64.in_range a -> U64.in_range b -> b < a -> 0 < U64.sub a b.
Proof.
  intros Ha Hb Hlt. rewrite U64_sub_no_borrow by (auto; lia). lia.
Qed.

(** ** Ordered maps *)

Section MapFacts.
Context {K V : Type} `{Key K}.

Lemma key_eqb_refl (k : K) : key_eqb k k = true.
Proof. apply key_eqb_eq. reflexivity. Qed.

Lemma key_eqb_neq (a b : K) : a <> b -> key_eqb a b = false.
Proof.
  intros Hne. destruct (key_eqb a b) eqn:E; [|reflexivity].
  apply key_eqb_eq in E. contradiction.
Qed.

Lemma key_eqb_false (a b : K) : key_eqb a b = false -> a <> b.
Proof.
  intros E Heq. subst. rewrite key_eqb_refl in E. discriminate.
Qed.

Lemma find_In (k : K) (v : V) m : Map.find k m = Some v -> In (k, v) m.
Proof.
  induction m as [|[k' v'] m IH]; simpl; [discriminate|].
  destruct (key_eqb k k') eqn:E.
  - intros [= ->]. apply key_eqb_eq in E. subst. now left.
  - intros Hf. right. auto.
Qed.

Lemma find_None_not_In (k : K) (v : V) m : Map.find k m = None -> ~ In (k, v) m.
Proof.
  induction m as [|[k' v'] m IH]; simpl; [auto|].
  destruct (key_eqb k k') eqn:E; [discriminate|].
  intros Hf [Heq|Hin].
  - inversion Heq; subst. rewrite key_eqb_refl in E. discriminate.
  - now apply IH.
Qed.

Lemma In_find_unique (k : K) (v : V) m :
  Map.unique_keys m = true -> In (k, v) m -> Map.find k m = Some v.
Proof.
  induction m as [|[k' v'] m IH]; simpl; [contradiction|].
  destruct (Map.find k' m) eqn:Ek'; [discriminate|].
  intros Hu [Heq|Hin].
  - inversion Heq; subst. now rewrite key_eqb_refl.
  - destruct (key_eqb k k') eqn:E.
    + apply key_eqb_eq in E. subst.
      exfalso. eapply find_None_not_In; eauto.
    + auto.
Qed.

Lemma find_update_eq (k : K) (v : V) m : Map.find k (Map.update k v m) = Some v.
Proof.
  induction m as [|[k' v'] m IH]; simpl.
  - now rewrite key_eqb_refl.
  - destruct (key_eqb k k') eqn:E; simpl; rewrite E; auto.
Qed.

Lemma find_update_neq (k k' : K) (v : V) m :
  k <> k' -> Map.find k (Map.update k' v m) = Map.find k m.
Proof.
  intros Hne. induction m as [|[k0 v0] m IH]; simpl.
  - now rewrite key_eqb_neq.
  - destruct (key_eqb k' k0) eqn:E; simpl.
    + apply key_eqb_eq in E. subst. now rewrite key_eqb_neq.
    + now rewrite IH.
Qed.

Lemma find_erase_eq (k : K) (m : list (K * V)) : Map.find k (Map.erase k m) = None.
Proof.
  unfold Map.erase. induction m as [|[k' v'] m IH]; simpl; [reflexivity|].
  destruct (key_eqb k k') eqn:E; simpl; [assumption|].
  now rewrite E.
Qed.

Lemma find_erase_neq (k k' : K) (m : list (K * V)) :
  k <> k' -> Map.find k (Map.erase k' m) = Map.find k m.
Proof.
  intros Hne. unfold Map.erase. induction m as [|[k0 v0] m IH]; simpl; [reflexivity|].
  destruct (key_eqb k' k0) eqn:E; simpl.
  - apply key_eqb_eq in E. subst. rewrite key_eqb_neq by assumption. assumption.
  - now rewrite IH.
Qed.

Lemma find_erase_Some (k k' : K) (v : V) m :
  Map.find k (Map.erase k' m) = Some v -> Map.find k m = Some v /\ k <> k'.
Proof.
  intros Hf. destruct (key_eqb k k') eqn:E.
  - apply key_eqb_eq in E. subst. rewrite find_erase_eq in Hf. discriminate.
  - apply key_eqb_false in E. rewrite find_erase_neq in Hf by assumption. auto.
Qed.

Lemma find_map_values {W : Type} (f : K -> V -> W) (k : K) (m : list (K * V)) :
  Map.find k (map (fun entry => (fst entry, f (fst entry) (snd entry))) m)
  = option_map (f k) (Map.find k m).
Proof.
  induction m as [|[k' v'] m IH]; simpl; [reflexivity|].
  destruct (key_eqb k k') eqn:E; [|assumption].
  apply key_eqb_eq in E. subst. reflexivity.
Qed.

Lemma unique_keys_tail (e : K * V) m :
  Map.unique_keys (e :: m) = true -> Map.unique_keys m = true.
Proof.
  destruct e as [k v]. simpl. destruct (Map.find k m); [discriminate|auto].
Qed.

Lemma unique_keys_head (k : K) (v : V) m :
  Map.unique_keys ((k, v) :: m) = true -> Map.find k m = None.
Proof.
  simpl. destruct (Map.find k m); [discriminate|auto].
Qed.

End MapFacts.

(** ** Measurement data *)

Lemma set_subdevice_rawdatas_id m :
  set_subdevice_rawdatas (getSubdeviceRawDatas m) m = m.
Proof. destruct m; reflexivity. Qed.

Lemma set_subdevice_datas_id m :
  set_subdevice_datas (getSubdeviceDatas m) m = m.
Proof. destruct m; reflexivity. Qed.

Lemma find_setSubdeviceDataCurrent_eq id v m :
  exists entry,
    Map.find id (getSubdeviceDatas (setSubdeviceDataCurrent id v m)) = Some entry
    /\ sd_current entry = v.
Proof.
  unfold setSubdeviceDataCurrent. simpl. rewrite find_update_eq.
  destruct (Map.find id (getSubdeviceDatas m)); eexists; split; reflexivity.
Qed.

Lemma find_setSubdeviceDataCurrent_neq id id' v m :
  id <> id' ->
  Map.find id (getSubdeviceDatas (setSubdeviceDataCurrent id' v m))
  = Map.find id (getSubdeviceDatas m).
Proof.
  intros Hne. unfold setSubdeviceDataCurrent. simpl.
  now apply find_update_neq.
Qed.

(** ** Overflow detection *)

Lemma overflow_subdevices_raw_only subs md pre :
  overflow_subdevices subs md pre
  = set_subdevice_rawdatas (getSubdeviceRawDatas (overflow_subdevices subs md pre)) pre.
Proof.
  revert pre. induction subs as [|[k r] subs IH]; intros pre; simpl.
  - now rewrite set_subdevice_rawdatas_id.
  - destruct (Map.find k (getSubdeviceRawDatas pre)).
    + destruct (both_valid _ _ && _).
      * rewrite IH at 1. reflexivity.
      * apply IH.
    + now rewrite set_subdevice_rawdatas_id.
Qed.

Lemma overflow_subdevices_mono subs md pre s v :
  Map.find s (getSubdeviceRawDatas (overflow_subdevices subs md pre)) = Some v ->
  Map.find s (getSubdeviceRawDatas pre) = Some v.
Proof.
  revert pre. induction subs as [|[k r] subs IH]; intros pre; simpl; [auto|].
  destruct (Map.find k (getSubdeviceRawDatas pre)); [|auto].
  destruct (both_valid _ _ && _).
  - intros Hf. apply IH in Hf. simpl in Hf.
    now apply find_erase_Some in Hf.
  - apply IH.
Qed.

Lemma overflow_subdevices_keeps subs md pre s v :
  Map.find s (getSubdeviceRawDatas pre) = Some v ->
  counter_dropped (raw_data v) (getSubdeviceRawData md s) = false ->
  Map.find s (getSubdeviceRawDatas (overflow_subdevices subs md pre)) = Some v.
Proof.
  revert pre. induction subs as [|[k r] subs IH]; intros pre Hf Hno; simpl; [auto|].
  destruct (Map.find k (getSubdeviceRawDatas pre)) eqn:Ek; [|auto].
  destruct (both_valid _ _ && _) eqn:Edrop.
  - apply IH; [|assumption]. simpl.
    destruct (Z.eq_dec s k) as [->|Hne].
    + unfold counter_dropped, getSubdeviceRawData in Hno, Edrop.
      rewrite Hf in Edrop. rewrite Edrop in Hno. discriminate.
    + now rewrite find_erase_neq.
  - now apply IH.
Qed.

Lemma reached_erase s k subs pre_raw :
  Map.find k subs = None ->
  reached s subs (Map.erase k pre_raw) = reached s subs pre_raw.
Proof.
  induction subs as [|[k0 r0] subs IH]; simpl; [reflexivity|].
  destruct (Z.eqb_spec k k0) as [->|Hne]; [discriminate|].
  intros Hn.
  destruct (k0 =? s); [reflexivity|].
  rewrite find_erase_neq by congruence.
  destruct (Map.find k0 pre_raw); auto.
Qed.

Lemma overflow_subdevices_clears subs md pre s v :
  Map.unique_keys subs = true ->
  Map.find s (getSubdeviceRawDatas pre) = Some v ->
  reached s subs (getSubdeviceRawDatas pre) = true ->
  counter_dropped (raw_data v) (getSubdeviceRawData md s) = true ->
  Map.find s (getSubdeviceRawDatas (overflow_subdevices subs md pre)) = None.
Proof.
  revert pre. induction subs as [|[k r] subs IH]; intros pre Hu Hf Hr Hdrop.
  - discriminate.
  - pose proof (unique_keys_head _ _ _ Hu) as Hk.
    pose proof (unique_keys_tail _ _ Hu) as Hu'.
    simpl in Hr |- *.
    destruct (Z.eqb_spec k s) as [->|Hne].
    + rewrite Hf. unfold counter_dropped, getSubdeviceRawData in Hdrop.
      unfold getSubdeviceRawData. rewrite Hf. rewrite Hdrop.
      destruct (Map.find s (getSubdeviceRawDatas
                  (overflow_subdevices subs md (clearSubdeviceRawdata s pre)))) eqn:E;
        [|reflexivity].
      apply overflow_subdevices_mono in E. simpl in E.
      rewrite find_erase_eq in E. discriminate.
    + destruct (Map.find k (getSubdeviceRawDatas pre)) eqn:Ek; [|discriminate].
      destruct (both_valid _ _ && _).
      * apply IH; auto; simpl.
        -- rewrite find_erase_neq by congruence. assumption.
        -- rewrite reached_erase by assumption. assumption.
      * apply IH; auto.
Qed.

Lemma reached_mono s subs pre_raw pre_raw' :
  (forall k v, Map.find k pre_raw' = Some v -> Map.find k pre_raw = Some v) ->
  reached s subs pre_raw' = true -> reached s subs pre_raw = true.
Proof.
  intros Hm. induction subs as [|[k r] subs IH]; simpl; [auto|].
  destruct (k =? s); [auto|].
  destruct (Map.find k pre_raw') eqn:E; [|discriminate].
  rewrite (Hm _ _ E). assumption.
Qed.

Lemma find_overflow_device_subdevices_same pre d md :
  Map.find d (overflow_device_subdevices pre d md)
  = option_map (detect_entry md) (Map.find d pre).
Proof.
  unfold overflow_device_subdevices, detect_entry.
  destruct (hasSubdeviceRawData md); simpl.
  - destruct (Map.find d pre) as [pmd|] eqn:E; simpl; [|now rewrite E].
    destruct (hasSubdeviceRawData pmd).
    + now rewrite find_update_eq.
    + now rewrite E.
  - destruct (Map.find d pre); reflexivity.
Qed.

Lemma find_overflow_device_subdevices_other pre d d' md :
  d' <> d ->
  Map.find d' (overflow_device_subdevices pre d md) = Map.find d' pre.
Proof.
  intros Hne. unfold overflow_device_subdevices.
  destruct (hasSubdeviceRawData md); [|reflexivity].
  destruct (Map.find d pre) as [pmd|]; [|reflexivity].
  destruct (hasSubdeviceRawData pmd); [|reflexivity].
  now apply find_update_neq.
Qed.

Lemma detect_entry_device_level md pre :
  hasRawDataOnDevice (detect_entry md pre) = hasRawDataOnDevice pre
  /\ getRawdata (detect_entry md pre) = getRawdata pre
  /\ getRawTimestamp (detect_entry md pre) = getRawTimestamp pre.
Proof.
  unfold detect_entry. destruct (_ && _); [|auto].
  rewrite overflow_subdevices_raw_only. simpl. auto.
Qed.

Lemma device_overflow_stable pre d0 md0 d md :
  device_overflow (overflow_device_subdevices pre d0 md0) d md = device_overflow pre d md.
Proof.
  unfold device_overflow. destruct (hasRawDataOnDevice md); [|reflexivity].
  destruct (string_dec d d0) as [->|Hne].
  - rewrite find_overflow_device_subdevices_same.
    destruct (Map.find d0 pre) as [pmd|]; simpl; [|reflexivity].
    destruct (detect_entry_device_level md0 pmd) as (-> & -> & _). reflexivity.
  - now rewrite find_overflow_device_subdevices_other.
Qed.

Lemma overflow_devices_None devices pre d md :
  In (d, md) devices ->
  device_overflow pre d md = true ->
  overflow_devices devices pre = None.
Proof.
  revert pre. induction devices as [|[d0 md0] devices IH]; intros pre Hin Hov; simpl.
  - contradiction.
  - destruct (device_overflow pre d0 md0) eqn:E0; [reflexivity|].
    destruct Hin as [Heq|Hin].
    + inversion Heq; subst. congruence.
    + apply IH; [assumption|]. now rewrite device_overflow_stable.
Qed.

Lemma overflow_devices_Some devices pre pre' :
  Map.unique_keys devices = true ->
  overflow_devices devices pre = Some pre' ->
  forall d,
    Map.find d pre'
    = match Map.find d devices with
      | Some md => option_map (detect_entry md) (Map.find d pre)
      | None => Map.find d pre
      end.
Proof.
  revert pre. induction devices as [|[d0 md0] devices IH]; intros pre Hu Hov d.
  - simpl in *. now inversion Hov.
  - pose proof (unique_keys_head _ _ _ Hu) as Hd0.
    pose proof (unique_keys_tail _ _ Hu) as Hu'.
    simpl in Hov |- *.
    destruct (device_overflow pre d0 md0); [discriminate|].
    rewrite (IH _ Hu' Hov d).
    destruct (String.eqb_spec d d0) as [->|Hne].
    + rewrite Hd0. apply find_overflow_device_subdevices_same.
    + rewrite find_overflow_device_subdevices_other by assumption. reflexivity.
Qed.

(** ** Rate computation *)

Lemma calculate_subdevices_frame subs pre md :
  calculate_subdevices subs pre md
  = set_subdevice_datas (getSubdeviceDatas (calculate_subdevices subs pre md)) md.
Proof.
  revert md. induction subs as [|[k r] subs IH]; intros md; simpl.
  - now rewrite set_subdevice_datas_id.
  - destruct (Map.find k (getSubdeviceRawDatas pre)).
    + destruct (both_valid _ _ && _).
      * rewrite IH at 1. reflexivity.
      * apply IH.
    + now rewrite set_subdevice_datas_id.
Qed.

Lemma calculate_subdevices_other subs pre md s :
  Map.find s subs = None ->
  Map.find s (getSubdeviceDatas (calculate_subdevices subs pre md))
  = Map.find s (getSubdeviceDatas md).
Proof.
  revert md. induction subs as [|[k r] subs IH]; intros md; simpl; [reflexivity|].
  destruct (Z.eqb_spec s k) as [->|Hne]; [discriminate|].
  intros Hn.
  destruct (Map.find k (getSubdeviceRawDatas pre)); [|reflexivity].
  destruct (both_valid _ _ && _).
  - rewrite IH by assumption. now apply find_setSubdeviceDataCurrent_neq.
  - now apply IH.
Qed.

Lemma unique_entry {V : Type} (k : Z) (v v' : V) (m : list (Z * V)) :
  Map.unique_keys ((k, v) :: m) = true -> In (k, v') ((k, v) :: m) -> v' = v.
Proof.
  intros Hu [Heq|Hin].
  - now inversion Heq.
  - apply unique_keys_head in Hu. exfalso. exact (find_None_not_In k v' m Hu Hin).
Qed.

Lemma calculate_subdevices_skips subs pre md s r :
  Map.unique_keys subs = true ->
  In (s, r) subs ->
  (reached s subs (getSubdeviceRawDatas pre) = true ->
   Map.find s (getSubdeviceRawDatas pre) = None
   \/ both_valid (getSubdeviceRawData pre s) (raw_data r)
      && negb (U64.sub (raw_timestamp r) (getSubdeviceDataRawTimestamp pre s) =? 0)
      = false) ->
  Map.find s (getSubdeviceDatas (calculate_subdevices subs pre md))
  = Map.find s (getSubdeviceDatas md).
Proof.
  revert md. induction subs as [|[k rk] subs IH]; intros md Hu Hin Hskip.
  - contradiction.
  - pose proof (unique_keys_head _ _ _ Hu) as Hk.
    pose proof (unique_keys_tail _ _ Hu) as Hu'.
    simpl in Hskip |- *.
    destruct (Z.eqb_spec k s) as [->|Hne].
    + assert (r = rk) as -> by (eapply unique_entry; eauto).
      destruct (Map.find s (getSubdeviceRawDatas pre)) eqn:Es; [|reflexivity].
      destruct (Hskip eq_refl) as [Hnone|Hoff]; [discriminate|].
      rewrite Hoff. now apply calculate_subdevices_other.
    + destruct Hin as [Heq|Hin]; [inversion Heq; congruence|].
      destruct (Map.find k (getSubdeviceRawDatas pre)) eqn:Ek; [|reflexivity].
      destruct (both_valid (getSubdeviceRawData pre k) (raw_data rk) && _).
      * rewrite IH by auto. apply find_setSubdeviceDataCurrent_neq. congruence.
      * now apply IH.
Qed.

Lemma calculate_subdevices_sets subs pre md s r pr :
  Map.unique_keys subs = true ->
  In (s, r) subs ->
  Map.find s (getSubdeviceRawDatas pre) = Some pr ->
  reached s subs (getSubdeviceRawDatas pre) = true ->
  both_valid (raw_data pr) (raw_data r)
  && negb (U64.sub (raw_timestamp r) (raw_timestamp pr) =? 0) = true ->
  getSubdeviceDataCurrent (calculate_subdevices subs pre md) s
  = U64.div (U64.sub (raw_data r) (raw_data pr))
            (U64.sub (raw_timestamp r) (raw_timestamp pr)).
Proof.
  revert md. induction subs as [|[k rk] subs IH]; intros md Hu Hin Hf Hr Hon.
  - contradiction.
  - pose proof (unique_keys_head _ _ _ Hu) as Hk.
    pose proof (unique_keys_tail _ _ Hu) as Hu'.
    simpl in Hr |- *.
    destruct (Z.eqb_spec k s) as [->|Hne].
    + assert (r = rk) as -> by (eapply unique_entry; eauto).
      rewrite Hf. unfold getSubdeviceRawData, getSubdeviceDataRawTimestamp.
      rewrite Hf, Hon.
      unfold getSubdeviceDataCurrent, subdevice_field.
      rewrite calculate_subdevices_other by assumption.
      destruct (find_setSubdeviceDataCurrent_eq s
                  (U64.div (U64.sub (raw_data rk) (raw_data pr))
                           (U64.sub (raw_timestamp rk) (raw_timestamp pr))) md)
        as (entry & -> & Hentry).
      exact Hentry.
    + destruct Hin as [Heq|Hin]; [inversion Heq; congruence|].
      destruct (Map.find k (getSubdeviceRawDatas pre)) eqn:Ek; [|discriminate].
      destruct (both_valid (getSubdeviceRawData pre k) (raw_data rk) && _); now apply IH.
Qed.

Lemma calculate_device_level_frame pre d md :
  calculate_device_level pre d md
  = setCurrent (getCurrent (calculate_device_level pre d md)) md.
Proof.
  assert (Hid : md = setCurrent (getCurrent md) md) by (destruct md; reflexivity).
  unfold calculate_device_level.
  destruct (hasRawDataOnDevice md); [|exact Hid].
  destruct (Map.find d pre) as [pmd|]; [|exact Hid].
  destruct (hasRawDataOnDevice pmd); [|exact Hid].
  destruct (both_valid _ _ && _); [reflexivity|exact Hid].
Qed.

Lemma calculate_device_subdevices_frame pre d md :
  calculate_device_subdevices pre d md
  = set_subdevice_datas (getSubdeviceDatas (calculate_device_subdevices pre d md)) md.
Proof.
  assert (Hid : md = set_subdevice_datas (getSubdeviceDatas md) md)
    by (destruct md; reflexivity).
  unfold calculate_device_subdevices.
  destruct (hasSubdeviceRawData md); [|exact Hid].
  destruct (Map.find d pre) as [pmd|]; [|exact Hid].
  destruct (hasSubdeviceRawData pmd); [|exact Hid].
  apply calculate_subdevices_frame.
Qed.

(** The rate computation writes derived values and nothing else. *)
Lemma calculate_device_frame pre d md :
  calculate_device pre d md
  = set_subdevice_datas (getSubdeviceDatas (calculate_device pre d md))
      (setCurrent (getCurrent (calculate_device pre d md)) md).
Proof.
  unfold calculate_device.
  set (X := calculate_device_level pre d md).
  set (Y := calculate_device_subdevices pre d X).
  assert (HY : Y = set_subdevice_datas (getSubdeviceDatas Y) X)
    by apply calculate_device_subdevices_frame.
  assert (HX : X = setCurrent (getCurrent X) md)
    by apply calculate_device_level_frame.
  assert (Hc : getCurrent Y = getCurrent X) by (rewrite HY; reflexivity).
  rewrite Hc, <- HX. exact HY.
Qed.

Lemma calculate_device_current pre d md :
  getCurrent (calculate_device pre d md) = getCurrent (calculate_device_level pre d md).
Proof.
  unfold calculate_device. rewrite calculate_device_subdevices_frame. reflexivity.
Qed.

Lemma calculate_subdevices_setCurrent subs pre c md :
  calculate_subdevices subs pre (setCurrent c md)
  = setCurrent c (calculate_subdevices subs pre md).
Proof.
  revert md. induction subs as [|[k r] subs IH]; intros md; simpl; [reflexivity|].
  destruct (Map.find k (getSubdeviceRawDatas pre)); [|reflexivity].
  destruct (both_valid _ _ && _); [|apply IH].
  rewrite <- IH. reflexivity.
Qed.

Lemma calculate_device_subdevices_setCurrent pre d c md :
  calculate_device_subdevices pre d (setCurrent c md)
  = setCurrent c (calculate_device_subdevices pre d md).
Proof.
  unfold calculate_device_subdevices. simpl.
  change (hasSubdeviceRawData (setCurrent c md)) with (hasSubdeviceRawData md).
  destruct (hasSubdeviceRawData md); [|reflexivity].
  destruct (Map.find d pre) as [pmd|]; [|reflexivity].
  destruct (hasSubdeviceRawData pmd); [|reflexivity].
  apply calculate_subdevices_setCurrent.
Qed.

Lemma calculate_device_subdevice_datas pre d md :
  getSubdeviceDatas (calculate_device pre d md)
  = getSubdeviceDatas (calculate_device_subdevices pre d md).
Proof.
  unfold calculate_device.
  rewrite calculate_device_level_frame, calculate_device_subdevices_setCurrent.
  reflexivity.
Qed.

Lemma find_calculateData pre cur d :
  exists cur',
    calculateData (Some pre) (Some cur) = Some cur'
    /\ Map.find d cur' = option_map (calculate_device pre d) (Map.find d cur).
Proof.
  eexists. split; [reflexivity|]. apply find_map_values.
Qed.

Lemma well_formed_keys cur : well_formed cur = true -> Map.unique_keys cur = true.
Proof. unfold well_formed. intros H. now apply andb_prop in H. Qed.

Lemma well_formed_entry cur d md :
  well_formed cur = true -> Map.find d cur = Some md ->
  Map.unique_keys (getSubdeviceRawDatas md) = true.
Proof.
  unfold well_formed. intros H Hf. apply andb_prop in H as [_ H].
  rewrite forallb_forall in H. apply find_In in Hf. exact (H _ Hf).
Qed.

Lemma hasSubdeviceRawData_find m s r :
  Map.find s (getSubdeviceRawDatas m) = Some r -> hasSubdeviceRawData m = true.
Proof.
  unfold hasSubdeviceRawData. destruct (getSubdeviceRawDatas m); [discriminate|reflexivity].
Qed.

Lemma reached_nonempty s subs pre_raw :
  reached s subs pre_raw = true -> subs <> [].
Proof. destruct subs; [discriminate|congruence]. Qed.

Lemma detect_entry_overflow md pmd s r :
  Map.find s (getSubdeviceRawDatas md) = Some r ->
  hasSubdeviceRawData pmd = true ->
  detect_entry md pmd = overflow_subdevices (getSubdeviceRawDatas md) md pmd.
Proof.
  intros Hs Hp. unfold detect_entry.
  now rewrite (hasSubdeviceRawData_find _ _ _ Hs), Hp.
Qed.

Lemma detect_entry_mono md pmd s v :
  Map.find s (getSubdeviceRawDatas (detect_entry md pmd)) = Some v ->
  Map.find s (getSubdeviceRawDatas pmd) = Some v.
Proof.
  unfold detect_entry. destruct (_ && _); [|auto].
  apply overflow_subdevices_mono.
Qed.

Lemma detect_entry_raw_only md pmd :
  detect_entry md pmd
  = set_subdevice_rawdatas (getSubdeviceRawDatas (detect_entry md pmd)) pmd.
Proof.
  unfold detect_entry. destruct (_ && _).
  - apply overflow_subdevices_raw_only.
  - now rewrite set_subdevice_rawdatas_id.
Qed.

Lemma detect_entry_keeps md pmd s v :
  Map.find s (getSubdeviceRawDatas pmd) = Some v ->
  counter_dropped (raw_data v) (getSubdeviceRawData md s) = false ->
  Map.find s (getSubdeviceRawDatas (detect_entry md pmd)) = Some v.
Proof.
  intros Hf Hno. unfold detect_entry. destruct (_ && _); [|assumption].
  now apply overflow_subdevices_keeps.
Qed.

Lemma detect_entry_clears md pmd s v :
  Map.unique_keys (getSubdeviceRawDatas md) = true ->
  Map.find s (getSubdeviceRawDatas pmd) = Some v ->
  reached s (getSubdeviceRawDatas md) (getSubdeviceRawDatas pmd) = true ->
  counter_dropped (raw_data v) (getSubdeviceRawData md s) = true ->
  Map.find s (getSubdeviceRawDatas (detect_entry md pmd)) = None.
Proof.
  intros Hu Hf Hr Hdrop. unfold detect_entry.
  assert (Hmd : hasSubdeviceRawData md = true).
  { unfold hasSubdeviceRawData. destruct (getSubdeviceRawDatas md); [discriminate|reflexivity]. }
  rewrite Hmd, (hasSubdeviceRawData_find _ _ _ Hf). simpl.
  now apply overflow_subdevices_clears with (v := v).
Qed.

(** The sub-device rates of one device, against the previous entry as
    the detection left it. *)
Lemma calculate_device_subdevices_found pre d md pmd :
  Map.find d pre = Some pmd ->
  getSubdeviceDatas (calculate_device pre d md)
  = if hasSubdeviceRawData md && hasSubdeviceRawData pmd
    then getSubdeviceDatas (calculate_subdevices (getSubdeviceRawDatas md) pmd md)
    else getSubdeviceDatas md.
Proof.
  intros Hf. rewrite calculate_device_subdevice_datas.
  unfold calculate_device_subdevices. rewrite Hf.
  destruct (hasSubdeviceRawData md); [|reflexivity].
  destruct (hasSubdeviceRawData pmd); reflexivity.
Qed.

Lemma calculate_device_level_found pre d md pmd :
  Map.find d pre = Some pmd ->
  getCurrent (calculate_device pre d md)
  = if hasRawDataOnDevice md && hasRawDataOnDevice pmd
       && (both_valid (getRawdata pmd) (getRawdata md)
           && negb (U64.sub (getRawTimestamp md) (getRawTimestamp pmd) =? 0))
    then U64.div (U64.sub (getRawdata md) (getRawdata pmd))
                 (U64.sub (getRawTimestamp md) (getRawTimestamp pmd))
    else getCurrent md.
Proof.
  intros Hf. rewrite calculate_device_current.
  unfold calculate_device_level. rewrite Hf.
  destruct (hasRawDataOnDevice md); [|reflexivity].
  destruct (hasRawDataOnDevice pmd); [|reflexivity].
  simpl. destruct (both_valid _ _ && _); reflexivity.
Qed.

Lemma handleData_unfold pre cur :
  handleData (Some pre) (Some cur)
  = (overflow_devices cur pre, calculateData (overflow_devices cur pre) (Some cur)).
Proof. reflexivity. Qed.

Lemma calculateData_total p cur :
  exists cur', calculateData p (Some cur) = Some cur'.
Proof. destruct p; simpl; eexists; reflexivity. Qed.

(** ** The claims on the rate computation *)

(** C9.  When the raw timestamp of the current entry equals the one of the
    previous entry of the same entity, [calculateData] makes no update for
    that entity.  For the device-level entity every field of the sample
    other than the derived sub-device values stays as it was, the derived
    value [getCurrent] included; for a sub-device the derived entry of
    that sub-device stays as it was.  In every case the computation writes
    derived values only. *)
Theorem equal_timestamp_no_update :
  forall (pre cur : SharedData) (d : string) (md pmd : MeasurementData),
    well_formed cur = true ->
    Map.find d cur = Some md ->
    Map.find d pre = Some pmd ->
    exists cur' md',
      calculateData (Some pre) (Some cur) = Some cur'
      /\ Map.find d cur' = Some md'
      /\ md' = set_subdevice_datas (getSubdeviceDatas md')
                 (setCurrent (getCurrent md') md)
      /\ (getRawTimestamp md = getRawTimestamp pmd ->
          getCurrent md' = getCurrent md
          /\ md' = set_subdevice_datas (getSubdeviceDatas md') md)
      /\ (forall s r pr,
            Map.find s (getSubdeviceRawDatas md) = Some r ->
            Map.find s (getSubdeviceRawDatas pmd) = Some pr ->
            raw_timestamp r = raw_timestamp pr ->
            Map.find s (getSubdeviceDatas md') = Map.find s (getSubdeviceDatas md)).
Proof.
  intros pre cur d md pmd Hwf Hcur Hpre.
  destruct (find_calculateData pre cur d) as (cur' & Hcalc & Hfind).
  rewrite Hcur in Hfind. simpl in Hfind.
  exists cur', (calculate_device pre d md).
  split; [exact Hcalc|]. split; [exact Hfind|].
  split; [apply calculate_device_frame|].
  split.
  - intros Hts.
    assert (Hc : getCurrent (calculate_device pre d md) = getCurrent md).
    { rewrite (calculate_device_level_found _ _ _ _ Hpre).
      rewrite Hts, U64_sub_diag. simpl.
      now rewrite !andb_false_r. }
    split; [exact Hc|].
    rewrite (calculate_device_frame pre d md) at 1.
    rewrite Hc. f_equal. destruct md; reflexivity.
  - intros s r pr Hs Hps Hts.
    rewrite (calculate_device_subdevices_found _ _ _ _ Hpre).
    destruct (hasSubdeviceRawData md && hasSubdeviceRawData pmd); [|reflexivity].
    apply calculate_subdevices_skips with (r := r).
    + eapply well_formed_entry; eauto.
    + now apply find_In.
    + intros _. right.
      unfold getSubdeviceDataRawTimestamp. rewrite Hps, Hts, U64_sub_diag.
      simpl. apply andb_false_r.
Qed.

(** A device and one sub-device whose timestamps did not move while the raw
    values did: nothing is written. *)
Lemma equal_timestamp_no_update_witness :
  let pre := [("0"%string, Samples.sample (Some (100, 5)) [(0, Samples.reading 7 5)])] in
  let md := Samples.sample (Some (160, 5)) [(0, Samples.reading 9 5)] in
  exists cur' md',
    calculateData (Some pre) (Some [("0"%string, md)]) = Some cur'
    /\ Map.find "0"%string cur' = Some md'
    /\ md' = md.
Proof.
  intros pre md.
  destruct (equal_timestamp_no_update pre [("0"%string, md)] "0"%string md
              (Samples.sample (Some (100, 5)) [(0, Samples.reading 7 5)])
              eq_refl eq_refl eq_refl)
    as (cur' & md' & Hcalc & Hfind & _ & Hdev & _).
  exists cur', md'. split; [exact Hcalc|]. split; [exact Hfind|].
  simpl in Hcalc. inversion Hcalc; subst cur'. simpl in Hfind.
  inversion Hfind. reflexivity.
Defined.

(** [handleData] never derives a rate from a pair of readings whose raw
    value went down, because the detection runs before the computation
    ([calculateData] on its own would write the wrapped difference).  For a
    device-level counter the derived value of the sample stays as it came,
    and when both readings are valid the baseline [p_preData] is discarded
    and the whole sample is passed on as it came.  For a sub-device counter
    the derived entry of that sub-device stays as it came, and when both
    readings are valid and the detection loop gets as far as the
    sub-device, its baseline entry is gone afterwards. *)
Theorem dropped_counter_yields_no_rate :
  forall (pre cur : SharedData),
    well_formed cur = true ->
    exists cur',
      snd (handleData (Some pre) (Some cur)) = Some cur'
      /\ (forall d md pmd,
            Map.find d cur = Some md ->
            Map.find d pre = Some pmd ->
            hasRawDataOnDevice md = true ->
            hasRawDataOnDevice pmd = true ->
            getRawdata md < getRawdata pmd ->
            (exists md', Map.find d cur' = Some md' /\ getCurrent md' = getCurrent md)
            /\ (both_valid (getRawdata pmd) (getRawdata md) = true ->
                handleData (Some pre) (Some cur) = (None, Some cur)))
      /\ (forall d md pmd s r pr,
            Map.find d cur = Some md ->
            Map.find d pre = Some pmd ->
            Map.find s (getSubdeviceRawDatas md) = Some r ->
            Map.find s (getSubdeviceRawDatas pmd) = Some pr ->
            raw_data r < raw_data pr ->
            (exists md',
                Map.find d cur' = Some md'
                /\ Map.find s (getSubdeviceDatas md') = Map.find s (getSubdeviceDatas md))
            /\ (both_valid (raw_data pr) (raw_data r) = true ->
                reached s (getSubdeviceRawDatas md) (getSubdeviceRawDatas pmd) = true ->
                match fst (handleData (Some pre) (Some cur)) with
                | None => True
                | Some pre' =>
                    exists pmd',
                      Map.find d pre' = Some pmd'
                      /\ Map.find s (getSubdeviceRawDatas pmd') = None
                end)).
Proof.
  intros pre cur Hwf.
  rewrite handleData_unfold. simpl fst. simpl snd.
  pose proof (well_formed_keys _ Hwf) as Hkeys.
  destruct (overflow_devices cur pre) as [pre'|] eqn:Hdet.
  - (* the baseline survives the detection *)
    pose proof (overflow_devices_Some _ _ _ Hkeys Hdet) as Hpre'.
    eexists. split; [reflexivity|]. split.
    + intros d md pmd Hcur Hpre Hraw Hpraw Hlt.
      assert (Hinvalid : both_valid (getRawdata pmd) (getRawdata md) = false).
      { destruct (both_valid (getRawdata pmd) (getRawdata md)) eqn:Ev; [|reflexivity].
        assert (Hov : device_overflow pre d md = true).
        { unfold device_overflow. rewrite Hraw, Hpre, Hpraw, Ev. simpl.
          apply Z.gtb_lt. exact Hlt. }
        rewrite (overflow_devices_None _ _ _ _ (find_In _ _ _ Hcur) Hov) in Hdet.
        discriminate. }
      split; [|rewrite Hinvalid; discriminate].
      exists (calculate_device pre' d md). split.
      * rewrite find_map_values, Hcur. reflexivity.
      * specialize (Hpre' d). rewrite Hcur, Hpre in Hpre'. simpl in Hpre'.
        rewrite (calculate_device_level_found _ _ _ _ Hpre').
        destruct (detect_entry_device_level md pmd) as (-> & -> & _).
        rewrite Hinvalid. simpl. now rewrite andb_false_r.
    + intros d md pmd s r pr Hcur Hpre Hs Hps Hlt.
      specialize (Hpre' d). rewrite Hcur, Hpre in Hpre'. simpl in Hpre'.
      pose proof (well_formed_entry _ _ _ Hwf Hcur) as Hu.
      assert (Hread : getSubdeviceRawData md s = raw_data r)
        by (unfold getSubdeviceRawData; now rewrite Hs).
      split.
      * exists (calculate_device pre' d md). split.
        -- rewrite find_map_values, Hcur. reflexivity.
        -- rewrite (calculate_device_subdevices_found _ _ _ _ Hpre').
           destruct (hasSubdeviceRawData md && hasSubdeviceRawData (detect_entry md pmd));
             [|reflexivity].
           apply calculate_subdevices_skips with (r := r);
             [assumption|now apply find_In|].
           intros Hreach.
           assert (Hreach0 : reached s (getSubdeviceRawDatas md) (getSubdeviceRawDatas pmd)
                             = true).
           { eapply reached_mono; [|exact Hreach]. intros k v. apply detect_entry_mono. }
           destruct (both_valid (raw_data pr) (raw_data r)) eqn:Ev.
           ++ left. apply detect_entry_clears with (v := pr); auto.
              unfold counter_dropped. rewrite Hread, Ev. simpl.
              apply Z.gtb_lt. exact Hlt.
           ++ destruct (Map.find s (getSubdeviceRawDatas (detect_entry md pmd)))
                as [v|] eqn:Ef; [|now left].
              right. pose proof (detect_entry_mono _ _ _ _ Ef) as Ef0.
              rewrite Hps in Ef0. inversion Ef0; subst v.
              unfold getSubdeviceRawData. rewrite Ef, Ev. reflexivity.
      * intros Ev Hreach.
        exists (detect_entry md pmd). split; [exact Hpre'|].
        apply detect_entry_clears with (v := pr); auto.
        unfold counter_dropped. rewrite Hread, Ev. simpl.
        apply Z.gtb_lt. exact Hlt.
  - (* the baseline is discarded: the sample is passed on as it came *)
    exists cur. split; [reflexivity|]. split.
    + intros d md pmd Hcur _ _ _ _. split; [eauto|]. intros _. reflexivity.
    + intros d md pmd s r pr Hcur _ _ _ _. split; [eauto|]. intros _ _. exact I.
Qed.

(** The raw sequence [100, 40] on a device-level counter and on a
    sub-device counter: [handleData] passes the sample on as it came, where
    [calculateData] alone writes the wrapped rate [2^64 - 60]. *)
Lemma dropped_counter_yields_no_rate_witness :
  let pre := [("0"%string, Samples.sample (Some (100, 1)) [(0, Samples.reading 100 1)])] in
  let md := Samples.sample (Some (40, 2)) [(0, Samples.reading 40 2)] in
  well_formed [("0"%string, md)] = true
  /\ handleData (Some pre) (Some [("0"%string, md)]) = (None, Some [("0"%string, md)])
  /\ getCurrent md = U64.max
  /\ option_map (map (fun entry => getCurrent (snd entry)))
                (calculateData (Some pre) (Some [("0"%string, md)]))
     = Some [18446744073709551556].
Proof.
  intros pre md. split; [reflexivity|].
  split; [| split; reflexivity].
  destruct (dropped_counter_yields_no_rate pre [("0"%string, md)] eq_refl)
    as (cur' & _ & Hdev & _).
  destruct (Hdev "0"%string md (Samples.sample (Some (100, 1)) [(0, Samples.reading 100 1)])
              eq_refl eq_refl eq_refl eq_refl) as [_ Hfresh].
  - simpl. lia.
  - exact (Hfresh eq_refl).
Defined.

(** C3 at a sample the handler can receive.  Tile 0 reports for the first
    time, so the previous sample has a baseline for tile 1 only; the
    counter of tile 1 went down from 100 to 40, both readings valid.  The
    sub-device loop of [counterOverflowDetection] ends at tile 0, which has
    no baseline, before it gets to tile 1: after [handleData] the baseline
    100 of tile 1 is still in [p_preData], where the claim has it
    discarded (no rate is written for tile 1 either way).  Had the sample
    listed tile 1 alone, the detection would have erased that baseline. *)
Theorem stale_baseline_behind_sibling_without_baseline :
  let pmd := Samples.sample None [(1, Samples.reading 100 1)] in
  let pre := [("0"%string, pmd)] in
  let md := Samples.sample None [(0, Samples.reading 5 2); (1, Samples.reading 40 2)] in
  let cur := [("0"%string, md)] in
  let alone := [("0"%string, Samples.sample None [(1, Samples.reading 40 2)])] in
  well_formed cur = true
  /\ counter_dropped (getSubdeviceRawData pmd 1) (getSubdeviceRawData md 1) = true
  /\ reached 1 (getSubdeviceRawDatas md) (getSubdeviceRawDatas pmd) = false
  /\ counterOverflowDetection (Some pre) (Some cur) = Some pre
  /\ handleData (Some pre) (Some cur) = (Some pre, Some cur)
  /\ Map.find 1 (getSubdeviceRawDatas pmd) = Some (Samples.reading 100 1)
  /\ reached 1 (getSubdeviceRawDatas (Samples.sample None [(1, Samples.reading 40 2)]))
              (getSubdeviceRawDatas pmd) = true
  /\ handleData (Some pre) (Some alone)
     = (Some [("0"%string, Samples.sample None [])], Some alone).
Proof. repeat split; reflexivity. Qed.

(** C4, as the code has it.  A device-level overflow on any device makes
    the detection drop [p_preData] as a whole, the baselines of all devices
    with it.  When the detection keeps [p_preData], it has changed nothing
    but raw sub-device entries: a sub-device whose counter dropped and
    which the loop reached has lost its entry, every sub-device whose
    counter did not drop has kept its entry, and such a sub-device receives
    its rate on the same update when the rate loop reaches it. *)
Theorem overflow_policy :
  forall (pre cur : SharedData),
    well_formed cur = true ->
    (forall d md pmd,
        Map.find d cur = Some md ->
        Map.find d pre = Some pmd ->
        hasRawDataOnDevice md = true ->
        hasRawDataOnDevice pmd = true ->
        counter_dropped (getRawdata pmd) (getRawdata md) = true ->
        counterOverflowDetection (Some pre) (Some cur) = None)
    /\ (forall pre',
          counterOverflowDetection (Some pre) (Some cur) = Some pre' ->
          (forall d, Map.find d cur = None -> Map.find d pre' = Map.find d pre)
          /\ (forall d md pmd,
                Map.find d cur = Some md ->
                Map.find d pre = Some pmd ->
                exists pmd',
                  Map.find d pre' = Some pmd'
                  /\ pmd' = set_subdevice_rawdatas (getSubdeviceRawDatas pmd') pmd
                  /\ (forall s pr,
                        Map.find s (getSubdeviceRawDatas pmd) = Some pr ->
                        (counter_dropped (raw_data pr) (getSubdeviceRawData md s) = true ->
                         reached s (getSubdeviceRawDatas md) (getSubdeviceRawDatas pmd) = true ->
                         Map.find s (getSubdeviceRawDatas pmd') = None)
                        /\ (counter_dropped (raw_data pr) (getSubdeviceRawData md s) = false ->
                            Map.find s (getSubdeviceRawDatas pmd') = Some pr)
                        /\ (forall r,
                              Map.find s (getSubdeviceRawDatas md) = Some r ->
                              Map.find s (getSubdeviceRawDatas pmd') = Some pr ->
                              reached s (getSubdeviceRawDatas md) (getSubdeviceRawDatas pmd')
                              = true ->
                              both_valid (raw_data pr) (raw_data r)
                              && negb (U64.sub (raw_timestamp r) (raw_timestamp pr) =? 0)
                              = true ->
                              exists cur' md',
                                snd (handleData (Some pre) (Some cur)) = Some cur'
                                /\ Map.find d cur' = Some md'
                                /\ getSubdeviceDataCurrent md' s
                                   = U64.div (U64.sub (raw_data r) (raw_data pr))
                                       (U64.sub (raw_timestamp r) (raw_timestamp pr)))))).
Proof.
  intros pre cur Hwf. pose proof (well_formed_keys _ Hwf) as Hkeys. split.
  - intros d md pmd Hcur Hpre Hraw Hpraw Hdrop. simpl.
    apply overflow_devices_None with (d := d) (md := md); [now apply find_In|].
    unfold device_overflow. rewrite Hraw, Hpre, Hpraw. exact Hdrop.
  - intros pre' Hdet. simpl in Hdet.
    pose proof (overflow_devices_Some _ _ _ Hkeys Hdet) as Hpre'. split.
    + intros d Hnone. specialize (Hpre' d). now rewrite Hnone in Hpre'.
    + intros d md pmd Hcur Hpre.
      specialize (Hpre' d). rewrite Hcur, Hpre in Hpre'. simpl in Hpre'.
      pose proof (well_formed_entry _ _ _ Hwf Hcur) as Hu.
      exists (detect_entry md pmd). split; [exact Hpre'|].
      split; [apply detect_entry_raw_only|].
      intros s pr Hps. split; [|split].
      * intros Hdrop Hreach. now apply detect_entry_clears with (v := pr).
      * intros Hkeep. now apply detect_entry_keeps.
      * intros r Hs Hkept Hreach Hon.
        rewrite handleData_unfold, Hdet. simpl snd.
        eexists. exists (calculate_device pre' d md).
        split; [reflexivity|]. split.
        -- rewrite find_map_values, Hcur. reflexivity.
        -- unfold getSubdeviceDataCurrent, subdevice_field.
           rewrite (calculate_device_subdevices_found _ _ _ _ Hpre').
           rewrite (hasSubdeviceRawData_find _ _ _ Hs),
                   (hasSubdeviceRawData_find _ _ _ Hkept). simpl.
           apply (calculate_subdevices_sets _ _ md s r pr Hu (find_In _ _ _ Hs) Hkept
                    Hreach Hon).
Qed.

(** Two tiles of one device: tile 1 overflows, tile 0 keeps its baseline
    and receives its rate on the same update. *)
Lemma overflow_policy_witness :
  let pre := [("0"%string,
               Samples.sample None [(0, Samples.reading 10 1); (1, Samples.reading 100 1)])] in
  let md := Samples.sample None [(0, Samples.reading 30 3); (1, Samples.reading 40 3)] in
  exists pre' pmd' cur' md',
    counterOverflowDetection (Some pre) (Some [("0"%string, md)]) = Some pre'
    /\ Map.find "0"%string pre' = Some pmd'
    /\ Map.find 1 (getSubdeviceRawDatas pmd') = None
    /\ Map.find 0 (getSubdeviceRawDatas pmd') = Some (Samples.reading 10 1)
    /\ snd (handleData (Some pre) (Some [("0"%string, md)])) = Some cur'
    /\ Map.find "0"%string cur' = Some md'
    /\ getSubdeviceDataCurrent md' 0 = 10.
Proof.
  intros pre md.
  destruct (overflow_policy pre [("0"%string, md)] eq_refl) as [_ Hsub].
  destruct (Hsub _ eq_refl) as [_ Hdev].
  destruct (Hdev "0"%string md _ eq_refl eq_refl) as (pmd' & Hfind & _ & Hsubs).
  destruct (Hsubs 1 (Samples.reading 100 1) eq_refl) as (Hclear & _ & _).
  destruct (Hsubs 0 (Samples.reading 10 1) eq_refl) as (_ & Hkeep & Hrate).
  pose proof (Hkeep eq_refl) as Hkept.
  destruct (Hrate (Samples.reading 30 3) eq_refl Hkept) as (cur' & md' & Hh & Hf & Hv).
  - reflexivity.
  - reflexivity.
  - eexists. exists pmd', cur', md'.
    split; [reflexivity|]. split; [exact Hfind|].
    split; [apply Hclear; reflexivity|].
    split; [exact Hkept|]. split; [exact Hh|]. split; [exact Hf|].
    rewrite Hv. reflexivity.
Defined.

(** C4 as stated fails twice.  With two devices, an overflow of device
    ["0"] alone leaves no previous snapshot at all, so device ["1"] loses
    its baseline and its rate.  With two tiles, an overflow of tile 0
    leaves tile 1 its baseline but the rate loop stops at tile 0, and tile
    1 receives no rate on that update. *)
Lemma overflow_policy_counterexample :
  (let pre := [("0"%string, Samples.sample (Some (100, 1)) []);
               ("1"%string, Samples.sample (Some (100, 1)) [])] in
   let cur := [("0"%string, Samples.sample (Some (40, 2)) []);
               ("1"%string, Samples.sample (Some (200, 2)) [])] in
   device_overflow pre "0"%string (Samples.sample (Some (40, 2)) []) = true
   /\ device_overflow pre "1"%string (Samples.sample (Some (200, 2)) []) = false
   /\ ~ (exists pre',
           counterOverflowDetection (Some pre) (Some cur) = Some pre'
           /\ Map.find "1"%string pre' = Map.find "1"%string pre)
   /\ handleData (Some pre) (Some cur) = (None, Some cur))
  /\ (let pre := [("0"%string,
                   Samples.sample None [(0, Samples.reading 100 1); (1, Samples.reading 10 1)])] in
      let md := Samples.sample None [(0, Samples.reading 40 2); (1, Samples.reading 20 2)] in
      exists pre' pmd',
        fst (handleData (Some pre) (Some [("0"%string, md)])) = Some pre'
        /\ Map.find "0"%string pre' = Some pmd'
        /\ Map.find 0 (getSubdeviceRawDatas pmd') = None
        /\ Map.find 1 (getSubdeviceRawDatas pmd') = Some (Samples.reading 10 1)
        /\ snd (handleData (Some pre) (Some [("0"%string, md)])) = Some [("0"%string, md)]
        /\ getSubdeviceDataCurrent md 1 = U64.max).
Proof.
  split.
  - intros pre cur. split; [reflexivity|]. split; [reflexivity|]. split.
    + intros (pre' & Hdet & _). discriminate Hdet.
    + reflexivity.
  - intros pre md. eexists. eexists.
    split; [reflexivity|]. split; [reflexivity|].
    split; [reflexivity|]. split; [reflexivity|]. split; reflexivity.
Qed.

(** The part of C2 that the code keeps: the device-level rate is the exact
    quotient, and so is the rate of a sub-device that the loop reaches. *)
Lemma device_level_rate_exact (pre cur : SharedData) d md pmd :
  Map.find d cur = Some md ->
  Map.find d pre = Some pmd ->
  hasRawDataOnDevice md = true ->
  hasRawDataOnDevice pmd = true ->
  U64.in_range (getRawdata md) -> U64.in_range (getRawdata pmd) ->
  U64.in_range (getRawTimestamp md) -> U64.in_range (getRawTimestamp pmd) ->
  getRawdata md <> U64.max ->
  getRawdata pmd < getRawdata md ->
  getRawTimestamp pmd < getRawTimestamp md ->
  exists cur' md',
    calculateData (Some pre) (Some cur) = Some cur'
    /\ Map.find d cur' = Some md'
    /\ getCurrent md'
       = (getRawdata md - getRawdata pmd) / (getRawTimestamp md - getRawTimestamp pmd).
Proof.
  intros Hcur Hpre Hraw Hpraw Rc Rp Rtc Rtp Hvalid Hlt Htlt.
  destruct (find_calculateData pre cur d) as (cur' & Hcalc & Hfind).
  rewrite Hcur in Hfind. simpl in Hfind.
  exists cur', (calculate_device pre d md).
  split; [exact Hcalc|]. split; [exact Hfind|].
  rewrite (calculate_device_level_found _ _ _ _ Hpre), Hraw, Hpraw.
  rewrite !U64_sub_no_borrow by (auto; lia).
  unfold both_valid, U64.div.
  destruct (Z.eqb_spec (getRawdata pmd) U64.max);
    [unfold U64.in_range, U64.max in *; lia|].
  destruct (Z.eqb_spec (getRawdata md) U64.max); [contradiction|].
  destruct (Z.eqb_spec (getRawTimestamp md - getRawTimestamp pmd) 0); [lia|].
  reflexivity.
Qed.

(** The rate of a sub-device that the loop of [calculateData] reaches,
    for a pair of valid readings with strictly increasing raw value and
    raw timestamp, is the exact quotient of the two differences. *)
Lemma subdevice_rate_exact (pre cur : SharedData) d md pmd s r pr :
  well_formed cur = true ->
  Map.find d cur = Some md ->
  Map.find d pre = Some pmd ->
  Map.find s (getSubdeviceRawDatas md) = Some r ->
  Map.find s (getSubdeviceRawDatas pmd) = Some pr ->
  reached s (getSubdeviceRawDatas md) (getSubdeviceRawDatas pmd) = true ->
  U64.in_range (raw_data r) -> U64.in_range (raw_data pr) ->
  U64.in_range (raw_timestamp r) -> U64.in_range (raw_timestamp pr) ->
  raw_data r <> U64.max ->
  raw_data pr < raw_data r ->
  raw_timestamp pr < raw_timestamp r ->
  exists cur' md',
    calculateData (Some pre) (Some cur) = Some cur'
    /\ Map.find d cur' = Some md'
    /\ getSubdeviceDataCurrent md' s
       = (raw_data r - raw_data pr) / (raw_timestamp r - raw_timestamp pr).
Proof.
  intros Hwf Hcur Hpre Hs Hps Hreach Rc Rp Rtc Rtp Hvalid Hlt Htlt.
  destruct (find_calculateData pre cur d) as (cur' & Hcalc & Hfind).
  rewrite Hcur in Hfind. simpl in Hfind.
  exists cur', (calculate_device pre d md).
  split; [exact Hcalc|]. split; [exact Hfind|].
  unfold getSubdeviceDataCurrent, subdevice_field.
  rewrite (calculate_device_subdevices_found _ _ _ _ Hpre).
  rewrite (hasSubdeviceRawData_find _ _ _ Hs), (hasSubdeviceRawData_find _ _ _ Hps).
  cbn [andb].
  rewrite <- (U64_sub_no_borrow (raw_data r) (raw_data pr)) by (auto; lia).
  rewrite <- (U64_sub_no_borrow (raw_timestamp r) (raw_timestamp pr)) by (auto; lia).
  apply (calculate_subdevices_sets _ _ md s r pr
           (well_formed_entry _ _ _ Hwf Hcur) (find_In _ _ _ Hs) Hps Hreach).
  rewrite U64_sub_no_borrow by (auto; lia).
  unfold both_valid.
  destruct (Z.eqb_spec (raw_data pr) U64.max);
    [unfold U64.in_range, U64.max in *; lia|].
  destruct (Z.eqb_spec (raw_data r) U64.max); [contradiction|].
  destruct (Z.eqb_spec (raw_timestamp r - raw_timestamp pr) 0); [lia|].
  reflexivity.
Qed.

(** C2 at two samples the handler can receive.  In the first, tile 0
    reports for the first time, so the previous sample has a baseline for
    tile 1 only; in the second, tile 0 overflows and the detection clears
    its baseline.  In both, tile 1 went from 10 to 20 while its clock went
    from 1 to 2, yet the sub-device loop of [calculateData] ends at tile 0,
    which has no baseline, and writes no rate for tile 1 (the rate would be
    10). *)
Theorem rate_missing_behind_sibling_without_baseline :
  (let pre := [("0"%string, Samples.sample None [(1, Samples.reading 10 1)])] in
   let md := Samples.sample None [(0, Samples.reading 5 2); (1, Samples.reading 20 2)] in
   let cur := [("0"%string, md)] in
   calculateData (Some pre) (Some cur) = Some cur
   /\ handleData (Some pre) (Some cur) = (Some pre, Some cur)
   /\ getSubdeviceDataCurrent md 1 = U64.max)
  /\ (let pre := [("0"%string,
                    Samples.sample None [(0, Samples.reading 100 1); (1, Samples.reading 10 1)])] in
      let md := Samples.sample None [(0, Samples.reading 40 2); (1, Samples.reading 20 2)] in
      let cur := [("0"%string, md)] in
      let p_preData := counterOverflowDetection (Some pre) (Some cur) in
      p_preData = Some [("0"%string, Samples.sample None [(1, Samples.reading 10 1)])]
      /\ calculateData p_preData (Some cur) = Some cur
      /\ getSubdeviceDataCurrent md 1 = U64.max)
  /\ U64.div (U64.sub 20 10) (U64.sub 2 1) = 10.
Proof.
  split; [|split].
  - intros pre md cur. repeat split; reflexivity.
  - intros pre md cur p_preData. repeat split; reflexivity.
  - reflexivity.
Qed.

(** ** Running a call *)

Lemma bind_Returns {A B} (c : M A) (k : A -> M B) w a w' :
  c w = Returns a w' -> bind c k w = k a w'.
Proof. unfold bind. now intros ->. Qed.

Lemma ret_Returns {A} (a : A) w : ret a w = Returns a w.
Proof. reflexivity. Qed.

(** ** Buffer sizing of [getMetricsStatistics] *)

Lemma store_subdevice_stats_fits tiles deviceId datas capacity stored :
  Z.of_nat (List.length stored) + Z.of_nat (List.length tiles) <= capacity ->
  store_subdevice_stats tiles deviceId datas capacity stored
  = (XPUM_OK,
     Z.of_nat (List.length stored) + Z.of_nat (List.length tiles),
     stored ++ map (fun i => subdevice_stats deviceId i datas) tiles).
Proof.
  revert stored. induction tiles as [|i tiles IH]; intros stored Hfit;
    cbn [store_subdevice_stats map].
  - cbn [List.length]. rewrite Z.add_0_r, app_nil_r. reflexivity.
  - cbn [List.length] in Hfit.
    destruct (Z.geb_spec (Z.of_nat (List.length stored)) capacity) as [Hge|Hlt]; [lia|].
    rewrite IH.
    + rewrite length_app, <- app_assoc. cbn [List.length app].
      f_equal. f_equal. lia.
    + rewrite length_app. cbn [List.length]. lia.
Qed.

Lemma store_subdevice_stats_short tiles deviceId datas capacity stored :
  Z.of_nat (List.length stored) <= capacity ->
  capacity < Z.of_nat (List.length stored) + Z.of_nat (List.length tiles) ->
  exists stored',
    store_subdevice_stats tiles deviceId datas capacity stored
    = (XPUM_BUFFER_TOO_SMALL, capacity, stored')
    /\ Z.of_nat (List.length stored') = capacity.
Proof.
  revert stored. induction tiles as [|i tiles IH]; intros stored Hle Hshort;
    cbn [store_subdevice_stats]; cbn [List.length] in Hshort.
  - lia.
  - destruct (Z.geb_spec (Z.of_nat (List.length stored)) capacity) as [Hge|Hlt].
    + exists stored. split; [reflexivity|lia].
    + apply IH; rewrite length_app; cbn [List.length]; lia.
Qed.

Lemma store_subdevice_stats_bound tiles deviceId datas capacity stored :
  Z.of_nat (List.length stored) <= capacity ->
  Z.of_nat (List.length (snd (store_subdevice_stats tiles deviceId datas capacity stored)))
  <= capacity.
Proof.
  revert stored. induction tiles as [|i tiles IH]; intros stored Hle;
    cbn [store_subdevice_stats]; [assumption|].
  destruct (Z.geb_spec (Z.of_nat (List.length stored)) capacity) as [Hge|Hlt]; [assumption|].
  apply IH. rewrite length_app. cbn [List.length]. lia.
Qed.

Lemma length_tiles_of n : 0 <= n -> Z.of_nat (List.length (tiles_of n)) = n.
Proof.
  intros Hn. unfold tiles_of. rewrite length_map, length_seq. lia.
Qed.

Lemma store_stats_bound n deviceId datas capacity :
  0 <= capacity ->
  Z.of_nat (List.length (snd (store_stats n deviceId datas capacity))) <= capacity.
Proof.
  intros Hc. unfold store_stats.
  destruct (Z.geb_spec 0 capacity); [simpl; assumption|].
  apply store_subdevice_stats_bound. simpl. lia.
Qed.

(** With an initialised handler manager the metric loop runs to its end. *)
Lemma poll_statistics_returns core manager fuel metric device_id session_id
      start_time end_time w :
  Core.p_data_handler_manager core = Some manager ->
  exists p w',
    poll_statistics core fuel metric device_id session_id start_time end_time w
    = Returns p w'.
Proof.
  intros Hm.
  revert end_time w. induction fuel as [|fuel IH]; intros end_time w; simpl.
  - destruct (end_time - start_time <=? 30); eexists; eexists; reflexivity.
  - destruct (end_time - start_time <=? 30); [|eexists; eexists; reflexivity].
    unfold bind at 1. unfold getLatestStatistics. rewrite Hm.
    destruct (DataHandlerManager.getLatestStatistics manager _ metric device_id session_id).
    + eexists; eexists; reflexivity.
    + unfold bind, sleep_for, now_seconds. apply IH.
Qed.

Lemma statistics_of_metric_returns enum_value core manager bdf device_id session_id
      metric acc w :
  Core.p_data_handler_manager core = Some manager ->
  exists acc' w',
    statistics_of_metric enum_value core bdf device_id session_id metric acc w
    = Returns acc' w'.
Proof.
  intros Hm. unfold statistics_of_metric.
  destruct (negb (is_multi_entity metric)); [|eexists; eexists; reflexivity].
  assert (Hpoll : forall acc0 w0,
             exists acc' w',
               (if is_polled enum_value metric
                then
                  start_time <- now_seconds ;;
                  end_time <- now_seconds ;;
                  polled <- poll_statistics core (poll_turns start_time end_time) metric
                              device_id session_id start_time end_time ;;
                  match polled with
                  | Some data => ret (record_data metric data acc0)
                  | None => ret acc0
                  end
                else ret acc0) w0 = Returns acc' w').
  { intros acc0 w0. destruct (is_polled enum_value metric); [|eexists; eexists; reflexivity].
    unfold bind at 1 2. unfold now_seconds at 1 2.
    destruct (poll_statistics_returns core manager
                (poll_turns (millis w0 / 1000) (millis w0 / 1000)) metric device_id
                session_id (millis w0 / 1000) (millis w0 / 1000) w0 Hm) as (p & w' & Hp).
    rewrite (bind_Returns _ _ _ _ _ Hp).
    destruct p; eexists; eexists; reflexivity. }
  destruct (is_power metric && hasDataOnDevice (Core.loadPVCIdlePowers core bdf)).
  - eexists; eexists; reflexivity.
  - unfold bind at 1. unfold getLatestStatistics. rewrite Hm.
    destruct (DataHandlerManager.getLatestStatistics manager _ metric device_id session_id).
    + eexists; eexists; reflexivity.
    + apply Hpoll.
Qed.

Lemma collect_statistics_returns enum_value core manager bdf device_id session_id
      metric_types acc w :
  Core.p_data_handler_manager core = Some manager ->
  exists acc' w',
    collect_statistics enum_value core bdf device_id session_id metric_types acc w
    = Returns acc' w'.
Proof.
  intros Hm. revert acc w.
  induction metric_types as [|metric rest IH]; intros acc w; simpl.
  - eexists; eexists; reflexivity.
  - destruct (statistics_of_metric_returns enum_value core manager bdf device_id
                session_id metric acc w Hm) as (acc' & w' & Hs).
    rewrite (bind_Returns _ _ _ _ _ Hs). apply IH.
Qed.

(** What a call with a buffer returns, in terms of the collected data. *)
Lemma getMetricsStatistics_array enum_value core manager device deviceId count session_id w :
  Core.getDevice core deviceId = Some device ->
  Core.p_data_handler_manager core = Some manager ->
  exists datas w',
    getMetricsStatistics enum_value core deviceId array count session_id w
    = Returns
        (let '(code, count', stored) :=
           store_stats (Device.NUMBER_OF_SUBDEVICE device) deviceId datas count in
         {| Reply.result := code; Reply.count := count'; Reply.dataList := stored;
            Reply.begin_time := Some (DataHandlerManager.getStatsTimestamp manager session_id deviceId);
            Reply.end_time := Some (millis w') |})
        w'.
Proof.
  intros Hdev Hm. unfold getMetricsStatistics. rewrite Hdev.
  destruct (collect_statistics_returns enum_value core manager
              (Device.PCI_BDF_ADDRESS device) deviceId session_id
              (erase_unsupported (Device.getCapability device) (Core.getEnabledMetrics core))
              ([], false) w Hm) as (datas & w' & Hc).
  exists datas, w'.
  rewrite (bind_Returns _ _ _ _ _ Hc).
  unfold getStatsTimestamp. rewrite Hm.
  unfold bind, ret, getCurrentTime.
  destruct (store_stats _ _ _ _) as [[code count'] stored]. reflexivity.
Qed.

(** C1.  On a known device with [N] sub-devices, a call of
    [getMetricsStatistics] without a buffer answers [XPUM_OK], reports
    [N + 1] rows and stores none; a call with [N + 1] slots answers
    [XPUM_OK] and stores exactly [N + 1] rows; a call with [N] slots
    answers [XPUM_BUFFER_TOO_SMALL]; and no call stores more rows than the
    capacity it was given. *)
Theorem statistics_buffer_sizing :
  forall (enum_value : MeasurementType -> Z) (core : Core.t) (device : Device.t)
         (deviceId session_id : Z) (w : World),
    Core.getDevice core deviceId = Some device ->
    let N := Device.NUMBER_OF_SUBDEVICE device in
    0 <= N -> N + 1 < U32.modulus ->
    (forall count,
        getMetricsStatistics enum_value core deviceId nullptr count session_id w
        = Returns {| Reply.result := XPUM_OK; Reply.count := N + 1; Reply.dataList := [];
                     Reply.begin_time := None; Reply.end_time := None |} w)
    /\ (forall manager,
          Core.p_data_handler_manager core = Some manager ->
          (exists reply w',
              getMetricsStatistics enum_value core deviceId array (N + 1) session_id w
              = Returns reply w'
              /\ Reply.result reply = XPUM_OK
              /\ Reply.count reply = N + 1
              /\ Z.of_nat (List.length (Reply.dataList reply)) = N + 1)
          /\ (exists reply w',
                getMetricsStatistics enum_value core deviceId array N session_id w
                = Returns reply w'
                /\ Reply.result reply = XPUM_BUFFER_TOO_SMALL
                /\ Z.of_nat (List.length (Reply.dataList reply)) <= N)
          /\ (forall capacity, 0 <= capacity ->
                exists reply w',
                  getMetricsStatistics enum_value core deviceId array capacity session_id w
                  = Returns reply w'
                  /\ Z.of_nat (List.length (Reply.dataList reply)) <= capacity)).
Proof.
  intros enum_value core device deviceId session_id w Hdev N HN Hfit. split.
  - intros count. unfold getMetricsStatistics. rewrite Hdev.
    unfold U32.add, U32.wrap. fold N. rewrite Z.mod_small by lia. reflexivity.
  - intros manager Hm. split; [|split].
    + destruct (getMetricsStatistics_array enum_value core manager device deviceId (N + 1)
                  session_id w Hdev Hm) as (datas & w' & Hcall).
      eexists. exists w'. split; [exact Hcall|].
      fold N. unfold store_stats.
      destruct (Z.geb_spec 0 (N + 1)); [lia|].
      rewrite store_subdevice_stats_fits
        by (rewrite length_tiles_of by assumption; cbn [List.length]; lia).
      cbn [Reply.result Reply.count Reply.dataList]. rewrite length_tiles_of by assumption.
      cbn [List.length]. split; [reflexivity|]. split; [lia|].
      rewrite length_app, length_map. cbn [List.length].
      pose proof (length_tiles_of N HN). lia.
    + destruct (getMetricsStatistics_array enum_value core manager device deviceId N
                  session_id w Hdev Hm) as (datas & w' & Hcall).
      eexists. exists w'. split; [exact Hcall|].
      fold N. unfold store_stats.
      destruct (Z.geb_spec 0 N) as [Hz|Hpos].
      * cbn [Reply.result Reply.dataList List.length]. split; [reflexivity|lia].
      * destruct (store_subdevice_stats_short (tiles_of N) deviceId datas N
                    [device_stats deviceId datas]) as (stored' & -> & Hlen).
        -- cbn [List.length]. lia.
        -- rewrite length_tiles_of by assumption. cbn [List.length]. lia.
        -- cbn [Reply.result Reply.dataList]. split; [reflexivity|lia].
    + intros capacity Hcap.
      destruct (getMetricsStatistics_array enum_value core manager device deviceId capacity
                  session_id w Hdev Hm) as (datas & w' & Hcall).
      eexists. exists w'. split; [exact Hcall|].
      pose proof (store_stats_bound (Device.NUMBER_OF_SUBDEVICE device) deviceId datas
                    capacity Hcap) as Hb.
      destruct (store_stats _ _ _ _) as [[code count'] stored]. exact Hb.
Qed.

(** The two-tile device: three rows are announced, three slots are filled,
    and two slots are too few. *)
Lemma statistics_buffer_sizing_witness :
  let core := Fixtures.core [METRIC_POWER; METRIC_ENERGY] Fixtures.no_data [] in
  (exists reply w',
      getMetricsStatistics Fixtures.declared_order core 0 array 3 0 Fixtures.start
      = Returns reply w'
      /\ Reply.result reply = XPUM_OK
      /\ Reply.count reply = 3
      /\ Z.of_nat (List.length (Reply.dataList reply)) = 3)
  /\ (exists reply w',
        getMetricsStatistics Fixtures.declared_order core 0 array 2 0 Fixtures.start
        = Returns reply w'
        /\ Reply.result reply = XPUM_BUFFER_TOO_SMALL
        /\ Z.of_nat (List.length (Reply.dataList reply)) <= 2).
Proof.
  intros core.
  destruct (statistics_buffer_sizing Fixtures.declared_order core Fixtures.device 0 0
              Fixtures.start eq_refl) as [_ Hbuf].
  - simpl. lia.
  - reflexivity.
  - destruct (Hbuf _ eq_refl) as (Hexact & Hshort & _). split; assumption.
Defined.

(** ** Order of the checks of [getEngineStatistics] *)

(** C10.  [getEngineStatistics] looks for the device first.  On a known
    device a call without a buffer answers [XPUM_OK] with the engine count,
    whatever the configuration, the capabilities and the state of the
    handler manager; so a call that answers [XPUM_METRIC_NOT_ENABLED] or
    [XPUM_METRIC_NOT_SUPPORTED] was given a buffer (and a known device). *)
Theorem engine_statistics_sizing_first :
  forall (core : Core.t) (deviceId count session_id : Z) (w : World),
    (forall dataList,
        Core.getDevice core deviceId = None ->
        getEngineStatistics core deviceId dataList count session_id w
        = Returns {| Reply.result := XPUM_RESULT_DEVICE_NOT_FOUND; Reply.count := count; Reply.dataList := [];
                     Reply.begin_time := None; Reply.end_time := None |} w)
    /\ (forall device,
          Core.getDevice core deviceId = Some device ->
          getEngineStatistics core deviceId nullptr count session_id w
          = Returns {| Reply.result := XPUM_OK; Reply.count := Device.getEngineCount device;
                       Reply.dataList := []; Reply.begin_time := None; Reply.end_time := None |} w)
    /\ (forall dataList reply w',
          getEngineStatistics core deviceId dataList count session_id w = Returns reply w' ->
          Reply.result reply = XPUM_METRIC_NOT_ENABLED \/ Reply.result reply = XPUM_METRIC_NOT_SUPPORTED ->
          dataList = array /\ Core.getDevice core deviceId <> None).
Proof.
  intros core deviceId count session_id w. split; [|split].
  - intros dataList Hdev. unfold getEngineStatistics. now rewrite Hdev.
  - intros device Hdev. unfold getEngineStatistics. now rewrite Hdev.
  - intros dataList reply w' Hcall Hcode.
    unfold getEngineStatistics in Hcall.
    destruct (Core.getDevice core deviceId) as [device|].
    + split; [|discriminate].
      destruct dataList; [|reflexivity].
      inversion Hcall; subst reply. simpl in Hcode.
      destruct Hcode; discriminate.
    + inversion Hcall; subst reply. simpl in Hcode.
      destruct Hcode; discriminate.
Qed.

(** Engine utilization is not enabled: the sizing call still answers
    [XPUM_OK] with two engines, the call with a buffer answers
    [XPUM_METRIC_NOT_ENABLED]. *)
Lemma engine_statistics_sizing_first_witness :
  let core := Fixtures.core [METRIC_POWER] Fixtures.no_data [] in
  getEngineStatistics core 0 nullptr 0 0 Fixtures.start
  = Returns {| Reply.result := XPUM_OK; Reply.count := 2; Reply.dataList := [];
               Reply.begin_time := None; Reply.end_time := None |} Fixtures.start
  /\ getEngineStatistics core 0 array 2 0 Fixtures.start
     = Returns {| Reply.result := XPUM_METRIC_NOT_ENABLED; Reply.count := 0; Reply.dataList := [];
                  Reply.begin_time := Some 1000; Reply.end_time := Some 7000 |} Fixtures.start
  /\ array = array /\ Core.getDevice core 0 <> None.
Proof.
  intros core.
  destruct (engine_statistics_sizing_first core 0 0 0 Fixtures.start) as (_ & Hsize & _).
  destruct (engine_statistics_sizing_first core 0 2 0 Fixtures.start) as (_ & _ & Hbuf).
  split; [exact (Hsize Fixtures.device eq_refl)|].
  split; [reflexivity|].
  apply (Hbuf array _ Fixtures.start eq_refl). left. reflexivity.
Defined.

(** ** Rows of the statistics assemblers *)

Lemma bind_inv {A B} (c : M A) (k : A -> M B) w b w' :
  bind c k w = Returns b w' ->
  exists a w1, c w = Returns a w1 /\ k a w1 = Returns b w'.
Proof.
  unfold bind. destruct (c w) as [a w1|what]; [|discriminate].
  intros Hk. exists a, w1. auto.
Qed.

Lemma store_subdevice_stats_rows tiles deviceId datas capacity stored stats :
  In stats (snd (store_subdevice_stats tiles deviceId datas capacity stored)) ->
  In stats stored \/ exists i, In i tiles /\ stats = subdevice_stats deviceId i datas.
Proof.
  revert stored. induction tiles as [|i tiles IH]; intros stored;
    cbn [store_subdevice_stats]; [auto|].
  destruct (Z.of_nat (List.length stored) >=? capacity); [auto|].
  intros Hin. apply IH in Hin. destruct Hin as [Hin|(j & Hj & ->)].
  - apply in_app_or in Hin. destruct Hin as [Hin|[<-|[]]]; [auto|].
    right. exists i. split; [now left|reflexivity].
  - right. exists j. split; [now right|reflexivity].
Qed.

Lemma store_stats_rows n deviceId datas capacity stats :
  In stats (snd (store_stats n deviceId datas capacity)) ->
  stats = device_stats deviceId datas
  \/ exists i, stats = subdevice_stats deviceId i datas.
Proof.
  unfold store_stats. destruct (0 >=? capacity); [intros []|].
  intros Hin. apply store_subdevice_stats_rows in Hin.
  destruct Hin as [[<-|[]]|(i & _ & ->)]; [now left|right; now exists i].
Qed.

Lemma stats_data_counter type scale current min avg max :
  Utility.isCounterMetric type = true ->
  let row := stats_data type scale current min avg max in
  xpum_device_stats_data_t.metricsType row = Utility.xpumStatsTypeFromMeasurementType type
  /\ xpum_device_stats_data_t.scale row = scale
  /\ xpum_device_stats_data_t.isCounter row = true
  /\ xpum_device_stats_data_t.accumulated row = current
  /\ xpum_device_stats_data_t.value row = U64.sub current min.
Proof. intros Hc. unfold stats_data. rewrite Hc. simpl. auto. Qed.

Lemma stats_data_gauge type scale current min avg max :
  Utility.isCounterMetric type = false ->
  let row := stats_data type scale current min avg max in
  xpum_device_stats_data_t.metricsType row = Utility.xpumStatsTypeFromMeasurementType type
  /\ xpum_device_stats_data_t.scale row = scale
  /\ xpum_device_stats_data_t.isCounter row = false
  /\ xpum_device_stats_data_t.value row = current
  /\ xpum_device_stats_data_t.avg row = avg
  /\ xpum_device_stats_data_t.min row = min
  /\ xpum_device_stats_data_t.max row = max.
Proof. intros Hc. unfold stats_data. rewrite Hc. simpl. repeat split. Qed.

Lemma store_fabric_stats_rows core entries device deviceId p_data count stored row :
  In row (snd (store_fabric_stats core entries device deviceId p_data count stored)) ->
  In row stored
  \/ exists fabricId measurementData info did,
      In (fabricId, measurementData) entries
      /\ Device.getFabricThroughputInfo device fabricId = Some info
      /\ Core.getDeviceIDByFabricID core (FabricThroughputInfo.remote_fabric_id info)
         = Some did
      /\ row = fabric_throughput_stats deviceId p_data info did measurementData.
Proof.
  revert stored. induction entries as [|[fabricId measurementData] entries IH];
    intros stored; cbn [store_fabric_stats]; [auto|].
  destruct (Device.getFabricThroughputInfo device fabricId) as [info|] eqn:Einfo.
  - destruct (Core.getDeviceIDByFabricID core _) as [did|] eqn:Edid; [|auto].
    intros Hin. apply IH in Hin.
    destruct Hin as [Hin|(f & m & i & d & Hf & Hi & Hd & ->)].
    + apply in_app_or in Hin. destruct Hin as [Hin|[<-|[]]]; [auto|].
      right. exists fabricId, measurementData, info, did.
      repeat split; auto. now left.
    + right. exists f, m, i, d. repeat split; auto. now right.
  - intros Hin. apply IH in Hin.
    destruct Hin as [Hin|(f & m & i & d & Hf & Hi & Hd & ->)]; [auto|].
    right. exists f, m, i, d. repeat split; auto. now right.
Qed.

(** C6.  Every row of [getMetricsStatistics] comes from one entry
    [(type, data)] of the collected [m_datas], read on the device for a
    device row and on the tile for a tile row.  For a counter metric the
    row is flagged [isCounter] and carries [accumulated = current] and
    [value = current - min] (in 64-bit arithmetic); for any other metric it
    carries [value = current], [avg], [min] and [max].  Every row of
    [getFabricThroughputStatistics] comes from one entry of the latest
    fabric sample: for the two counter types it carries
    [value = current - min], [accumulated = current] and scale 1, for the
    other types [value = current], [min], [avg], [max] and the scale of the
    sample. *)
Theorem statistics_row_contents :
  (forall (enum_value : MeasurementType -> Z) (core : Core.t)
          (deviceId count session_id : Z) (buffer : out_buffer) (w w' : World)
          (reply : Reply.t xpum_device_stats_t.t),
      getMetricsStatistics enum_value core deviceId buffer count session_id w
      = Returns reply w' ->
      forall stats row,
        In stats (Reply.dataList reply) ->
        In row (xpum_device_stats_t.dataList stats) ->
        exists device datas w1 type data,
          Core.getDevice core deviceId = Some device
          /\ collect_statistics enum_value core (Device.PCI_BDF_ADDRESS device) deviceId
               session_id
               (erase_unsupported (Device.getCapability device) (Core.getEnabledMetrics core))
               ([], false) w
             = Returns datas w1
          /\ In (type, data) (fst datas)
          /\ let tile := xpum_device_stats_t.tileId stats in
             let scoped (on_device : Z) (on_tile : Z) :=
               if xpum_device_stats_t.isTileData stats then on_tile else on_device in
             let current := scoped (getCurrent data) (getSubdeviceDataCurrent data tile) in
             let min := scoped (getMin data) (getSubdeviceDataMin data tile) in
             let avg := scoped (getAvg data) (getSubdeviceDataAvg data tile) in
             let max := scoped (getMax data) (getSubdeviceDataMax data tile) in
             xpum_device_stats_data_t.metricsType row
             = Utility.xpumStatsTypeFromMeasurementType type
             /\ xpum_device_stats_data_t.scale row = getScale data
             /\ xpum_device_stats_data_t.isCounter row = Utility.isCounterMetric type
             /\ (Utility.isCounterMetric type = true ->
                 xpum_device_stats_data_t.accumulated row = current
                 /\ xpum_device_stats_data_t.value row = U64.sub current min
                 /\ (U64.in_range current -> U64.in_range min -> min <= current ->
                     xpum_device_stats_data_t.value row = current - min))
             /\ (Utility.isCounterMetric type = false ->
                 xpum_device_stats_data_t.value row = current
                 /\ xpum_device_stats_data_t.avg row = avg
                 /\ xpum_device_stats_data_t.min row = min
                 /\ xpum_device_stats_data_t.max row = max))
  /\ (forall (core : Core.t) (deviceId count session_id : Z) (buffer : out_buffer)
             (w w' : World) (reply : Reply.t xpum_device_fabric_throughput_stats_t.t),
        getFabricThroughputStatistics core deviceId buffer count session_id w
        = Returns reply w' ->
        forall row,
          In row (Reply.dataList reply) ->
          exists device manager p_data fabricId entry info,
            Core.getDevice core deviceId = Some device
            /\ Core.p_data_handler_manager core = Some manager
            /\ DataHandlerManager.getLatestStatistics manager (millis w)
                 METRIC_FABRIC_THROUGHPUT deviceId session_id = Some p_data
            /\ In (fabricId, entry) (getMultiMetricsDatas p_data)
            /\ Device.getFabricThroughputInfo device fabricId = Some info
            /\ xpum_device_fabric_throughput_stats_t.type row
               = Utility.toXPUMFabricThroughputType (FabricThroughputInfo.type info)
            /\ (FabricThroughputInfo.type info = TRANSMITTED_COUNTER
                \/ FabricThroughputInfo.type info = RECEIVED_COUNTER ->
                xpum_device_fabric_throughput_stats_t.value row
                = U64.sub (mm_current entry) (mm_min entry)
                /\ xpum_device_fabric_throughput_stats_t.accumulated row = mm_current entry
                /\ xpum_device_fabric_throughput_stats_t.scale row = 1)
            /\ (FabricThroughputInfo.type info = TRANSMITTED
                \/ FabricThroughputInfo.type info = RECEIVED ->
                xpum_device_fabric_throughput_stats_t.value row = mm_current entry
                /\ xpum_device_fabric_throughput_stats_t.min row = mm_min entry
                /\ xpum_device_fabric_throughput_stats_t.avg row = mm_avg entry
                /\ xpum_device_fabric_throughput_stats_t.max row = mm_max entry
                /\ xpum_device_fabric_throughput_stats_t.scale row = getScale p_data)).
Proof.
  split.
  - intros enum_value core deviceId count session_id buffer w w' reply Hcall stats row
           Hstats Hrow.
    unfold getMetricsStatistics in Hcall.
    destruct (Core.getDevice core deviceId) as [device|] eqn:Hdev;
      [|inversion Hcall; subst reply; destruct Hstats].
    destruct buffer; [inversion Hcall; subst reply; destruct Hstats|].
    apply bind_inv in Hcall. destruct Hcall as (datas & w1 & Hcollect & Hcall).
    apply bind_inv in Hcall. destruct Hcall as (begin & w2 & _ & Hcall).
    apply bind_inv in Hcall. destruct Hcall as (end_ & w3 & _ & Hcall).
    pose proof (store_stats_rows (Device.NUMBER_OF_SUBDEVICE device) deviceId datas count stats)
      as Hrows.
    destruct (store_stats _ _ _ _) as [[code count'] stored].
    inversion Hcall; subst reply. cbn [Reply.dataList] in Hstats.
    specialize (Hrows Hstats).
    assert (Hentry : exists type data,
               In (type, data) (fst datas)
               /\ row = stats_data type (getScale data)
                          (if xpum_device_stats_t.isTileData stats
                           then getSubdeviceDataCurrent data (xpum_device_stats_t.tileId stats)
                           else getCurrent data)
                          (if xpum_device_stats_t.isTileData stats
                           then getSubdeviceDataMin data (xpum_device_stats_t.tileId stats)
                           else getMin data)
                          (if xpum_device_stats_t.isTileData stats
                           then getSubdeviceDataAvg data (xpum_device_stats_t.tileId stats)
                           else getAvg data)
                          (if xpum_device_stats_t.isTileData stats
                           then getSubdeviceDataMax data (xpum_device_stats_t.tileId stats)
                           else getMax data)).
    { destruct Hrows as [->|(i & ->)]; cbn in Hrow |- *.
      - destruct (snd datas); [|destruct Hrow].
        apply in_map_iff in Hrow. destruct Hrow as ([type data] & <- & Hin).
        apply filter_In in Hin. destruct Hin as [Hin _].
        exists type, data. split; [assumption|reflexivity].
      - apply in_map_iff in Hrow. destruct Hrow as ([type data] & <- & Hin).
        apply filter_In in Hin. destruct Hin as [Hin _].
        exists type, data. split; [assumption|reflexivity]. }
    destruct Hentry as (type & data & Hin & ->).
    exists device, datas, w1, type, data.
    split; [reflexivity|]. split; [exact Hcollect|]. split; [exact Hin|].
    cbv zeta.
    destruct (Utility.isCounterMetric type) eqn:Ecounter.
    + destruct (stats_data_counter type (getScale data)
                  (if xpum_device_stats_t.isTileData stats
                   then getSubdeviceDataCurrent data (xpum_device_stats_t.tileId stats)
                   else getCurrent data)
                  (if xpum_device_stats_t.isTileData stats
                   then getSubdeviceDataMin data (xpum_device_stats_t.tileId stats)
                   else getMin data)
                  (if xpum_device_stats_t.isTileData stats
                   then getSubdeviceDataAvg data (xpum_device_stats_t.tileId stats)
                   else getAvg data)
                  (if xpum_device_stats_t.isTileData stats
                   then getSubdeviceDataMax data (xpum_device_stats_t.tileId stats)
                   else getMax data) Ecounter) as (Ht & Hs & Hc & Ha & Hv).
      repeat split; try assumption; try discriminate.
      intros Hcur Hmin Hle. rewrite Hv. now apply U64_sub_no_borrow.
    + destruct (stats_data_gauge type (getScale data)
                  (if xpum_device_stats_t.isTileData stats
                   then getSubdeviceDataCurrent data (xpum_device_stats_t.tileId stats)
                   else getCurrent data)
                  (if xpum_device_stats_t.isTileData stats
                   then getSubdeviceDataMin data (xpum_device_stats_t.tileId stats)
                   else getMin data)
                  (if xpum_device_stats_t.isTileData stats
                   then getSubdeviceDataAvg data (xpum_device_stats_t.tileId stats)
                   else getAvg data)
                  (if xpum_device_stats_t.isTileData stats
                   then getSubdeviceDataMax data (xpum_device_stats_t.tileId stats)
                   else getMax data) Ecounter) as (Ht & Hs & Hc & Hv & Ha & Hmi & Hma).
      repeat split; try assumption; try discriminate.
  - intros core deviceId count session_id buffer w w' reply Hcall row Hrow.
    unfold getFabricThroughputStatistics in Hcall.
    destruct (Core.getDevice core deviceId) as [device|] eqn:Hdev;
      [|inversion Hcall; subst reply; destruct Hrow].
    destruct (negb (contains (Core.getEnabledMetrics core) METRIC_FABRIC_THROUGHPUT));
      [inversion Hcall; subst reply; destruct Hrow|].
    destruct (negb (contains (erase_unsupported _ _) METRIC_FABRIC_THROUGHPUT));
      [inversion Hcall; subst reply; destruct Hrow|].
    destruct (is_nullptr buffer || _);
      [inversion Hcall; subst reply; destruct Hrow|].
    apply bind_inv in Hcall. destruct Hcall as (p_data & w1 & Hlatest & Hcall).
    unfold getLatestStatistics in Hlatest.
    destruct (Core.p_data_handler_manager core) as [manager|] eqn:Hm; [|discriminate].
    inversion Hlatest; subst p_data w1. clear Hlatest.
    destruct (DataHandlerManager.getLatestStatistics manager (millis w)
                METRIC_FABRIC_THROUGHPUT deviceId session_id) as [data|] eqn:Hdata;
      [|inversion Hcall; subst reply; destruct Hrow].
    destruct (fabric_total device (getMultiMetricsDatas data) >? count);
      [inversion Hcall; subst reply; destruct Hrow|].
    apply bind_inv in Hcall. destruct Hcall as (begin & w2 & _ & Hcall).
    apply bind_inv in Hcall. destruct Hcall as (end_ & w3 & _ & Hcall).
    destruct (getTimestamp data <? begin);
      [inversion Hcall; subst reply; destruct Hrow|].
    pose proof (store_fabric_stats_rows core (getMultiMetricsDatas data) device deviceId data
                  count [] row) as Hrows.
    destruct (store_fabric_stats _ _ _ _ _ _ _) as [[code count'] stored].
    inversion Hcall; subst reply. cbn [Reply.dataList] in Hrow.
    destruct (Hrows Hrow) as [[]|(fabricId & entry & info & did & Hin & Hinfo & _ & ->)].
    exists device, manager, data, fabricId, entry, info.
    repeat (split; [first [reflexivity|assumption]|]).
    unfold fabric_throughput_stats.
    destruct (FabricThroughputInfo.type info); cbn;
      (split; [reflexivity|]); split; intros [Hty|Hty];
      try discriminate Hty; repeat split.
Qed.

(** The energy row of the device (a counter) and the two fabric rows of the
    fixture: link 1 counts transmitted bytes, link 2 reports bandwidth. *)
Lemma statistics_row_contents_witness :
  let core :=
    Fixtures.core [METRIC_POWER; METRIC_ENERGY; METRIC_FABRIC_THROUGHPUT] Fixtures.no_data
      [(1, Fixtures.entity 500 200 300 500); (2, Fixtures.entity 30 10 20 40)] in
  let energy := stats_data METRIC_ENERGY 100 9000 8000 8500 9000 in
  let transmitted :=
    fabric_throughput_stats 0
      (Fixtures.collection 5000
         [(1, Fixtures.entity 500 200 300 500); (2, Fixtures.entity 30 10 20 40)])

      {| FabricThroughputInfo.attach_id := 0;
         FabricThroughputInfo.remote_fabric_id := 70;
         FabricThroughputInfo.remote_attach_id := 1;
         FabricThroughputInfo.type := TRANSMITTED_COUNTER |}
      1 (Fixtures.entity 500 200 300 500) in
  (exists type data,
      xpum_device_stats_data_t.metricsType energy
      = Utility.xpumStatsTypeFromMeasurementType type
      /\ xpum_device_stats_data_t.isCounter energy = Utility.isCounterMetric type
      /\ (Utility.isCounterMetric type = true ->
          xpum_device_stats_data_t.accumulated energy = getCurrent data
          /\ xpum_device_stats_data_t.value energy = U64.sub (getCurrent data) (getMin data)))
  /\ xpum_device_stats_data_t.value energy = 1000
  /\ (exists entry info,
        xpum_device_fabric_throughput_stats_t.type transmitted
        = Utility.toXPUMFabricThroughputType (FabricThroughputInfo.type info)
        /\ (FabricThroughputInfo.type info = TRANSMITTED_COUNTER
            \/ FabricThroughputInfo.type info = RECEIVED_COUNTER ->
            xpum_device_fabric_throughput_stats_t.value transmitted
            = U64.sub (mm_current entry) (mm_min entry)
            /\ xpum_device_fabric_throughput_stats_t.accumulated transmitted = mm_current entry
            /\ xpum_device_fabric_throughput_stats_t.scale transmitted = 1))
  /\ xpum_device_fabric_throughput_stats_t.value transmitted = 300.
Proof.
  intros core energy transmitted.
  destruct statistics_row_contents as [Hstats Hfabric].
  split; [|split; [reflexivity|split; [|reflexivity]]].
  - destruct (Hstats Fixtures.declared_order core 0 3 0 array Fixtures.start _ _ eq_refl
                (device_stats 0
                   ([(METRIC_POWER,
                      Fixtures.statistics 70 60 65 80 [(0, Fixtures.tile 35 30 32 40)]);
                     (METRIC_ENERGY,
                      Fixtures.statistics 9000 8000 8500 9000
                        [(0, Fixtures.tile 4500 4000 4200 4500)])], true))
                energy)
      as (device & datas & w1 & type & data & _ & _ & _ & Hrow).
    + left. reflexivity.
    + right. left. reflexivity.
    + cbn in Hrow. destruct Hrow as (Ht & _ & Hc & Hcounter & _).
      exists type, data. split; [exact Ht|]. split; [exact Hc|].
      intros Etype. destruct (Hcounter Etype) as (Ha & Hv & _). split; assumption.
  - destruct (Hfabric core 0 2 0 array Fixtures.start _ _ eq_refl transmitted)
      as (device & manager & p_data & fabricId & entry & info & _ & _ & _ & _ & _
          & Hty & Hcounter & _).
    + left. reflexivity.
    + exists entry, info. split; [exact Hty|exact Hcounter].
Defined.

(** ** The idle-power probe *)

(** [getMetricsStatistics] takes the sample of the probe for the power
    metric whenever the probe has device-level data, without asking the
    store. *)
Lemma statistics_of_power_uses_probe enum_value core bdf device_id session_id acc w :
  hasDataOnDevice (Core.loadPVCIdlePowers core bdf) = true ->
  statistics_of_metric enum_value core bdf device_id session_id METRIC_POWER acc w
  = Returns (record_data METRIC_POWER (Core.loadPVCIdlePowers core bdf) acc) w.
Proof.
  intros Hprobe. unfold statistics_of_metric. simpl. rewrite Hprobe. reflexivity.
Qed.

(** [getLatestMetrics] never does: its test ends in [, false]. *)
Lemma latest_of_power_ignores_probe core bdf device_id acc :
  latest_of_metric core bdf device_id METRIC_POWER acc
  = (m_data <- getLatestData core METRIC_POWER device_id ;;
     match m_data with
     | Some data => ret (record_data METRIC_POWER data acc)
     | None => ret acc
     end).
Proof. reflexivity. Qed.

(** C5 at a device whose idle-power probe reports 12 on the device while
    the regular power sample reads 70: the statistics row for power carries
    the probe's 12, the snapshot row carries the regular 70. *)
Theorem snapshot_ignores_idle_power_probe :
  let probe := Fixtures.statistics 12 12 12 12 [] in
  let core := Fixtures.core [METRIC_POWER] probe [] in
  hasDataOnDevice probe = true
  /\ (exists reply w',
         getMetricsStatistics Fixtures.declared_order core 0 array 3 0 Fixtures.start
         = Returns reply w'
         /\ map (fun stats => map xpum_device_stats_data_t.value
                                  (xpum_device_stats_t.dataList stats))
                (Reply.dataList reply)
            = [[12]; []; []])
  /\ (exists rows w',
         getLatestMetrics core 0 array 3 Fixtures.start = Returns (3, rows) w'
         /\ map (fun metrics => map xpum_device_metric_data_t.value
                                    (xpum_device_metrics_t.dataList metrics))
                rows
            = [[70]; [35]; []]).
Proof.
  intros probe core. split; [reflexivity|]. split.
  - eexists. eexists. split; [vm_compute; reflexivity|reflexivity].
  - eexists. eexists. split; [vm_compute; reflexivity|reflexivity].
Qed.

(** ** Unresolved entries in the fabric and engine assemblers *)


Lemma fabric_total_cons device f m entries :
  fabric_total device ((f, m) :: entries)
  = (match Device.getFabricThroughputInfo device f with Some _ => 1 | None => 0 end)
    + fabric_total device entries.
Proof.
  unfold fabric_total. cbn [filter fst].
  destruct (Device.getFabricThroughputInfo device f); cbn [List.length]; lia.
Qed.

Lemma fabric_total_nonneg device entries : 0 <= fabric_total device entries.
Proof. unfold fabric_total. lia. Qed.


Lemma store_engine_stats_skips core entries device deviceId p_data capacity stored :
  store_engine_stats core entries device deviceId p_data capacity stored
  = store_engine_stats core (filter (engine_entry_usable device) entries)
      device deviceId p_data capacity stored.
Proof.
  revert stored. induction entries as [|entry entries IH]; intros stored; [reflexivity|].
  cbn [store_engine_stats filter].
  destruct (engine_entry_usable device entry) eqn:Eu.
  - cbn [store_engine_stats]. rewrite Eu.
    destruct (Z.of_nat (List.length stored) >=? capacity); [reflexivity|apply IH].
  - apply IH.
Qed.






(** ** Polling of the statistics store *)

Lemma seconds_after_sleep t : (t + 1000 * 1) / 1000 = t / 1000 + 1.
Proof.
  replace (t + 1000 * 1) with (t + 1 * 1000) by ring.
  now rewrite Z.div_add by lia.
Qed.

Lemma poll_statistics_gives_up core manager metric device_id session_id :
  Core.p_data_handler_manager core = Some manager ->
  (forall t, DataHandlerManager.getLatestStatistics manager t metric device_id session_id
             = None) ->
  forall (turns : nat) (start_time : Z) (w : World),
    millis w / 1000 - start_time = 31 - Z.of_nat turns ->
    poll_statistics core turns metric device_id session_id start_time (millis w / 1000) w
    = Returns None {| millis := millis w + 1000 * Z.of_nat turns;
                      events := events w ++ poll_events metric (millis w) turns |}.
Proof.
  intros Hm Hnone turns. induction turns as [|turns IH]; intros start_time w Hturns;
    cbn [poll_statistics poll_events].
  - destruct (Z.leb_spec (millis w / 1000 - start_time) 30); [lia|].
    unfold ret. rewrite app_nil_r. cbn [Z.of_nat]. rewrite Z.mul_0_r, Z.add_0_r.
    destruct w; reflexivity.
  - destruct (Z.leb_spec (millis w / 1000 - start_time) 30); [|lia].
    unfold bind at 1. unfold getLatestStatistics. rewrite Hm, Hnone.
    unfold bind, sleep_for, now_seconds. cbn [millis events].
    rewrite seconds_after_sleep.
    set (w1 := {| millis := millis w + 1000 * 1;
                  events := (events w ++ [LatestStatistics metric (millis w)]) ++ [SleepFor 1] |}).
    replace (millis w / 1000 + 1) with (millis w1 / 1000)
      by (unfold w1; cbn [millis]; apply seconds_after_sleep).
    rewrite IH by (unfold w1; cbn [millis]; rewrite seconds_after_sleep; lia).
    unfold w1. cbn [millis events].
    replace (millis w + 1000 * 1) with (millis w + 1000) by lia.
    replace (millis w + 1000 + 1000 * Z.of_nat turns)
      with (millis w + 1000 * Z.of_nat (S turns)) by lia.
    rewrite <- !app_assoc. reflexivity.
Qed.

Lemma poll_statistics_finds core manager metric device_id session_id data :
  Core.p_data_handler_manager core = Some manager ->
  forall (k turns : nat) (start_time : Z) (w : World),
    millis w / 1000 - start_time = 31 - Z.of_nat turns ->
    (k < turns)%nat ->
    (forall i, 0 <= i < Z.of_nat k ->
               DataHandlerManager.getLatestStatistics manager (millis w + 1000 * i)
                 metric device_id session_id = None) ->
    DataHandlerManager.getLatestStatistics manager (millis w + 1000 * Z.of_nat k)
      metric device_id session_id = Some data ->
    poll_statistics core turns metric device_id session_id start_time (millis w / 1000) w
    = Returns (Some data)
        {| millis := millis w + 1000 * Z.of_nat k;
           events := events w ++ poll_events metric (millis w) k
                              ++ [LatestStatistics metric (millis w + 1000 * Z.of_nat k)] |}.
Proof.
  intros Hm k. induction k as [|k IH]; intros turns start_time w Hturns Hk Hnone Hsome;
    (destruct turns as [|turns]; [lia|]); cbn [poll_statistics poll_events].
  - destruct (Z.leb_spec (millis w / 1000 - start_time) 30); [|lia].
    cbn [Z.of_nat] in Hsome |- *. rewrite Z.mul_0_r, Z.add_0_r in Hsome |- *.
    unfold bind at 1. unfold getLatestStatistics. rewrite Hm, Hsome. reflexivity.
  - destruct (Z.leb_spec (millis w / 1000 - start_time) 30); [|lia].
    unfold bind at 1. unfold getLatestStatistics. rewrite Hm.
    assert (Hfirst : DataHandlerManager.getLatestStatistics manager (millis w) metric
                       device_id session_id = None).
    { replace (millis w) with (millis w + 1000 * 0) by lia. apply Hnone. lia. }
    rewrite Hfirst.
    unfold bind, sleep_for, now_seconds. cbn [millis events].
    rewrite seconds_after_sleep.
    set (w1 := {| millis := millis w + 1000 * 1;
                  events := (events w ++ [LatestStatistics metric (millis w)]) ++ [SleepFor 1] |}).
    replace (millis w / 1000 + 1) with (millis w1 / 1000)
      by (unfold w1; cbn [millis]; apply seconds_after_sleep).
    rewrite (IH turns start_time w1).
    + unfold w1. cbn [millis events].
      replace (millis w + 1000 * 1) with (millis w + 1000) by lia.
      replace (millis w + 1000 + 1000 * Z.of_nat k)
        with (millis w + 1000 * Z.of_nat (S k)) by lia.
      rewrite <- !app_assoc. reflexivity.
    + unfold w1. cbn [millis]. rewrite seconds_after_sleep. lia.
    + lia.
    + intros i Hi. unfold w1. cbn [millis].
      replace (millis w + 1000 * 1 + 1000 * i) with (millis w + 1000 * (i + 1)) by ring.
      apply Hnone. lia.
    + unfold w1. cbn [millis].
      replace (millis w + 1000 * 1 + 1000 * Z.of_nat k)
        with (millis w + 1000 * Z.of_nat (S k)) by lia.
      exact Hsome.
Qed.

(** One turn of the metric loop of [getMetricsStatistics], for a
    metric that is neither multi-entity nor replaced by the idle-power
    probe and for which the store has nothing at the time of the call.  If
    the metric lies outside the two polled ranges of the enumeration, the
    store is asked once and nothing is recorded.  If it lies inside, the
    store is asked again at the seconds 0, 1, ..., 30 after the first
    query, with a sleep of one second after each unsuccessful query: the
    first answer is recorded, and when none comes the metric is left
    without data after the 31st sleep. *)
Lemma statistics_of_metric_polls :
  forall (enum_value : MeasurementType -> Z) (core : Core.t) (manager : DataHandlerManager.t)
         (bdf : string) (device_id session_id : Z) (metric : MeasurementType)
         (acc : Datas) (w : World),
    Core.p_data_handler_manager core = Some manager ->
    is_multi_entity metric = false ->
    is_power metric && hasDataOnDevice (Core.loadPVCIdlePowers core bdf) = false ->
    DataHandlerManager.getLatestStatistics manager (millis w) metric device_id session_id
    = None ->
    let asked := events w ++ [LatestStatistics metric (millis w)] in
    (is_polled enum_value metric = false ->
     statistics_of_metric enum_value core bdf device_id session_id metric acc w
     = Returns acc {| millis := millis w; events := asked |})
    /\ (is_polled enum_value metric = true ->
        ((forall t, DataHandlerManager.getLatestStatistics manager t metric device_id
                      session_id = None) ->
         statistics_of_metric enum_value core bdf device_id session_id metric acc w
         = Returns acc {| millis := millis w + 1000 * 31;
                          events := asked ++ poll_events metric (millis w) 31 |})
        /\ (forall (k : nat) (data : MeasurementData),
              (k <= 30)%nat ->
              (forall i, 0 <= i < Z.of_nat k ->
                         DataHandlerManager.getLatestStatistics manager (millis w + 1000 * i)
                           metric device_id session_id = None) ->
              DataHandlerManager.getLatestStatistics manager (millis w + 1000 * Z.of_nat k)
                metric device_id session_id = Some data ->
              statistics_of_metric enum_value core bdf device_id session_id metric acc w
              = Returns (record_data metric data acc)
                  {| millis := millis w + 1000 * Z.of_nat k;
                     events := asked ++ poll_events metric (millis w) k
                                     ++ [LatestStatistics metric
                                           (millis w + 1000 * Z.of_nat k)] |})).
Proof.
  intros enum_value core manager bdf device_id session_id metric acc w
         Hm Hmulti Hprobe Hfirst asked.
  assert (Hturn : statistics_of_metric enum_value core bdf device_id session_id metric acc w
                  = (if is_polled enum_value metric
                     then
                       polled <- poll_statistics core 31 metric device_id session_id
                                   (millis w / 1000) (millis w / 1000) ;;
                       match polled with
                       | Some data => ret (record_data metric data acc)
                       | None => ret acc
                       end
                     else ret acc) {| millis := millis w; events := asked |}).
  { unfold statistics_of_metric. rewrite Hmulti, Hprobe. cbn [negb].
    unfold bind at 1. unfold getLatestStatistics. rewrite Hm, Hfirst.
    destruct (is_polled enum_value metric); [|reflexivity].
    unfold bind at 1 2. unfold now_seconds at 1 2. cbn [millis].
    unfold poll_turns. rewrite Z.sub_diag. reflexivity. }
  rewrite Hturn. clear Hturn.
  set (w0 := {| millis := millis w; events := asked |}).
  split.
  - intros ->. reflexivity.
  - intros ->. split.
    + intros Hnone.
      pose proof (poll_statistics_gives_up core manager metric device_id session_id Hm Hnone
                    31 (millis w0 / 1000) w0) as Hpoll.
      cbn [millis events] in Hpoll. rewrite Z.sub_diag in Hpoll.
      specialize (Hpoll eq_refl).
      unfold bind. subst w0. cbn [millis] in Hpoll |- *. rewrite Hpoll. reflexivity.
    + intros k data Hk Hnone Hsome.
      pose proof (poll_statistics_finds core manager metric device_id session_id data Hm
                    k 31 (millis w0 / 1000) w0) as Hpoll.
      cbn [millis events] in Hpoll. rewrite Z.sub_diag in Hpoll.
      specialize (Hpoll eq_refl ltac:(lia) Hnone Hsome).
      unfold bind. subst w0. cbn [millis] in Hpoll |- *. rewrite Hpoll. reflexivity.
Qed.

(** With the enumerators numbered as in [Fixtures.declared_order], the
    polled metric types are the nine RAS error categories and EU
    active, stall and idle. *)
Lemma polled_metric_types metric :
  is_polled Fixtures.declared_order metric
  = match metric with
    | METRIC_EU_ACTIVE | METRIC_EU_STALL | METRIC_EU_IDLE
    | METRIC_RAS_ERROR_CAT_RESET
    | METRIC_RAS_ERROR_CAT_PROGRAMMING_ERRORS
    | METRIC_RAS_ERROR_CAT_DRIVER_ERRORS
    | METRIC_RAS_ERROR_CAT_CACHE_ERRORS_CORRECTABLE
    | METRIC_RAS_ERROR_CAT_CACHE_ERRORS_UNCORRECTABLE
    | METRIC_RAS_ERROR_CAT_DISPLAY_ERRORS_CORRECTABLE
    | METRIC_RAS_ERROR_CAT_DISPLAY_ERRORS_UNCORRECTABLE
    | METRIC_RAS_ERROR_CAT_NON_COMPUTE_ERRORS_CORRECTABLE
    | METRIC_RAS_ERROR_CAT_NON_COMPUTE_ERRORS_UNCORRECTABLE => true
    | _ => false
    end.
Proof. destruct metric; reflexivity. Qed.

(** EU active has no statistics in the fixture: the call gives up 31
    seconds later, after 32 queries.  Memory bandwidth has none either and
    is asked for once. *)
Lemma statistics_of_metric_polls_witness :
  let core := Fixtures.core [] Fixtures.no_data [] in
  let bdf := Device.PCI_BDF_ADDRESS Fixtures.device in
  (exists w',
      statistics_of_metric Fixtures.declared_order core bdf 0 0 METRIC_EU_ACTIVE ([], false)
        Fixtures.start
      = Returns ([], false) w'
      /\ millis w' = millis Fixtures.start + 31000
      /\ List.length (events w') = 63%nat)
  /\ statistics_of_metric Fixtures.declared_order core bdf 0 0 METRIC_MEMORY_BANDWIDTH
       ([], false) Fixtures.start
     = Returns ([], false)
         {| millis := 7000; events := [LatestStatistics METRIC_MEMORY_BANDWIDTH 7000] |}.
Proof.
  intros core bdf. split.
  - destruct (statistics_of_metric_polls Fixtures.declared_order core (Fixtures.manager [])
                bdf 0 0 METRIC_EU_ACTIVE ([], false) Fixtures.start
                eq_refl eq_refl eq_refl eq_refl) as [_ Hpolled].
    destruct (Hpolled eq_refl) as [Hgives_up _].
    eexists. split; [apply Hgives_up; reflexivity|]. split; reflexivity.
  - destruct (statistics_of_metric_polls Fixtures.declared_order core (Fixtures.manager [])
                bdf 0 0 METRIC_MEMORY_BANDWIDTH ([], false) Fixtures.start
                eq_refl eq_refl eq_refl eq_refl) as [Hplain _].
    exact (Hplain eq_refl).
Defined.

(** The whole call on the fixture with EU active enabled: the reply comes
    31 seconds after the call, with three rows and no data in them. *)
Example statistics_call_blocks_for_polled_metric :
  getMetricsStatistics Fixtures.declared_order
    (Fixtures.core [METRIC_EU_ACTIVE] Fixtures.no_data []) 0 array 3 0 Fixtures.start
  = Returns
      {| Reply.result := XPUM_OK; Reply.count := 3;
         Reply.dataList := [device_stats 0 ([], false);
                            subdevice_stats 0 0 ([], false);
                            subdevice_stats 0 1 ([], false)];
         Reply.begin_time := Some 1000; Reply.end_time := Some 38000 |}
      {| millis := 38000;
         events := LatestStatistics METRIC_EU_ACTIVE 7000
                   :: poll_events METRIC_EU_ACTIVE 7000 31 |}.
Proof. vm_compute. reflexivity. Qed.

(** The multi-entity metrics are left to their own assemblers: the metric
    loop neither asks the store for them nor waits. *)
Lemma multi_entity_metrics_are_skipped enum_value core bdf device_id session_id metric acc w :
  is_multi_entity metric = true ->
  statistics_of_metric enum_value core bdf device_id session_id metric acc w
  = Returns acc w.
Proof.
  intros Hmulti. unfold statistics_of_metric. rewrite Hmulti. reflexivity.
Qed.

(** ** Conversions between the type tables of [utility.cpp] *)

(** Converting a measurement type to its statistics type and back gives
    the type again, except for [METRIC_PERF], which has no statistics type
    and comes back as [METRIC_MAX]; converting a statistics type to its
    measurement type and back always gives the statistics type again. *)
Theorem stats_type_round_trip :
  (forall type,
      UtilityTables.measurementTypeFromXpumStatsType
        (Utility.xpumStatsTypeFromMeasurementType type)
      = match type with
        | METRIC_PERF => METRIC_MAX
        | _ => type
        end)
  /\ (forall xpumStatsType,
         Utility.xpumStatsTypeFromMeasurementType
           (UtilityTables.measurementTypeFromXpumStatsType xpumStatsType)
         = xpumStatsType).
Proof.
  split.
  - intros type; destruct type; reflexivity.
  - intros s; destruct s; reflexivity.
Qed.

(** The measurement type that stands for a capability requires that very
    capability, for every capability except [METRIC_PERF] (which has no
    representative and ends as [DEVICE_CAPABILITY_MAX]). *)
Theorem capability_round_trip :
  forall capability,
    Utility.capabilityFromMeasurementType
      (UtilityTables.measurementTypeFromCapability capability)
    = match capability with
      | DeviceCapability.METRIC_PERF => DeviceCapability.DEVICE_CAPABILITY_MAX
      | _ => capability
      end.
Proof. intros c; destruct c; reflexivity. Qed.

(** [getMetricsTypes] lists no type twice; a type is listed exactly when it
    has a statistics type other than [XPUM_STATS_MAX]; every listed type
    is tied to a real capability, and every counter metric is listed. *)
Theorem metric_types_are_reportable :
  NoDup UtilityTables.getMetricsTypes
  /\ (forall type,
         UtilityTables.isMetric type
         = match Utility.xpumStatsTypeFromMeasurementType type with
           | XPUM_STATS_MAX => false
           | _ => true
           end)
  /\ (forall type,
         In type UtilityTables.getMetricsTypes ->
         Utility.capabilityFromMeasurementType type <> DeviceCapability.DEVICE_CAPABILITY_MAX
         /\ Utility.capabilityFromMeasurementType type <> DeviceCapability.METRIC_PERF)
  /\ (forall type,
         Utility.isCounterMetric type = true -> UtilityTables.isMetric type = true).
Proof.
  split; [| split; [| split]].
  - unfold UtilityTables.getMetricsTypes.
    repeat (constructor; [simpl; intuition discriminate |]).
    constructor.
  - intros type; destruct type; reflexivity.
  - intros type Hin; unfold UtilityTables.getMetricsTypes in Hin; simpl in Hin.
    repeat (destruct Hin as [<- | Hin]; [split; discriminate |]).
    contradiction.
  - intros type; destruct type; simpl; intros Hc; try discriminate; reflexivity.
Qed.

Lemma metric_types_are_reportable_witness :
  (Utility.capabilityFromMeasurementType METRIC_ENERGY <> DeviceCapability.DEVICE_CAPABILITY_MAX
   /\ Utility.capabilityFromMeasurementType METRIC_ENERGY <> DeviceCapability.METRIC_PERF)
  /\ UtilityTables.isMetric METRIC_ENERGY = true.
Proof.
  destruct metric_types_are_reportable as (_ & _ & Hcap & Hcounter).
  split.
  - apply Hcap. simpl. auto.
  - apply Hcounter. reflexivity.
Defined.

(** An XPUM engine type survives the conversion to the Level Zero engine
    group and back; a Level Zero group survives the other round trip
    unless [toXPUMEngineType] has no name for it, in which case the round
    trip ends at [ZES_ENGINE_GROUP_FORCE_UINT32]. *)
Theorem engine_type_round_trip :
  (forall type, UtilityTables.toXPUMEngineType (UtilityTables.toZESEngineType type) = type)
  /\ (forall group,
         UtilityTables.toZESEngineType (UtilityTables.toXPUMEngineType group)
         = match UtilityTables.toXPUMEngineType group with
           | XPUM_ENGINE_TYPE_UNKNOWN => ZES_ENGINE_GROUP_FORCE_UINT32
           | _ => group
           end).
Proof.
  split.
  - intros type; destruct type; reflexivity.
  - intros group; destruct group; reflexivity.
Qed.

(** ** [Utility::split] *)

Lemma getline_item_rest ss delim :
  (String.length (snd (UtilityTables.getline_item ss delim)) <= String.length ss)%nat.
Proof.
  induction ss as [| c rest IH]; simpl.
  - apply Nat.le_refl.
  - destruct (Ascii.eqb c delim).
    + simpl. apply Nat.le_succ_diag_r.
    + destruct (UtilityTables.getline_item rest delim) as [item rest'].
      simpl in *. apply Nat.le_trans with (String.length rest); auto.
Qed.

Lemma getline_item_free ss delim :
  occurs delim (fst (UtilityTables.getline_item ss delim)) = false.
Proof.
  induction ss as [| c rest IH]; simpl.
  - reflexivity.
  - destruct (Ascii.eqb c delim) eqn:Hc.
    + reflexivity.
    + destruct (UtilityTables.getline_item rest delim) as [item rest'].
      simpl in *. rewrite Hc, IH. reflexivity.
Qed.

Lemma getline_item_without ss delim :
  without delim ss
  = (fst (UtilityTables.getline_item ss delim)
     ++ without delim (snd (UtilityTables.getline_item ss delim)))%string.
Proof.
  induction ss as [| c rest IH]; simpl.
  - reflexivity.
  - destruct (Ascii.eqb c delim) eqn:Hc.
    + reflexivity.
    + destruct (UtilityTables.getline_item rest delim) as [item rest'].
      simpl in *. rewrite IH. reflexivity.
Qed.

Lemma getline_item_append item rest delim :
  occurs delim item = false ->
  UtilityTables.getline_item (item ++ String delim rest)%string delim = (item, rest).
Proof.
  induction item as [| c item IH]; simpl; intros Hfree.
  - rewrite Ascii.eqb_refl. reflexivity.
  - apply orb_false_iff in Hfree. destruct Hfree as [Hc Hfree].
    rewrite Hc, (IH Hfree). reflexivity.
Qed.

Lemma getline_item_whole item delim :
  occurs delim item = false ->
  UtilityTables.getline_item item delim = (item, EmptyString).
Proof.
  induction item as [| c item IH]; simpl; intros Hfree.
  - reflexivity.
  - apply orb_false_iff in Hfree. destruct Hfree as [Hc Hfree].
    rewrite Hc, (IH Hfree). reflexivity.
Qed.

Lemma split_loop_app_bound n : forall fuel ss delim result,
  (fuel <= n)%nat ->
  (String.length ss <= fuel)%nat ->
  UtilityTables.split_loop fuel ss delim result
  = result ++ UtilityTables.split ss delim.
Proof.
  induction n as [| n IH]; intros fuel ss delim result Hfuel Hlen.
  - assert (fuel = O) by (inversion Hfuel; reflexivity). subst fuel.
    destruct ss; [| inversion Hlen].
    simpl. rewrite app_nil_r. reflexivity.
  - destruct fuel as [| fuel].
    + destruct ss; [| inversion Hlen].
      simpl. rewrite app_nil_r. reflexivity.
    + destruct ss as [| c rest].
      * simpl. rewrite app_nil_r. reflexivity.
      * unfold UtilityTables.split.
        cbn [UtilityTables.split_loop UtilityTables.getline String.length].
        assert (Hshort :
                  (String.length (snd (UtilityTables.getline_item (String c rest) delim))
                   <= String.length rest)%nat).
        { simpl. destruct (Ascii.eqb c delim).
          - simpl. apply Nat.le_refl.
          - pose proof (getline_item_rest rest delim) as Hr.
            destruct (UtilityTables.getline_item rest delim) as [item rest']. exact Hr. }
        destruct (UtilityTables.getline_item (String c rest) delim) as [item rest'].
        simpl in Hshort, Hlen.
        apply le_S_n in Hfuel. apply le_S_n in Hlen.
        rewrite (IH fuel rest' delim _ Hfuel (Nat.le_trans _ _ _ Hshort Hlen)).
        rewrite (IH (String.length rest) rest' delim _
                    (Nat.le_trans _ _ _ Hlen Hfuel) Hshort).
        destruct (0 <? String.length item)%nat.
        -- rewrite app_nil_l, app_assoc. reflexivity.
        -- rewrite app_nil_l. reflexivity.
Qed.

(** More fuel than characters changes nothing. *)
Lemma split_loop_app fuel ss delim result :
  (String.length ss <= fuel)%nat ->
  UtilityTables.split_loop fuel ss delim result
  = result ++ UtilityTables.split ss delim.
Proof. apply (split_loop_app_bound fuel). apply Nat.le_refl. Qed.

Lemma split_unfold c rest delim :
  UtilityTables.split (String c rest) delim
  = (let (item, rest') := UtilityTables.getline_item (String c rest) delim in
     (if (0 <? String.length item)%nat then [item] else [])
       ++ UtilityTables.split rest' delim).
Proof.
  unfold UtilityTables.split at 1.
  cbn [UtilityTables.split_loop UtilityTables.getline String.length].
  assert (Hshort :
            (String.length (snd (UtilityTables.getline_item (String c rest) delim))
             <= String.length rest)%nat).
  { simpl. destruct (Ascii.eqb c delim).
    - simpl. apply Nat.le_refl.
    - pose proof (getline_item_rest rest delim) as Hr.
      destruct (UtilityTables.getline_item rest delim) as [item rest']. exact Hr. }
  destruct (UtilityTables.getline_item (String c rest) delim) as [item rest'].
  simpl in Hshort.
  rewrite (split_loop_app _ _ _ _ Hshort).
  destruct (0 <? String.length item)%nat; reflexivity.
Qed.

Lemma string_append_nil (s : string) : (s ++ EmptyString)%string = s.
Proof. induction s as [| c s IH]; simpl; [| rewrite IH]; reflexivity. Qed.

Lemma string_append_assoc (a b c : string) :
  ((a ++ b) ++ c)%string = (a ++ (b ++ c))%string.
Proof. induction a as [| x a IH]; simpl; [| rewrite IH]; reflexivity. Qed.

Lemma concat_nosep_cons item items :
  String.concat EmptyString (item :: items)
  = (item ++ String.concat EmptyString items)%string.
Proof.
  destruct items as [| item' items]; simpl.
  - rewrite string_append_nil. reflexivity.
  - reflexivity.
Qed.

Lemma split_by_length n : forall s delim,
  (String.length s <= n)%nat ->
  Forall (is_item delim) (UtilityTables.split s delim)
  /\ String.concat EmptyString (UtilityTables.split s delim) = without delim s.
Proof.
  induction n as [| n IH]; intros s delim Hlen.
  - destruct s; [| inversion Hlen]. split; [constructor | reflexivity].
  - destruct s as [| c rest].
    + split; [constructor | reflexivity].
    + rewrite split_unfold.
      pose proof (getline_item_rest (String c rest) delim) as Hrest.
      pose proof (getline_item_free (String c rest) delim) as Hfree.
      pose proof (getline_item_without (String c rest) delim) as Hwithout.
      assert (Hshort :
                (String.length (snd (UtilityTables.getline_item (String c rest) delim))
                 <= String.length rest)%nat).
      { simpl. destruct (Ascii.eqb c delim).
        - simpl. apply Nat.le_refl.
        - pose proof (getline_item_rest rest delim) as Hr.
          destruct (UtilityTables.getline_item rest delim) as [item rest']. exact Hr. }
      destruct (UtilityTables.getline_item (String c rest) delim) as [item rest'].
      simpl in Hshort, Hfree, Hlen. cbn [fst snd] in Hwithout.
      destruct (IH rest' delim) as [Hitems Hconcat].
      { apply Nat.le_trans with (String.length rest); auto with arith. }
      rewrite Hwithout.
      destruct item as [| c' item].
      * change (0 <? String.length EmptyString)%nat with false. cbv iota.
        rewrite app_nil_l. split; [exact Hitems | exact Hconcat].
      * change (0 <? String.length (String c' item))%nat with true. cbv iota.
        change ([String c' item] ++ UtilityTables.split rest' delim)
          with (String c' item :: UtilityTables.split rest' delim).
        split.
        -- constructor; [| exact Hitems]. split; [discriminate | exact Hfree].
        -- rewrite concat_nosep_cons, Hconcat. reflexivity.
Qed.

(** [split] returns no empty item and no item that holds the delimiter,
    and the items, put one after the other, are the input without its
    delimiters: nothing else is lost or added. *)
Theorem split_items s delim :
  Forall (is_item delim) (UtilityTables.split s delim)
  /\ String.concat EmptyString (UtilityTables.split s delim) = without delim s.
Proof. apply (split_by_length (String.length s)). apply Nat.le_refl. Qed.

Lemma split_item_only item delim :
  is_item delim item -> UtilityTables.split item delim = [item].
Proof.
  intros [Hne Hfree].
  destruct item as [| c item]; [congruence |].
  rewrite split_unfold, (getline_item_whole _ _ Hfree).
  reflexivity.
Qed.

Lemma split_item_more item rest delim :
  is_item delim item ->
  UtilityTables.split (item ++ String delim rest)%string delim
  = item :: UtilityTables.split rest delim.
Proof.
  intros [Hne Hfree].
  destruct item as [| c item]; [congruence |].
  change (String c item ++ String delim rest)%string
    with (String c (item ++ String delim rest)).
  rewrite split_unfold.
  change (String c (item ++ String delim rest))
    with (String c item ++ String delim rest)%string.
  rewrite (getline_item_append _ _ _ Hfree).
  reflexivity.
Qed.

(** Splitting undoes joining: items that are not empty and hold no
    delimiter, joined by the delimiter, are split into the same items. *)
Theorem split_concat items delim :
  Forall (is_item delim) items ->
  UtilityTables.split (String.concat (String delim EmptyString) items) delim = items.
Proof.
  induction items as [| item items IH]; intros Hitems.
  - reflexivity.
  - inversion Hitems as [| ? ? Hitem Hrest]; subst.
    destruct items as [| item' items].
    + simpl. apply split_item_only. exact Hitem.
    + change (String.concat (String delim EmptyString) (item :: item' :: items))
        with (item ++ String delim (String.concat (String delim EmptyString) (item' :: items)))%string.
      rewrite (split_item_more _ _ _ Hitem), (IH Hrest). reflexivity.
Qed.

Lemma split_concat_witness :
  UtilityTables.split
    (String.concat (String (Ascii.ascii_of_nat 44) EmptyString)
                   ["card0"%string; "render"%string])
    (Ascii.ascii_of_nat 44)
  = ["card0"%string; "render"%string].
Proof.
  apply (split_concat ["card0"%string; "render"%string] (Ascii.ascii_of_nat 44)).
  repeat constructor; try discriminate; reflexivity.
Defined.

(** ** [Utility::parallel_in_batches] *)

Lemma batches_chained turns : forall batch_size batch_remainder start,
  1 <= batch_size ->
  0 <= batch_remainder <= Z.of_nat turns ->
  0 <= start ->
  start + Z.of_nat turns * batch_size + batch_remainder <= Int32.max ->
  exists calls,
    UtilityTables.batches turns batch_size batch_remainder start = Some calls
    /\ chained start calls (start + Z.of_nat turns * batch_size + batch_remainder)
    /\ List.length calls = turns
    /\ Forall (fun call => batch_size <= snd call - fst call <= batch_size + 1) calls.
Proof.
  induction turns as [| turns IH]; intros q r start Hq Hr Hstart Hmax.
  - exists []. cbn [UtilityTables.batches chained List.length]. simpl Z.of_nat in *.
    split; [reflexivity | split; [lia | split; [reflexivity | constructor]]].
  - cbn [UtilityTables.batches].
    rewrite Nat2Z.inj_succ in *.
    assert (Hfits : Int32.of_unsigned q = q).
    { unfold Int32.of_unsigned.
      replace (q <=? Int32.max) with true; [reflexivity |].
      symmetry. apply Z.leb_le. nia. }
    rewrite Hfits.
    assert (Hmin : Int32.min <= 0) by (unfold Int32.min; lia).
    destruct (r >? 0) eqn:Hpos.
    + apply Z.gtb_lt in Hpos.
      unfold Int32.add.
      replace ((Int32.min <=? q + 1) && (q + 1 <=? Int32.max)) with true
        by (symmetry; apply andb_true_intro; split; apply Z.leb_le; nia).
      replace ((Int32.min <=? start + (q + 1)) && (start + (q + 1) <=? Int32.max)) with true
        by (symmetry; apply andb_true_intro; split; apply Z.leb_le; nia).
      destruct (IH q (r - 1) (start + (q + 1)) Hq) as (calls & Heq & Hc & Hl & Hf);
        [lia | lia | nia |].
      rewrite Heq. eexists. split; [reflexivity |].
      cbn [chained List.length].
      split; [| split].
      * split; [reflexivity | split; [lia |]].
        replace (start + Z.succ (Z.of_nat turns) * q + r)
          with (start + (q + 1) + Z.of_nat turns * q + (r - 1)) by lia.
        exact Hc.
      * rewrite Hl. reflexivity.
      * constructor; [simpl; lia | exact Hf].
    + assert (r = 0) by (rewrite Z.gtb_ltb in Hpos; apply Z.ltb_ge in Hpos; lia).
      subst r.
      unfold Int32.add.
      replace ((Int32.min <=? start + q) && (start + q <=? Int32.max)) with true
        by (symmetry; apply andb_true_intro; split; apply Z.leb_le; nia).
      destruct (IH q 0 (start + q) Hq) as (calls & Heq & Hc & Hl & Hf);
        [lia | lia | nia |].
      rewrite Heq. eexists. split; [reflexivity |].
      cbn [chained List.length].
      split; [| split].
      * split; [reflexivity | split; [lia |]].
        replace (start + Z.succ (Z.of_nat turns) * q + 0)
          with (start + q + Z.of_nat turns * q + 0) by lia.
        exact Hc.
      * rewrite Hl. reflexivity.
      * constructor; [simpl; lia | exact Hf].
Qed.

(** For at least one element and at least one thread, and no more
    elements than [int] can hold (the ranges are passed as [int]),
    [parallel_in_batches] calls the functor on [min num_threads
    num_elements] ranges that follow one another from 0 to
    [num_elements]; no range is empty and their sizes differ by at most
    one.  The bound on [num_elements] is needed: with 4294967295
    elements on one thread the batch size converts to the [int] -1 and the
    one call is [functor(0, -1)]; on two threads the [int] addition
    [real_batch_size += 1] overflows. *)
Theorem parallel_in_batches_partition :
  (forall num_elements num_threads,
      0 < num_elements <= Int32.max ->
      0 < num_threads < U32.modulus ->
      exists calls,
        UtilityTables.parallel_in_batches num_elements num_threads = Some calls
        /\ chained 0 calls num_elements
        /\ Z.of_nat (List.length calls) = Z.min num_threads num_elements
        /\ Forall (fun call =>
                     num_elements / Z.min num_threads num_elements
                     <= snd call - fst call
                     <= num_elements / Z.min num_threads num_elements + 1) calls)
  /\ UtilityTables.parallel_in_batches 4294967295 1 = Some [(0, -1)]
  /\ UtilityTables.parallel_in_batches 4294967295 2 = None.
Proof.
  split; [| split; reflexivity].
  intros num_elements num_threads Hn Ht.
  unfold UtilityTables.parallel_in_batches.
  replace (num_elements =? 0) with false by (symmetry; apply Z.eqb_neq; lia).
  set (threads := if num_threads >? num_elements then num_elements else num_threads).
  assert (Hthreads : threads = Z.min num_threads num_elements).
  { unfold threads. destruct (num_threads >? num_elements) eqn:Hgt.
    - apply Z.gtb_lt in Hgt. lia.
    - assert (num_threads <= num_elements)
        by (rewrite Z.gtb_ltb in Hgt; apply Z.ltb_ge in Hgt; exact Hgt).
      lia. }
  assert (Hpos : 0 < threads) by lia.
  assert (Hle : threads <= num_elements) by lia.
  replace (threads =? 0) with false by (symmetry; apply Z.eqb_neq; lia).
  pose proof (Z.div_mod num_elements threads ltac:(lia)) as Hdiv.
  pose proof (Z.mod_pos_bound num_elements threads Hpos) as Hmod.
  assert (Hq : 1 <= num_elements / threads).
  { apply Z.div_le_lower_bound; lia. }
  destruct (batches_chained (Z.to_nat threads) (num_elements / threads)
              (num_elements mod threads) 0 Hq) as (calls & Heq & Hc & Hl & Hf).
  { rewrite Z2Nat.id by lia. lia. }
  { lia. }
  { rewrite Z2Nat.id by lia. lia. }
  exists calls. split; [exact Heq |].
  rewrite <- Hthreads.
  split; [| split].
  - rewrite Z2Nat.id in Hc by lia.
    replace (0 + threads * (num_elements / threads) + num_elements mod threads)
      with num_elements in Hc by lia.
    exact Hc.
  - rewrite Hl. apply Z2Nat.id. lia.
  - exact Hf.
Qed.

Lemma parallel_in_batches_partition_witness :
  exists calls,
    UtilityTables.parallel_in_batches 10 4 = Some calls
    /\ chained 0 calls 10
    /\ Z.of_nat (List.length calls) = Z.min 4 10
    /\ Forall (fun call => 10 / Z.min 4 10 <= snd call - fst call <= 10 / Z.min 4 10 + 1)
              calls.
Proof.
  apply (proj1 parallel_in_batches_partition 10 4);
    unfold Int32.max, U32.modulus; lia.
Defined.

(** ** [getEngineUtilizations] *)

Lemma store_engine_metrics_outcome core entries device p_data count stored :
  let '(code, n, rows) :=
    DataLogicQueries.store_engine_metrics core entries device p_data count stored in
  (code = XPUM_OK
   /\ n = Z.of_nat (List.length rows)
   /\ rows = stored
               ++ map (fun entry =>
                         DataLogicQueries.engine_metric core device p_data
                           (fst entry) (snd entry))
                      (filter (engine_index_known device) entries))
  \/ (code = XPUM_BUFFER_TOO_SMALL /\ n = count /\ count <= Z.of_nat (List.length rows)).
Proof.
  revert stored.
  induction entries as [| [engineHandle measurementData] rest IH]; intros stored.
  - left. simpl. rewrite app_nil_r. auto.
  - cbn [DataLogicQueries.store_engine_metrics filter].
    unfold engine_index_known at 1. cbn [fst snd].
    destruct (negb (Device.getEngineIndex device engineHandle =? U32.max)).
    + destruct (Z.of_nat (List.length stored) >=? count) eqn:Hfull.
      * right. apply Z.geb_le in Hfull. auto.
      * specialize (IH (stored ++ [DataLogicQueries.engine_metric core device p_data
                                     engineHandle measurementData])).
        destruct (DataLogicQueries.store_engine_metrics core rest device p_data count
                    (stored ++ [DataLogicQueries.engine_metric core device p_data
                                  engineHandle measurementData]))
          as [[code n] rows].
        destruct IH as [(Hc & Hn & Hr) | H]; [left | right; exact H].
        rewrite <- app_assoc in Hr.
        split; [exact Hc | split; [exact Hn | exact Hr]].
    + apply IH.
Qed.

Lemma store_engine_metrics_bound core entries device p_data count stored :
  Z.of_nat (List.length stored) <= count ->
  Z.of_nat (List.length
              (snd (DataLogicQueries.store_engine_metrics core entries device p_data
                      count stored))) <= count.
Proof.
  revert stored.
  induction entries as [| [engineHandle measurementData] rest IH]; intros stored Hlen.
  - exact Hlen.
  - cbn [DataLogicQueries.store_engine_metrics].
    destruct (negb (Device.getEngineIndex device engineHandle =? U32.max)).
    + destruct (Z.of_nat (List.length stored) >=? count) eqn:Hfull.
      * exact Hlen.
      * apply IH. rewrite Z.geb_leb in Hfull. apply Z.leb_gt in Hfull.
        rewrite length_app, Nat2Z.inj_add. simpl. lia.
    + apply IH. exact Hlen.
Qed.

Lemma contains_erase_unsupported capabilities metric_types type :
  contains (erase_unsupported capabilities metric_types) type
  = contains metric_types type && has_capability capabilities type.
Proof.
  unfold contains, erase_unsupported.
  induction metric_types as [| metric rest IH]; cbn [filter existsb].
  - reflexivity.
  - destruct (MeasurementType_beq type metric) eqn:Heq.
    + apply internal_MeasurementType_dec_bl in Heq. subst metric.
      destruct (has_capability capabilities type) eqn:Hcap; cbn [existsb orb andb].
      * rewrite (internal_MeasurementType_dec_lb _ _ eq_refl). reflexivity.
      * rewrite IH. rewrite ?Hcap, !andb_false_r. reflexivity.
    + destruct (has_capability capabilities metric); cbn [existsb orb].
      * rewrite Heq. exact IH.
      * exact IH.
Qed.

(** The two calls of the sizing protocol of [getEngineUtilizations].  The
    call without a buffer never throws and leaves the world alone; its
    reply has no rows and announces the engine count of the device in
    [*count], or zero together with [DEVICE_NOT_FOUND],
    [METRIC_NOT_ENABLED] or [METRIC_NOT_SUPPORTED], whichever applies
    first.  The call with a buffer never reads the capacity the caller
    passes: it stores at most as many rows as the sizing call announced,
    gives the same reply as the sizing call when that reported an error,
    and otherwise returns [XPUM_OK] with the number of rows stored in
    [*count] or [XPUM_BUFFER_TOO_SMALL]. *)
Theorem engine_utilizations_two_calls core deviceId count count' w :
  (forall device, Core.getDevice core deviceId = Some device ->
                  0 <= Device.getEngineCount device) ->
  let code := availability_code core deviceId METRIC_ENGINE_UTILIZATION in
  let announced :=
    match Core.getDevice core deviceId, code with
    | Some device, XPUM_OK => Device.getEngineCount device
    | _, _ => 0
    end in
  let sizing :=
    {| Reply.result := code; Reply.count := announced; Reply.dataList := [];
       Reply.begin_time := None; Reply.end_time := None |} in
  DataLogicQueries.getEngineUtilizations core deviceId nullptr count w
  = Returns sizing w
  /\ forall reply w',
      DataLogicQueries.getEngineUtilizations core deviceId array count' w
      = Returns reply w' ->
      w' = w
      /\ Z.of_nat (List.length (Reply.dataList reply)) <= announced
      /\ (code <> XPUM_OK -> reply = sizing)
      /\ (code = XPUM_OK ->
          (Reply.result reply = XPUM_OK
           /\ Reply.count reply = Z.of_nat (List.length (Reply.dataList reply)))
          \/ (Reply.result reply = XPUM_BUFFER_TOO_SMALL
              /\ Reply.count reply = announced)).
Proof.
  intros Hcount.
  unfold DataLogicQueries.getEngineUtilizations, availability_code.
  destruct (Core.getDevice core deviceId) as [device |] eqn:Hdevice.
  2:{ cbv zeta. split; [reflexivity |].
      intros reply w' Hcall. unfold ret in Hcall. inversion Hcall; subst.
      cbn. repeat split; try congruence; lia. }
  specialize (Hcount device eq_refl).
  destruct (negb (contains (Core.getEnabledMetrics core) METRIC_ENGINE_UTILIZATION))
    eqn:Henabled.
  { cbv zeta. split; [reflexivity |].
    intros reply w' Hcall. unfold ret in Hcall. inversion Hcall; subst.
    cbn. repeat split; try congruence; lia. }
  rewrite contains_erase_unsupported.
  apply negb_false_iff in Henabled. rewrite Henabled. cbn [andb].
  destruct (negb (has_capability (Device.getCapability device) METRIC_ENGINE_UTILIZATION)).
  { cbv zeta. split; [reflexivity |].
    intros reply w' Hcall. unfold ret in Hcall. inversion Hcall; subst.
    cbn. repeat split; try congruence; lia. }
  cbv zeta. split; [reflexivity |].
  intros reply w' Hcall.
  unfold bind, getLatestData in Hcall.
  destruct (Core.p_data_handler_manager core) as [manager |]; [| discriminate].
  unfold ret in Hcall.
  destruct (DataHandlerManager.getLatestData manager METRIC_ENGINE_UTILIZATION deviceId)
    as [data |].
  2:{ inversion Hcall; subst. cbn. repeat split; try congruence; try lia. left. auto. }
  pose proof (store_engine_metrics_outcome core (getMultiMetricsDatas data) device data
                (Device.getEngineCount device) []) as Hout.
  pose proof (store_engine_metrics_bound core (getMultiMetricsDatas data) device data
                (Device.getEngineCount device) [] Hcount) as Hbound.
  destruct (DataLogicQueries.store_engine_metrics core (getMultiMetricsDatas data) device
              data (Device.getEngineCount device) []) as [[code n] rows].
  inversion Hcall; subst. cbn in *.
  repeat split; try congruence; try lia.
  intros _. destruct Hout as [(Hc & Hn & _) | (Hc & Hn & _)]; [left | right]; auto.
Qed.

Lemma engine_utilizations_two_calls_witness :
  let core := Fixtures.core [METRIC_ENGINE_UTILIZATION] Fixtures.no_data [] in
  let sizing :=
    {| Reply.result := XPUM_OK; Reply.count := 2; Reply.dataList := [];
       Reply.begin_time := None; Reply.end_time := None |} in
  DataLogicQueries.getEngineUtilizations core 0 nullptr 0 Fixtures.start
  = Returns sizing Fixtures.start
  /\ forall reply w',
      DataLogicQueries.getEngineUtilizations core 0 array 1 Fixtures.start
      = Returns reply w' ->
      w' = Fixtures.start
      /\ Z.of_nat (List.length (Reply.dataList reply)) <= 2
      /\ (XPUM_OK <> XPUM_OK -> reply = sizing)
      /\ (XPUM_OK = XPUM_OK ->
          (Reply.result reply = XPUM_OK
           /\ Reply.count reply = Z.of_nat (List.length (Reply.dataList reply)))
          \/ (Reply.result reply = XPUM_BUFFER_TOO_SMALL
              /\ Reply.count reply = 2)).
Proof.
  apply (engine_utilizations_two_calls
           (Fixtures.core [METRIC_ENGINE_UTILIZATION] Fixtures.no_data []) 0 0 1
           Fixtures.start).
  intros device Hdevice. simpl in Hdevice. inversion Hdevice; subst. simpl. lia.
Defined.

(** When [getEngineUtilizations] returns [XPUM_OK] for a device with a
    latest engine sample, its rows are the entries of the sample whose
    handle the device knows, in the order of the sample and with the
    value as it is: unlike [getEngineStatistics], an entry whose value is
    the "no data" sentinel is stored too. *)
Theorem engine_utilizations_rows core manager device data deviceId count w reply w' :
  Core.getDevice core deviceId = Some device ->
  Core.p_data_handler_manager core = Some manager ->
  DataHandlerManager.getLatestData manager METRIC_ENGINE_UTILIZATION deviceId = Some data ->
  DataLogicQueries.getEngineUtilizations core deviceId array count w = Returns reply w' ->
  Reply.result reply = XPUM_OK ->
  Reply.dataList reply
  = map (fun entry =>
           DataLogicQueries.engine_metric core device data (fst entry) (snd entry))
        (filter (engine_index_known device) (getMultiMetricsDatas data))
  /\ forall entry,
      In entry (getMultiMetricsDatas data) ->
      Device.getEngineIndex device (fst entry) <> U32.max ->
      exists row,
        In row (Reply.dataList reply)
        /\ xpum_device_engine_metric_t.value row = mm_current (snd entry)
        /\ xpum_device_engine_metric_t.index row = Device.getEngineIndex device (fst entry).
Proof.
  intros Hdevice Hmanager Hdata Hcall Hok.
  unfold DataLogicQueries.getEngineUtilizations in Hcall.
  rewrite Hdevice in Hcall.
  destruct (negb (contains (Core.getEnabledMetrics core) METRIC_ENGINE_UTILIZATION)).
  { unfold ret in Hcall. inversion Hcall; subst. discriminate. }
  destruct (negb (contains (erase_unsupported (Device.getCapability device)
                              (Core.getEnabledMetrics core))
                           METRIC_ENGINE_UTILIZATION)).
  { unfold ret in Hcall. inversion Hcall; subst. discriminate. }
  unfold bind, getLatestData in Hcall. rewrite Hmanager in Hcall.
  unfold ret in Hcall. rewrite Hdata in Hcall.
  pose proof (store_engine_metrics_outcome core (getMultiMetricsDatas data) device data
                (Device.getEngineCount device) []) as Hout.
  destruct (DataLogicQueries.store_engine_metrics core (getMultiMetricsDatas data) device
              data (Device.getEngineCount device) []) as [[code n] rows].
  inversion Hcall; subst. cbn in Hok |- *. subst code.
  destruct Hout as [(_ & _ & Hrows) | (Hc & _)]; [| discriminate].
  cbn in Hrows. split; [exact Hrows |].
  intros entry Hin Hknown.
  exists (DataLogicQueries.engine_metric core device data (fst entry) (snd entry)).
  split; [| split; reflexivity].
  rewrite Hrows. apply in_map_iff. exists entry. split; [reflexivity |].
  apply filter_In. split; [exact Hin |].
  unfold engine_index_known. apply negb_true_iff. apply Z.eqb_neq. exact Hknown.
Qed.

Lemma engine_utilizations_rows_witness :
  exists reply,
    DataLogicQueries.getEngineUtilizations
      (Fixtures.core [METRIC_ENGINE_UTILIZATION] Fixtures.no_data []) 0 array 0
      Fixtures.start
    = Returns reply Fixtures.start
    /\ Reply.result reply = XPUM_OK
    /\ map xpum_device_engine_metric_t.value (Reply.dataList reply) = [50; U64.max].
Proof.
  eexists. split; [vm_compute; reflexivity |]. split; [reflexivity |].
  edestruct (engine_utilizations_rows
               (Fixtures.core [METRIC_ENGINE_UTILIZATION] Fixtures.no_data [])
               (Fixtures.manager []) Fixtures.device
               (Fixtures.collection 5000
                  [(10, Fixtures.entity 50 10 30 90); (12, Fixtures.entity 60 10 30 90);
                   (11, Fixtures.entity U64.max 0 0 0)])
               0 0 Fixtures.start) as [Hrows _];
    [reflexivity | reflexivity | reflexivity | vm_compute; reflexivity | reflexivity |].
  rewrite Hrows. reflexivity.
Defined.

(** ** [getFabricLinkInfo] *)










(** ** The metrics behind the rows of a snapshot and of statistics *)

Lemma In_insert {K V : Type} `{Key K} (k : K) (v : V) m e :
  In e (Map.insert k v m) -> In e m \/ e = (k, v).
Proof.
  unfold Map.insert. destruct (Map.find k m); [auto |].
  intros Hin. apply in_app_or in Hin. destruct Hin as [Hin | [<- | []]]; auto.
Qed.

Lemma find_app_None {K V : Type} `{Key K} (k k' : K) (v : V) m :
  Map.find k m = None -> k <> k' -> Map.find k (m ++ [(k', v)]) = None.
Proof.
  intros Hfind Hneq. induction m as [| [k0 v0] rest IH]; simpl in *.
  - destruct (key_eqb k k') eqn:Heq; [| reflexivity].
    apply key_eqb_eq in Heq. contradiction.
  - destruct (key_eqb k k0); [discriminate | auto].
Qed.

Lemma unique_keys_insert {K V : Type} `{Key K} (k : K) (v : V) m :
  Map.unique_keys m = true -> Map.unique_keys (Map.insert k v m) = true.
Proof.
  unfold Map.insert. destruct (Map.find k m) eqn:Hfind; [auto |].
  induction m as [| [k0 v0] rest IH]; simpl in *; intros Hu.
  - reflexivity.
  - destruct (key_eqb k k0) eqn:Hk; [discriminate |].
    destruct (Map.find k0 rest) eqn:Hk0; [discriminate |].
    rewrite (find_app_None k0 k v rest Hk0).
    + apply IH; assumption.
    + intros ->. rewrite (proj2 (key_eqb_eq k k) eq_refl) in Hk. discriminate.
Qed.

Lemma unique_keys_NoDup {K V : Type} `{Key K} (m : list (K * V)) :
  Map.unique_keys m = true -> NoDup (map fst m).
Proof.
  induction m as [| [k v] rest IH]; simpl; intros Hu.
  - constructor.
  - destruct (Map.find k rest) eqn:Hfind; [discriminate |].
    constructor; [| auto].
    intros Hin. apply in_map_iff in Hin. destruct Hin as ([k' v'] & Hk & Hin).
    simpl in Hk. subst k'.
    revert Hfind Hin. clear. induction rest as [| [k0 v0] rest IH]; simpl.
    + intros _ [].
    + destruct (key_eqb k k0) eqn:Hk; [discriminate |].
      intros Hfind [Heq | Hin]; [| auto].
      inversion Heq; subst. rewrite (proj2 (key_eqb_eq k k) eq_refl) in Hk. discriminate.
Qed.

Lemma NoDup_filter_keys {K V : Type} (p : K * V -> bool) (m : list (K * V)) :
  NoDup (map fst m) -> NoDup (map fst (filter p m)).
Proof.
  induction m as [| e rest IH]; simpl; intros Hn.
  - constructor.
  - inversion Hn as [| ? ? Hnotin Hrest]; subst.
    destruct (p e); [| auto].
    simpl. constructor; [| auto].
    intros Hin. apply Hnotin.
    apply in_map_iff in Hin. destruct Hin as (e' & He & Hin).
    apply filter_In in Hin. apply in_map_iff. exists e'. tauto.
Qed.

Lemma NoDup_map_on {A B : Type} (f : A -> B) (l : list A) :
  (forall x y, In x l -> In y l -> f x = f y -> x = y) ->
  NoDup l -> NoDup (map f l).
Proof.
  induction l as [| a rest IH]; simpl; intros Hinj Hn.
  - constructor.
  - inversion Hn as [| ? ? Hnotin Hrest]; subst.
    constructor.
    + intros Hin. apply in_map_iff in Hin. destruct Hin as (b & Hb & Hin).
      assert (b = a) by (apply Hinj; auto). subst b. contradiction.
    + apply IH; [| exact Hrest]. intros x y Hx Hy. apply Hinj; auto.
Qed.

(** Apart from [METRIC_PERF] and [METRIC_MAX], which share
    [XPUM_STATS_MAX], no two measurement types have the same statistics
    type. *)
Lemma xpumStatsType_injective a b :
  a <> METRIC_MAX -> b <> METRIC_MAX ->
  Utility.xpumStatsTypeFromMeasurementType a = Utility.xpumStatsTypeFromMeasurementType b ->
  a = b.
Proof.
  intros Ha Hb Heq.
  destruct a; try congruence; destruct b; simpl in Heq; congruence.
Qed.

Lemma record_data_entries metric data acc entry :
  In entry (fst (record_data metric data acc)) ->
  In entry (fst acc) \/ fst entry = metric.
Proof.
  unfold record_data. cbn [fst]. intros Hin.
  apply In_insert in Hin. destruct Hin as [Hin | ->]; auto.
Qed.

Lemma record_data_unique metric data acc :
  Map.unique_keys (fst acc) = true ->
  Map.unique_keys (fst (record_data metric data acc)) = true.
Proof. unfold record_data. cbn [fst]. apply unique_keys_insert. Qed.

(** One turn of the metric loop of [getMetricsStatistics] adds at most an
    entry for its own metric, and none for a multi-entity metric. *)
Lemma statistics_of_metric_entries enum_value core bdf device_id session_id metric
      acc w acc' w' :
  statistics_of_metric enum_value core bdf device_id session_id metric acc w
  = Returns acc' w' ->
  (Map.unique_keys (fst acc) = true -> Map.unique_keys (fst acc') = true)
  /\ forall entry,
      In entry (fst acc') ->
      In entry (fst acc) \/ (fst entry = metric /\ is_multi_entity metric = false).
Proof.
  unfold statistics_of_metric.
  destruct (is_multi_entity metric) eqn:Hmulti; cbn [negb].
  { unfold ret. intros Hret. inversion Hret; subst. auto. }
  intros Hret. apply bind_inv in Hret. destruct Hret as (p_data & w1 & _ & Hrest).
  assert (Hrecord : forall data w0,
             ret (record_data metric data acc) w0 = Returns acc' w' ->
             (Map.unique_keys (fst acc) = true -> Map.unique_keys (fst acc') = true)
             /\ forall entry,
                 In entry (fst acc') ->
                 In entry (fst acc) \/ (fst entry = metric /\ false = false)).
  { intros data w0 Hr. unfold ret in Hr. inversion Hr; subst. split.
    - apply record_data_unique.
    - intros entry Hin. apply record_data_entries in Hin. tauto. }
  destruct p_data as [data |]; [exact (Hrecord data w1 Hrest) |].
  destruct (is_polled enum_value metric).
  - apply bind_inv in Hrest. destruct Hrest as (start_time & w2 & _ & Hrest).
    apply bind_inv in Hrest. destruct Hrest as (end_time & w3 & _ & Hrest).
    apply bind_inv in Hrest. destruct Hrest as (polled & w4 & _ & Hrest).
    destruct polled as [data |]; [exact (Hrecord data w4 Hrest) |].
    unfold ret in Hrest. inversion Hrest; subst. auto.
  - unfold ret in Hrest. inversion Hrest; subst. auto.
Qed.

Lemma collect_statistics_entries enum_value core bdf device_id session_id metric_types :
  forall acc w acc' w',
    collect_statistics enum_value core bdf device_id session_id metric_types acc w
    = Returns acc' w' ->
    (Map.unique_keys (fst acc) = true -> Map.unique_keys (fst acc') = true)
    /\ forall entry,
        In entry (fst acc') ->
        In entry (fst acc)
        \/ (In (fst entry) metric_types /\ is_multi_entity (fst entry) = false).
Proof.
  induction metric_types as [| metric rest IH]; intros acc w acc' w' Hret.
  - cbn [collect_statistics] in Hret. unfold ret in Hret. inversion Hret; subst. auto.
  - cbn [collect_statistics] in Hret.
    apply bind_inv in Hret. destruct Hret as (acc1 & w1 & Hone & Hrest).
    apply statistics_of_metric_entries in Hone. destruct Hone as [Hu1 He1].
    apply IH in Hrest. destruct Hrest as [Hu2 He2].
    split; [auto |].
    intros entry Hin. apply He2 in Hin.
    destruct Hin as [Hin | [Hin Hm]]; [| right; split; [right; exact Hin | exact Hm]].
    apply He1 in Hin. destruct Hin as [Hin | [Heq Hm]]; [auto |].
    right. split; [left; auto | rewrite Heq; exact Hm].
Qed.

Lemma latest_of_metric_entries core bdf device_id metric acc w acc' w' :
  latest_of_metric core bdf device_id metric acc w = Returns acc' w' ->
  (Map.unique_keys (fst acc) = true -> Map.unique_keys (fst acc') = true)
  /\ forall entry,
      In entry (fst acc') ->
      In entry (fst acc) \/ (fst entry = metric /\ is_multi_entity metric = false).
Proof.
  unfold latest_of_metric.
  destruct (is_multi_entity metric) eqn:Hmulti; cbn [negb].
  { unfold ret. intros Hret. inversion Hret; subst. auto. }
  intros Hret. apply bind_inv in Hret. destruct Hret as (m_data & w1 & _ & Hrest).
  destruct m_data as [data |]; unfold ret in Hrest; inversion Hrest; subst.
  - split.
    + apply record_data_unique.
    + intros entry Hin. apply record_data_entries in Hin. tauto.
  - auto.
Qed.

Lemma collect_latest_entries core bdf device_id metric_types :
  forall acc w acc' w',
    collect_latest core bdf device_id metric_types acc w = Returns acc' w' ->
    (Map.unique_keys (fst acc) = true -> Map.unique_keys (fst acc') = true)
    /\ forall entry,
        In entry (fst acc') ->
        In entry (fst acc)
        \/ (In (fst entry) metric_types /\ is_multi_entity (fst entry) = false).
Proof.
  induction metric_types as [| metric rest IH]; intros acc w acc' w' Hret.
  - cbn [collect_latest] in Hret. unfold ret in Hret. inversion Hret; subst. auto.
  - cbn [collect_latest] in Hret.
    apply bind_inv in Hret. destruct Hret as (acc1 & w1 & Hone & Hrest).
    apply latest_of_metric_entries in Hone. destruct Hone as [Hu1 He1].
    apply IH in Hrest. destruct Hrest as [Hu2 He2].
    split; [auto |].
    intros entry Hin. apply He2 in Hin.
    destruct Hin as [Hin | [Hin Hm]]; [| right; split; [right; exact Hin | exact Hm]].
    apply He1 in Hin. destruct Hin as [Hin | [Heq Hm]]; [auto |].
    right. split; [left; auto | rewrite Heq; exact Hm].
Qed.

Lemma erase_unsupported_reportable core device type :
  In type (erase_unsupported (Device.getCapability device) (Core.getEnabledMetrics core)) ->
  is_multi_entity type = false ->
  reportable core device type.
Proof.
  unfold erase_unsupported. intros Hin Hmulti. apply filter_In in Hin.
  destruct Hin as [Hin Hcap]. repeat split; assumption.
Qed.

Lemma stats_data_type type scale current min avg max :
  xpum_device_stats_data_t.metricsType (stats_data type scale current min avg max)
  = Utility.xpumStatsTypeFromMeasurementType type
  /\ xpum_device_stats_data_t.isCounter (stats_data type scale current min avg max)
     = Utility.isCounterMetric type.
Proof.
  unfold stats_data. destruct (Utility.isCounterMetric type); split; reflexivity.
Qed.

(** The rows of one scope come from distinct entries of [m_datas]. *)
Lemma rows_NoDup {row : Type} (entries : list (MeasurementType * MeasurementData))
      (p : MeasurementType * MeasurementData -> bool)
      (make : MeasurementType * MeasurementData -> row)
      (metricsType : row -> xpum_stats_type_t) :
  (forall entry, metricsType (make entry)
                 = Utility.xpumStatsTypeFromMeasurementType (fst entry)) ->
  Map.unique_keys entries = true ->
  (forall entry, In entry entries -> fst entry <> METRIC_MAX) ->
  NoDup (map metricsType (map make (filter p entries))).
Proof.
  intros Htype Hunique Hmax.
  rewrite map_map.
  rewrite (map_ext _ (fun entry => Utility.xpumStatsTypeFromMeasurementType (fst entry)) Htype).
  rewrite <- (map_map fst Utility.xpumStatsTypeFromMeasurementType).
  apply NoDup_map_on.
  - intros a b Ha Hb.
    apply in_map_iff in Ha. destruct Ha as (ea & <- & Hea).
    apply in_map_iff in Hb. destruct Hb as (eb & <- & Heb).
    apply filter_In in Hea. apply filter_In in Heb.
    apply xpumStatsType_injective; apply Hmax; tauto.
  - apply NoDup_filter_keys. apply unique_keys_NoDup. exact Hunique.
Qed.

(** Every row that [getMetricsStatistics] stores for a device belongs to
    a metric that is enabled, whose capability the device lists and that
    is not a multi-entity metric: a metric without its capability never
    shows up, whatever the configuration enables.  And as long as the
    configuration does not enable the end marker [METRIC_MAX], no scope
    gets two rows of the same statistics type. *)
Theorem statistics_rows_are_supported
        enum_value core device deviceId count session_id w reply w' :
  Core.getDevice core deviceId = Some device ->
  getMetricsStatistics enum_value core deviceId array count session_id w
  = Returns reply w' ->
  forall stats,
    In stats (Reply.dataList reply) ->
    (forall row,
        In row (xpum_device_stats_t.dataList stats) ->
        exists type,
          xpum_device_stats_data_t.metricsType row
          = Utility.xpumStatsTypeFromMeasurementType type
          /\ xpum_device_stats_data_t.isCounter row = Utility.isCounterMetric type
          /\ reportable core device type)
    /\ (~ In METRIC_MAX (Core.getEnabledMetrics core) ->
        NoDup (map xpum_device_stats_data_t.metricsType
                   (xpum_device_stats_t.dataList stats))).
Proof.
  intros Hdevice Hcall stats Hstats.
  unfold getMetricsStatistics in Hcall. rewrite Hdevice in Hcall.
  apply bind_inv in Hcall. destruct Hcall as (datas & w1 & Hcollect & Hcall).
  apply bind_inv in Hcall. destruct Hcall as (begin & w2 & _ & Hcall).
  apply bind_inv in Hcall. destruct Hcall as (end_ & w3 & _ & Hcall).
  apply collect_statistics_entries in Hcollect. destruct Hcollect as [Hunique Hentries].
  specialize (Hunique eq_refl).
  assert (Hreport : forall entry, In entry (fst datas) -> reportable core device (fst entry)).
  { intros entry Hin. apply Hentries in Hin. destruct Hin as [[] | [Hin Hmulti]].
    apply erase_unsupported_reportable; assumption. }
  pose proof (store_stats_rows (Device.NUMBER_OF_SUBDEVICE device) deviceId datas count stats)
    as Hrows.
  destruct (store_stats (Device.NUMBER_OF_SUBDEVICE device) deviceId datas count)
    as [[code n] stored].
  unfold ret in Hcall. inversion Hcall; subst. cbn [Reply.dataList] in Hstats.
  specialize (Hrows Hstats).
  assert (Hmax : ~ In METRIC_MAX (Core.getEnabledMetrics core) ->
                 forall entry, In entry (fst datas) -> fst entry <> METRIC_MAX).
  { intros Hno entry Hin Heq. apply Hreport in Hin. destruct Hin as [Hin _].
    rewrite Heq in Hin. contradiction. }
  destruct Hrows as [-> | (i & ->)].
  - unfold device_stats. cbn [xpum_device_stats_t.dataList].
    destruct (snd datas).
    2:{ split; [intros row [] | intros _; constructor]. }
    split.
    + intros row Hrow. apply in_map_iff in Hrow. destruct Hrow as (entry & <- & Hin).
      apply filter_In in Hin. destruct Hin as [Hin _].
      exists (fst entry). unfold device_stats_data.
      destruct (stats_data_type (fst entry) (getScale (snd entry)) (getCurrent (snd entry))
                  (getMin (snd entry)) (getAvg (snd entry)) (getMax (snd entry)))
        as [Ht Hc].
      cbn zeta. rewrite Ht, Hc. auto.
    + intros Hno. apply rows_NoDup; [| exact Hunique | exact (Hmax Hno)].
      intros entry. unfold device_stats_data. cbn zeta. apply stats_data_type.
  - unfold subdevice_stats. cbn [xpum_device_stats_t.dataList].
    split.
    + intros row Hrow. apply in_map_iff in Hrow. destruct Hrow as (entry & <- & Hin).
      apply filter_In in Hin. destruct Hin as [Hin _].
      exists (fst entry). unfold subdevice_stats_data.
      destruct (stats_data_type (fst entry) (getScale (snd entry))
                  (getSubdeviceDataCurrent (snd entry) i)
                  (getSubdeviceDataMin (snd entry) i)
                  (getSubdeviceDataAvg (snd entry) i)
                  (getSubdeviceDataMax (snd entry) i))
        as [Ht Hc].
      cbn zeta. rewrite Ht, Hc. auto.
    + intros Hno. apply rows_NoDup; [| exact Hunique | exact (Hmax Hno)].
      intros entry. unfold subdevice_stats_data. cbn zeta. apply stats_data_type.
Qed.

Lemma statistics_rows_are_supported_witness :
  let core := Fixtures.core [METRIC_POWER; METRIC_TEMPERATURE; METRIC_ENERGY]
                            Fixtures.no_data [] in
  exists reply w',
    getMetricsStatistics Fixtures.declared_order core 0 array 3 0 Fixtures.start
    = Returns reply w'
    /\ forall stats,
        In stats (Reply.dataList reply) ->
        (forall row,
            In row (xpum_device_stats_t.dataList stats) ->
            exists type,
              xpum_device_stats_data_t.metricsType row
              = Utility.xpumStatsTypeFromMeasurementType type
              /\ xpum_device_stats_data_t.isCounter row = Utility.isCounterMetric type
              /\ reportable core Fixtures.device type)
        /\ (~ In METRIC_MAX (Core.getEnabledMetrics core) ->
            NoDup (map xpum_device_stats_data_t.metricsType
                       (xpum_device_stats_t.dataList stats))).
Proof.
  intros core. eexists. eexists. split; [vm_compute; reflexivity |].
  eapply (statistics_rows_are_supported Fixtures.declared_order core Fixtures.device
           0 3 0 Fixtures.start _ _ eq_refl).
  vm_compute. reflexivity.
Defined.

Lemma latest_of_metric_returns core manager bdf device_id metric acc w :
  Core.p_data_handler_manager core = Some manager ->
  exists acc', latest_of_metric core bdf device_id metric acc w = Returns acc' w.
Proof.
  intros Hmanager. unfold latest_of_metric.
  destruct (negb (is_multi_entity metric)); [| eexists; reflexivity].
  unfold comma, bind, getLatestData. rewrite Hmanager. unfold ret.
  destruct (DataHandlerManager.getLatestData manager metric device_id);
    eexists; reflexivity.
Qed.

Lemma collect_latest_returns core manager bdf device_id metric_types :
  Core.p_data_handler_manager core = Some manager ->
  forall acc w,
    exists acc', collect_latest core bdf device_id metric_types acc w = Returns acc' w.
Proof.
  intros Hmanager.
  induction metric_types as [| metric rest IH]; intros acc w; cbn [collect_latest].
  - eexists. reflexivity.
  - destruct (latest_of_metric_returns core manager bdf device_id metric acc w Hmanager)
      as [acc1 Hone].
    rewrite (bind_Returns _ _ _ _ _ Hone). apply IH.
Qed.

(** The two calls of [getLatestMetrics] on a known device with [N]
    sub-devices, [N + 1] fitting the [int] that [*count] is.  Without a
    buffer it announces [N + 1] rows.  With a buffer it makes no capacity
    test: whatever [*count] the caller passes, it stores [N + 1] rows,
    the device row first and then the rows of tiles [0 .. N - 1], and
    sets [*count] to [N + 1]; with an initialised handler manager the
    call returns and leaves the world alone. *)
Theorem latest_metrics_two_calls core device deviceId count count' w :
  Core.getDevice core deviceId = Some device ->
  let N := Device.NUMBER_OF_SUBDEVICE device in
  0 <= N -> N + 1 < 2 ^ 31 ->
  getLatestMetrics core deviceId nullptr count w = Returns (N + 1, []) w
  /\ (forall manager,
         Core.p_data_handler_manager core = Some manager ->
         exists rows,
           getLatestMetrics core deviceId array count' w = Returns (N + 1, rows) w)
  /\ (forall n rows w',
         getLatestMetrics core deviceId array count' w = Returns (n, rows) w' ->
         n = N + 1
         /\ Z.of_nat (List.length rows) = N + 1
         /\ map (fun metrics => (xpum_device_metrics_t.deviceId metrics,
                                 xpum_device_metrics_t.isTileData metrics,
                                 xpum_device_metrics_t.tileId metrics)) rows
            = (deviceId, false, 0) :: map (fun i => (deviceId, true, i)) (tiles_of N)).
Proof.
  intros Hdevice N HN Hsmall.
  assert (Hadd : U32.add N 1 = N + 1).
  { unfold U32.add, U32.wrap, U32.modulus. apply Z.mod_small. lia. }
  unfold getLatestMetrics. rewrite Hdevice. fold N. rewrite Hadd.
  split; [reflexivity |]. split.
  - intros manager Hmanager.
    destruct (collect_latest_returns core manager (Device.PCI_BDF_ADDRESS device) deviceId
                (erase_unsupported (Device.getCapability device)
                                   (Core.getEnabledMetrics core))
                Hmanager ([], false) w) as [datas Hcollect].
    rewrite (bind_Returns _ _ _ _ _ Hcollect). eexists. reflexivity.
  - intros n rows w' Hcall.
    apply bind_inv in Hcall. destruct Hcall as (datas & w1 & _ & Hcall).
    unfold ret in Hcall. inversion Hcall; subst.
    split; [reflexivity |]. split.
    + cbn [List.length]. rewrite length_map, Nat2Z.inj_succ, length_tiles_of by exact HN.
      lia.
    + cbn [map]. rewrite map_map. reflexivity.
Qed.

Lemma latest_metrics_two_calls_witness :
  let core := Fixtures.core [METRIC_POWER] Fixtures.no_data [] in
  getLatestMetrics core 0 nullptr 0 Fixtures.start = Returns (2 + 1, []) Fixtures.start
  /\ (forall manager,
         Core.p_data_handler_manager core = Some manager ->
         exists rows,
           getLatestMetrics core 0 array 0 Fixtures.start
           = Returns (2 + 1, rows) Fixtures.start)
  /\ (forall n rows w',
         getLatestMetrics core 0 array 0 Fixtures.start = Returns (n, rows) w' ->
         n = 2 + 1
         /\ Z.of_nat (List.length rows) = 2 + 1
         /\ map (fun metrics => (xpum_device_metrics_t.deviceId metrics,
                                 xpum_device_metrics_t.isTileData metrics,
                                 xpum_device_metrics_t.tileId metrics)) rows
            = (0, false, 0) :: map (fun i => (0, true, i)) (tiles_of 2)).
Proof.
  intros core.
  apply (latest_metrics_two_calls core Fixtures.device 0 0 0 Fixtures.start eq_refl).
  - simpl. lia.
  - vm_compute. reflexivity.
Defined.

(** Every row that [getLatestMetrics] stores belongs to a metric that is
    enabled, whose capability the device lists and that is not a
    multi-entity metric; as long as [METRIC_MAX] is not enabled, no scope
    gets two rows of the same statistics type. *)
Theorem snapshot_rows_are_supported core device deviceId count w n rows w' :
  Core.getDevice core deviceId = Some device ->
  getLatestMetrics core deviceId array count w = Returns (n, rows) w' ->
  forall metrics,
    In metrics rows ->
    (forall row,
        In row (xpum_device_metrics_t.dataList metrics) ->
        exists type,
          xpum_device_metric_data_t.metricsType row
          = Utility.xpumStatsTypeFromMeasurementType type
          /\ xpum_device_metric_data_t.isCounter row = Utility.isCounterMetric type
          /\ reportable core device type)
    /\ (~ In METRIC_MAX (Core.getEnabledMetrics core) ->
        NoDup (map xpum_device_metric_data_t.metricsType
                   (xpum_device_metrics_t.dataList metrics))).
Proof.
  intros Hdevice Hcall metrics Hmetrics.
  unfold getLatestMetrics in Hcall. rewrite Hdevice in Hcall.
  apply bind_inv in Hcall. destruct Hcall as (datas & w1 & Hcollect & Hcall).
  apply collect_latest_entries in Hcollect. destruct Hcollect as [Hunique Hentries].
  specialize (Hunique eq_refl).
  assert (Hreport : forall entry, In entry (fst datas) -> reportable core device (fst entry)).
  { intros entry Hin. apply Hentries in Hin. destruct Hin as [[] | [Hin Hmulti]].
    apply erase_unsupported_reportable; assumption. }
  assert (Hmax : ~ In METRIC_MAX (Core.getEnabledMetrics core) ->
                 forall entry, In entry (fst datas) -> fst entry <> METRIC_MAX).
  { intros Hno entry Hin Heq. apply Hreport in Hin. destruct Hin as [Hin _].
    rewrite Heq in Hin. contradiction. }
  unfold ret in Hcall. inversion Hcall; subst.
  destruct Hmetrics as [<- | Hmetrics].
  - unfold device_metrics. cbn [xpum_device_metrics_t.dataList].
    destruct (snd datas).
    2:{ split; [intros row [] | intros _; constructor]. }
    split.
    + intros row Hrow. apply in_map_iff in Hrow. destruct Hrow as (entry & <- & Hin).
      apply filter_In in Hin. destruct Hin as [Hin _].
      exists (fst entry). cbn. auto.
    + intros Hno.
      apply (rows_NoDup (fst datas) (fun entry => hasDataOnDevice (snd entry))
               (fun entry => metric_data (fst entry) (snd entry) (getCurrent (snd entry)))
               xpum_device_metric_data_t.metricsType);
        [reflexivity | exact Hunique | exact (Hmax Hno)].
  - apply in_map_iff in Hmetrics. destruct Hmetrics as (i & <- & _).
    unfold subdevice_metrics. cbn [xpum_device_metrics_t.dataList].
    split.
    + intros row Hrow. apply in_map_iff in Hrow. destruct Hrow as (entry & <- & Hin).
      apply filter_In in Hin. destruct Hin as [Hin _].
      exists (fst entry). cbn. auto.
    + intros Hno.
      apply (rows_NoDup (fst datas) (fun entry => subdevice_has_data i (snd entry))
               (fun entry => metric_data (fst entry) (snd entry)
                               (getSubdeviceDataCurrent (snd entry) i))
               xpum_device_metric_data_t.metricsType);
        [reflexivity | exact Hunique | exact (Hmax Hno)].
Qed.

Lemma snapshot_rows_are_supported_witness :
  let core := Fixtures.core [METRIC_POWER; METRIC_TEMPERATURE; METRIC_ENERGY]
                            Fixtures.no_data [] in
  exists n rows w',
    getLatestMetrics core 0 array 3 Fixtures.start = Returns (n, rows) w'
    /\ forall metrics,
        In metrics rows ->
        (forall row,
            In row (xpum_device_metrics_t.dataList metrics) ->
            exists type,
              xpum_device_metric_data_t.metricsType row
              = Utility.xpumStatsTypeFromMeasurementType type
              /\ xpum_device_metric_data_t.isCounter row = Utility.isCounterMetric type
              /\ reportable core Fixtures.device type)
        /\ (~ In METRIC_MAX (Core.getEnabledMetrics core) ->
            NoDup (map xpum_device_metric_data_t.metricsType
                       (xpum_device_metrics_t.dataList metrics))).
Proof.
  intros core. eexists. eexists. eexists. split; [vm_compute; reflexivity |].
  eapply (snapshot_rows_are_supported core Fixtures.device 0 3 Fixtures.start _ _ _ eq_refl).
  vm_compute. reflexivity.
Defined.

(** ** Calls before the handler manager is initialised *)

Lemma statistics_of_metric_uninitialised enum_value core bdf device_id session_id
      metric acc w :
  Core.p_data_handler_manager core = None ->
  (exists acc',
      statistics_of_metric enum_value core bdf device_id session_id metric acc w
      = Returns acc' w)
  \/ statistics_of_metric enum_value core bdf device_id session_id metric acc w
     = Throws IlegalStateException.
Proof.
  intros Hnone. unfold statistics_of_metric.
  destruct (negb (is_multi_entity metric)); [| left; eexists; reflexivity].
  destruct (is_power metric && hasDataOnDevice (Core.loadPVCIdlePowers core bdf)).
  - left. eexists. reflexivity.
  - right. unfold bind, getLatestStatistics. rewrite Hnone. reflexivity.
Qed.

Lemma collect_statistics_uninitialised enum_value core bdf device_id session_id
      metric_types :
  Core.p_data_handler_manager core = None ->
  forall acc w,
    (exists acc',
        collect_statistics enum_value core bdf device_id session_id metric_types acc w
        = Returns acc' w)
    \/ collect_statistics enum_value core bdf device_id session_id metric_types acc w
       = Throws IlegalStateException.
Proof.
  intros Hnone.
  induction metric_types as [| metric rest IH]; intros acc w; cbn [collect_statistics].
  - left. eexists. reflexivity.
  - destruct (statistics_of_metric_uninitialised enum_value core bdf device_id session_id
                metric acc w Hnone) as [[acc1 Hone] | Hone].
    + rewrite (bind_Returns _ _ _ _ _ Hone). apply IH.
    + right. unfold bind. rewrite Hone. reflexivity.
Qed.

Lemma collect_latest_uninitialised core bdf device_id metric_types :
  Core.p_data_handler_manager core = None ->
  forall acc w,
    collect_latest core bdf device_id metric_types acc w
    = if existsb (fun metric => negb (is_multi_entity metric)) metric_types
      then Throws IlegalStateException
      else Returns acc w.
Proof.
  intros Hnone.
  induction metric_types as [| metric rest IH]; intros acc w;
    cbn [collect_latest existsb].
  - reflexivity.
  - unfold bind at 1. unfold latest_of_metric.
    destruct (negb (is_multi_entity metric)); cbn [orb].
    + unfold comma, bind, getLatestData. rewrite Hnone. reflexivity.
    + unfold ret at 1. apply IH.
Qed.

(** Use before initialisation.  On a known device and without a handler
    manager, the calls with a buffer of [getMetricsStatistics] and
    [getEngineStatistics] always end in the exception "initialization is
    not done!"; [getLatestMetrics] does so exactly when some enabled and
    supported metric is not a multi-entity metric; [getEngineUtilizations],
    [getFabricThroughputStatistics] and [getFabricThroughput] do so once
    their metric is enabled and supported (and the link count,
    respectively the capacity, is not zero), and return their error code
    otherwise. *)
Theorem uninitialised_manager_throws enum_value core device deviceId count session_id w :
  Core.getDevice core deviceId = Some device ->
  Core.p_data_handler_manager core = None ->
  getMetricsStatistics enum_value core deviceId array count session_id w
  = Throws IlegalStateException
  /\ getEngineStatistics core deviceId array count session_id w
     = Throws IlegalStateException
  /\ (existsb (fun metric => negb (is_multi_entity metric))
              (erase_unsupported (Device.getCapability device)
                                 (Core.getEnabledMetrics core)) = true ->
      getLatestMetrics core deviceId array count w = Throws IlegalStateException)
  /\ (existsb (fun metric => negb (is_multi_entity metric))
              (erase_unsupported (Device.getCapability device)
                                 (Core.getEnabledMetrics core)) = false ->
      exists rows, getLatestMetrics core deviceId array count w
                   = Returns (U32.add (Device.NUMBER_OF_SUBDEVICE device) 1, rows) w)
  /\ (available core device METRIC_ENGINE_UTILIZATION = true ->
      DataLogicQueries.getEngineUtilizations core deviceId array count w
      = Throws IlegalStateException)
  /\ (available core device METRIC_FABRIC_THROUGHPUT = true ->
      (Device.getFabricThroughputInfoCount device <> 0 ->
       getFabricThroughputStatistics core deviceId array count session_id w
       = Throws IlegalStateException)
      /\ (count <> 0 ->
          getFabricThroughput core deviceId array count w = Throws IlegalStateException)).
Proof.
  intros Hdevice Hnone.
  split; [| split; [| split; [| split; [| split]]]].
  - unfold getMetricsStatistics. rewrite Hdevice.
    destruct (collect_statistics_uninitialised enum_value core
                (Device.PCI_BDF_ADDRESS device) deviceId session_id
                (erase_unsupported (Device.getCapability device)
                                   (Core.getEnabledMetrics core))
                Hnone ([], false) w) as [[datas Hcollect] | Hcollect].
    + rewrite (bind_Returns _ _ _ _ _ Hcollect).
      unfold bind, getStatsTimestamp. rewrite Hnone. reflexivity.
    + unfold bind. rewrite Hcollect. reflexivity.
  - unfold getEngineStatistics. rewrite Hdevice.
    unfold bind, getEngineStatsTimestamp. rewrite Hnone. reflexivity.
  - intros Hsome. unfold getLatestMetrics. rewrite Hdevice.
    unfold bind. rewrite (collect_latest_uninitialised _ _ _ _ Hnone), Hsome. reflexivity.
  - intros Hno. unfold getLatestMetrics. rewrite Hdevice.
    unfold bind. rewrite (collect_latest_uninitialised _ _ _ _ Hnone), Hno.
    eexists. reflexivity.
  - unfold available. intros Havailable. apply andb_true_iff in Havailable.
    destruct Havailable as [Henabled Hsupported].
    unfold DataLogicQueries.getEngineUtilizations.
    rewrite Hdevice, Henabled, Hsupported. cbn [negb].
    unfold bind, getLatestData. rewrite Hnone. reflexivity.
  - unfold available. intros Havailable. apply andb_true_iff in Havailable.
    destruct Havailable as [Henabled Hsupported].
    split.
    + intros Hlinks. unfold getFabricThroughputStatistics.
      rewrite Hdevice, Henabled, Hsupported. cbn [negb is_nullptr orb].
      replace (Device.getFabricThroughputInfoCount device =? 0) with false
        by (symmetry; apply Z.eqb_neq; exact Hlinks).
      unfold bind, getLatestStatistics. rewrite Hnone. reflexivity.
    + intros Hcount. unfold getFabricThroughput.
      rewrite Hdevice, Henabled, Hsupported. cbn [negb is_nullptr orb].
      replace (count =? 0) with false by (symmetry; apply Z.eqb_neq; exact Hcount).
      unfold bind, getLatestData. rewrite Hnone. reflexivity.
Qed.

Lemma uninitialised_manager_throws_witness :
  let core := before_init (Fixtures.core [METRIC_POWER; METRIC_ENGINE_UTILIZATION]
                                        Fixtures.no_data []) in
  getMetricsStatistics Fixtures.declared_order core 0 array 3 0 Fixtures.start
  = Throws IlegalStateException
  /\ getEngineStatistics core 0 array 3 0 Fixtures.start = Throws IlegalStateException.
Proof.
  intros core.
  destruct (uninitialised_manager_throws Fixtures.declared_order core Fixtures.device
              0 3 0 Fixtures.start eq_refl eq_refl) as (Hstatistics & Hengine & _).
  split; [exact Hstatistics | exact Hengine].
Defined.

(** A call without a buffer never throws, never queries the handler
    manager and never sleeps, whether or not the manager is initialised:
    each of the six queries returns at once with no row stored. *)
Theorem sizing_calls_return enum_value core deviceId count session_id w :
  (exists reply,
      getMetricsStatistics enum_value core deviceId nullptr count session_id w
      = Returns reply w /\ Reply.dataList reply = [])
  /\ (exists n, getLatestMetrics core deviceId nullptr count w = Returns (n, []) w)
  /\ (exists reply,
         getEngineStatistics core deviceId nullptr count session_id w = Returns reply w
         /\ Reply.dataList reply = [])
  /\ (exists reply,
         DataLogicQueries.getEngineUtilizations core deviceId nullptr count w
         = Returns reply w /\ Reply.dataList reply = [])
  /\ (exists reply,
         getFabricThroughputStatistics core deviceId nullptr count session_id w
         = Returns reply w /\ Reply.dataList reply = [])
  /\ (exists reply,
         getFabricThroughput core deviceId nullptr count w = Returns reply w
         /\ Reply.dataList reply = []).
Proof.
  unfold getMetricsStatistics, getLatestMetrics, getEngineStatistics,
    DataLogicQueries.getEngineUtilizations, getFabricThroughputStatistics,
    getFabricThroughput.
  destruct (Core.getDevice core deviceId) as [device |].
  2:{ repeat split; eexists; try split; reflexivity. }
  cbn [is_nullptr orb].
  destruct (negb (contains (Core.getEnabledMetrics core) METRIC_ENGINE_UTILIZATION));
    destruct (negb (contains (erase_unsupported (Device.getCapability device)
                                (Core.getEnabledMetrics core))
                             METRIC_ENGINE_UTILIZATION));
    destruct (negb (contains (Core.getEnabledMetrics core) METRIC_FABRIC_THROUGHPUT));
    destruct (negb (contains (erase_unsupported (Device.getCapability device)
                                (Core.getEnabledMetrics core))
                             METRIC_FABRIC_THROUGHPUT));
    repeat split; eexists; try split; reflexivity.
Qed.

(** ** Buffer protocol of the fabric assemblers *)

Lemma store_fabric_stats_outcome core entries device deviceId p_data count stored :
  let '(code, n, rows) :=
    store_fabric_stats core entries device deviceId p_data count stored in
  Z.of_nat (List.length rows)
  <= Z.of_nat (List.length stored) + fabric_total device entries
  /\ ((code = XPUM_OK /\ n = Z.of_nat (List.length rows))
      \/ (code = XPUM_GENERIC_ERROR /\ n = count)).
Proof.
  revert stored.
  induction entries as [| [fabricId measurementData] rest IH]; intros stored.
  - cbn [store_fabric_stats]. unfold fabric_total. simpl. split; [lia | auto].
  - cbn [store_fabric_stats]. rewrite fabric_total_cons.
    destruct (Device.getFabricThroughputInfo device fabricId) as [info |].
    + pose proof (fabric_total_nonneg device rest) as Hnonneg.
      destruct (Core.getDeviceIDByFabricID core (FabricThroughputInfo.remote_fabric_id info))
        as [did |].
      * specialize (IH (stored ++ [fabric_throughput_stats deviceId p_data info did
                                     measurementData])).
        destruct (store_fabric_stats core rest device deviceId p_data count
                    (stored ++ [fabric_throughput_stats deviceId p_data info did
                                  measurementData]))
          as [[code n] rows].
        rewrite length_app, Nat2Z.inj_add in IH. simpl in IH.
        split; [lia | tauto].
      * split; [lia | auto].
    + apply IH.
Qed.

(** The part of [getFabricThroughputStatistics] after the capacity test. *)
Lemma fabric_statistics_rows core device deviceId data capacity begin end_ w :
  fabric_total device (getMultiMetricsDatas data) <= capacity ->
  exists reply,
    (if getTimestamp data <? begin
     then
       ret {| Reply.result := XPUM_OK; Reply.count := 0; Reply.dataList := [];
              Reply.begin_time := Some begin; Reply.end_time := Some end_ |}
     else
       let '(code, count', stored) :=
         store_fabric_stats core (getMultiMetricsDatas data) device deviceId data
                            capacity [] in
       ret {| Reply.result := code; Reply.count := count'; Reply.dataList := stored;
              Reply.begin_time := Some begin; Reply.end_time := Some end_ |}) w
    = Returns reply w
    /\ Z.of_nat (List.length (Reply.dataList reply)) <= capacity
    /\ Reply.result reply <> XPUM_BUFFER_TOO_SMALL
    /\ (Reply.result reply = XPUM_OK ->
        Reply.count reply = Z.of_nat (List.length (Reply.dataList reply)))
    /\ (Reply.result reply = XPUM_GENERIC_ERROR -> Reply.count reply = capacity).
Proof.
  intros Hfits.
  pose proof (fabric_total_nonneg device (getMultiMetricsDatas data)) as Hnonneg.
  destruct (getTimestamp data <? begin).
  - eexists. split; [reflexivity |]. cbn.
    repeat split; try discriminate; lia.
  - pose proof (store_fabric_stats_outcome core (getMultiMetricsDatas data) device
                  deviceId data capacity []) as Hout.
    destruct (store_fabric_stats core (getMultiMetricsDatas data) device deviceId data
                capacity []) as [[code n] rows].
    eexists. split; [reflexivity |]. cbn in Hout |- *.
    destruct Hout as [Hlen [[-> ->] | [-> ->]]];
      repeat split; try discriminate; try reflexivity; lia.
Qed.

(** The buffer protocol of [getFabricThroughputStatistics] for a call
    with a buffer that returns.  It never stores more rows than the
    announced capacity.  [XPUM_OK] comes with the number of stored rows
    in [*count].  [XPUM_BUFFER_TOO_SMALL] comes before anything is
    stored and with the required number of rows in [*count], which is
    larger than the capacity; repeating the call at once with that
    capacity does not give [XPUM_BUFFER_TOO_SMALL] again.
    [XPUM_GENERIC_ERROR] leaves [*count] alone. *)
Theorem fabric_statistics_buffer_protocol core deviceId count session_id w reply w' :
  0 <= count ->
  getFabricThroughputStatistics core deviceId array count session_id w = Returns reply w' ->
  Z.of_nat (List.length (Reply.dataList reply)) <= count
  /\ (Reply.result reply = XPUM_OK ->
      Reply.count reply = Z.of_nat (List.length (Reply.dataList reply)))
  /\ (Reply.result reply = XPUM_BUFFER_TOO_SMALL ->
      Reply.dataList reply = []
      /\ count < Reply.count reply
      /\ exists again w'',
          getFabricThroughputStatistics core deviceId array (Reply.count reply)
            session_id w
          = Returns again w''
          /\ Reply.result again <> XPUM_BUFFER_TOO_SMALL
          /\ Z.of_nat (List.length (Reply.dataList again)) <= Reply.count reply)
  /\ (Reply.result reply = XPUM_GENERIC_ERROR -> Reply.count reply = count).
Proof.
  intros Hcount Hcall.
  unfold getFabricThroughputStatistics in Hcall |- *.
  destruct (Core.getDevice core deviceId) as [device |].
  2:{ unfold ret in Hcall. inversion Hcall; subst. cbn.
      repeat split; try discriminate; lia. }
  destruct (negb (contains (Core.getEnabledMetrics core) METRIC_FABRIC_THROUGHPUT)).
  { unfold ret in Hcall. inversion Hcall; subst. cbn.
    repeat split; try discriminate; lia. }
  destruct (negb (contains (erase_unsupported (Device.getCapability device)
                              (Core.getEnabledMetrics core))
                           METRIC_FABRIC_THROUGHPUT)).
  { unfold ret in Hcall. inversion Hcall; subst. cbn.
    repeat split; try discriminate; lia. }
  cbn [is_nullptr orb] in Hcall |- *.
  destruct (Device.getFabricThroughputInfoCount device =? 0) eqn:Hlinks.
  { apply Z.eqb_eq in Hlinks. unfold ret in Hcall. inversion Hcall; subst. cbn.
    repeat split; try discriminate; lia. }
  unfold bind, getLatestStatistics in Hcall |- *.
  destruct (Core.p_data_handler_manager core) as [manager |] eqn:Hmanager;
    [| discriminate].
  cbn [millis] in Hcall |- *.
  destruct (DataHandlerManager.getLatestStatistics manager (millis w)
              METRIC_FABRIC_THROUGHPUT deviceId session_id) as [data |].
  2:{ unfold ret in Hcall. inversion Hcall; subst. cbn.
      repeat split; try discriminate; lia. }
  unfold getFabricStatsTimestamp in Hcall |- *. rewrite Hmanager in Hcall |- *.
  unfold ret at 1 in Hcall. unfold getCurrentTime in Hcall |- *. cbn [millis] in Hcall |- *.
  destruct (fabric_total device (getMultiMetricsDatas data) >? count) eqn:Htotal.
  - unfold ret in Hcall. inversion Hcall; subst. cbn [Reply.result Reply.count Reply.dataList].
    apply Z.gtb_lt in Htotal.
    split; [simpl; lia |]. split; [discriminate |]. split; [| discriminate].
    intros _. split; [reflexivity |]. split; [exact Htotal |].
    replace (fabric_total device (getMultiMetricsDatas data)
             >? fabric_total device (getMultiMetricsDatas data)) with false
      by (symmetry; rewrite Z.gtb_ltb; apply Z.ltb_irrefl).
    destruct (fabric_statistics_rows core device deviceId data
                (fabric_total device (getMultiMetricsDatas data))
                (DataHandlerManager.getFabricStatsTimestamp manager session_id deviceId)
                (millis w)
                {| millis := millis w;
                   events := events w
                             ++ [LatestStatistics METRIC_FABRIC_THROUGHPUT (millis w)] |}
                (Z.le_refl _)) as (again & Hrun & Hlen & Hnot & _).
    exists again. eexists. split; [exact Hrun |]. split; assumption.
  - rewrite Z.gtb_ltb in Htotal. apply Z.ltb_ge in Htotal.
    destruct (fabric_statistics_rows core device deviceId data count
                (DataHandlerManager.getFabricStatsTimestamp manager session_id deviceId)
                (millis w)
                {| millis := millis w;
                   events := events w
                             ++ [LatestStatistics METRIC_FABRIC_THROUGHPUT (millis w)] |}
                Htotal) as (reply' & Hrun & Hlen & Hnot & Hok & Hgeneric).
    assert (Hsame : Returns reply w'
                    = Returns reply'
                        {| millis := millis w;
                           events := events w
                                     ++ [LatestStatistics METRIC_FABRIC_THROUGHPUT
                                           (millis w)] |})
      by (rewrite <- Hcall; exact Hrun).
    inversion Hsame; subst.
    split; [exact Hlen |]. split; [exact Hok |].
    split; [intros Hsmall; contradiction | exact Hgeneric].
Qed.

Lemma fabric_statistics_buffer_protocol_witness :
  let core := Fixtures.core [METRIC_FABRIC_THROUGHPUT] Fixtures.no_data
                            [(1, Fixtures.entity 900 100 0 0);
                             (2, Fixtures.entity 40 10 20 50)] in
  exists reply w',
    getFabricThroughputStatistics core 0 array 1 0 Fixtures.start = Returns reply w'
    /\ Reply.result reply = XPUM_BUFFER_TOO_SMALL
    /\ Reply.dataList reply = []
    /\ 1 < Reply.count reply
    /\ exists again w'',
        getFabricThroughputStatistics core 0 array (Reply.count reply) 0 Fixtures.start
        = Returns again w''
        /\ Reply.result again <> XPUM_BUFFER_TOO_SMALL
        /\ Z.of_nat (List.length (Reply.dataList again)) <= Reply.count reply.
Proof.
  intros core. eexists. eexists.
  split; [vm_compute; reflexivity |]. split; [reflexivity |].
  edestruct (fabric_statistics_buffer_protocol core 0 1 0 Fixtures.start)
    as (_ & _ & Hsmall & _); [lia | vm_compute; reflexivity |].
  exact (Hsmall eq_refl).
Defined.

Lemma store_fabric_metrics_outcome core entries device p_data count stored :
  Z.of_nat (List.length stored) <= count ->
  let '(code, n, rows) := store_fabric_metrics core entries device p_data count stored in
  Z.of_nat (List.length rows) <= count
  /\ ((code = XPUM_OK /\ n = Z.of_nat (List.length rows))
      \/ (code = XPUM_BUFFER_TOO_SMALL /\ n = count /\ Z.of_nat (List.length rows) = count)
      \/ (code = XPUM_GENERIC_ERROR /\ n = count)).
Proof.
  revert stored.
  induction entries as [| [fabricId measurementData] rest IH]; intros stored Hlen.
  - cbn [store_fabric_metrics]. auto.
  - cbn [store_fabric_metrics].
    destruct (Device.getFabricThroughputInfo device fabricId) as [info |]; [| apply IH; exact Hlen].
    destruct (Core.getDeviceIDByFabricID core (FabricThroughputInfo.remote_fabric_id info))
      as [did |]; [| auto].
    destruct (Z.of_nat (List.length stored) >=? count) eqn:Hfull.
    + apply Z.geb_le in Hfull. split; [exact Hlen |]. right. left.
      repeat split; lia.
    + apply IH. rewrite Z.geb_leb in Hfull. apply Z.leb_gt in Hfull.
      rewrite length_app, Nat2Z.inj_add. simpl. lia.
Qed.

(** The buffer protocol of [getFabricThroughput] for a call with a
    buffer that returns.  A capacity of zero makes it a sizing call.  It
    never stores more rows than the capacity; with a capacity above zero
    [XPUM_OK] comes with the number of stored rows in [*count];
    [XPUM_BUFFER_TOO_SMALL] comes with the buffer filled to its capacity
    and [*count] as it was; [XPUM_GENERIC_ERROR] leaves [*count] alone. *)
Theorem fabric_throughput_buffer_protocol core deviceId count w reply w' :
  0 <= count ->
  getFabricThroughput core deviceId array count w = Returns reply w' ->
  Z.of_nat (List.length (Reply.dataList reply)) <= count
  /\ (count = 0 -> getFabricThroughput core deviceId nullptr count w = Returns reply w')
  /\ (0 < count ->
      Reply.result reply = XPUM_OK ->
      Reply.count reply = Z.of_nat (List.length (Reply.dataList reply)))
  /\ (Reply.result reply = XPUM_BUFFER_TOO_SMALL ->
      Reply.count reply = count
      /\ Z.of_nat (List.length (Reply.dataList reply)) = count)
  /\ (Reply.result reply = XPUM_GENERIC_ERROR -> Reply.count reply = count).
Proof.
  intros Hcount Hcall.
  unfold getFabricThroughput in Hcall |- *.
  destruct (Core.getDevice core deviceId) as [device |].
  2:{ unfold ret in Hcall |- *. inversion Hcall; subst. cbn.
      repeat split; try discriminate; try reflexivity; lia. }
  destruct (negb (contains (Core.getEnabledMetrics core) METRIC_FABRIC_THROUGHPUT)).
  { unfold ret in Hcall |- *. inversion Hcall; subst. cbn.
    repeat split; try discriminate; try reflexivity; lia. }
  destruct (negb (contains (erase_unsupported (Device.getCapability device)
                              (Core.getEnabledMetrics core))
                           METRIC_FABRIC_THROUGHPUT)).
  { unfold ret in Hcall |- *. inversion Hcall; subst. cbn.
    repeat split; try discriminate; try reflexivity; lia. }
  cbn [is_nullptr orb] in Hcall |- *.
  destruct (count =? 0) eqn:Hzero.
  { apply Z.eqb_eq in Hzero. unfold ret in Hcall |- *. inversion Hcall; subst. cbn.
    repeat split; try discriminate; try reflexivity; lia. }
  apply Z.eqb_neq in Hzero.
  unfold bind, getLatestData in Hcall.
  destruct (Core.p_data_handler_manager core) as [manager |]; [| discriminate].
  unfold ret at 1 in Hcall.
  destruct (DataHandlerManager.getLatestData manager METRIC_FABRIC_THROUGHPUT deviceId)
    as [data |].
  2:{ unfold ret in Hcall. inversion Hcall; subst. cbn.
      repeat split; try discriminate; try reflexivity; lia. }
  pose proof (store_fabric_metrics_outcome core (getMultiMetricsDatas data) device data
                count [] Hcount) as Hout.
  destruct (store_fabric_metrics core (getMultiMetricsDatas data) device data count [])
    as [[code n] rows].
  unfold ret in Hcall. inversion Hcall; subst. cbn [Reply.result Reply.count Reply.dataList].
  destruct Hout as [Hlen [[-> ->] | [(-> & -> & Hfull) | [-> ->]]]];
    (split; [exact Hlen |]); (split; [intros; contradiction |]);
    repeat split; try discriminate; auto.
Qed.

Lemma fabric_throughput_buffer_protocol_witness :
  let core := Fixtures.core [METRIC_FABRIC_THROUGHPUT] Fixtures.no_data
                            [(1, Fixtures.entity 900 100 0 0);
                             (2, Fixtures.entity 40 10 20 50)] in
  exists reply w',
    getFabricThroughput core 0 array 1 Fixtures.start = Returns reply w'
    /\ Reply.result reply = XPUM_BUFFER_TOO_SMALL
    /\ Reply.count reply = 1
    /\ Z.of_nat (List.length (Reply.dataList reply)) = 1.
Proof.
  intros core. eexists. eexists.
  split; [vm_compute; reflexivity |]. split; [reflexivity |].
  edestruct (fabric_throughput_buffer_protocol core 0 1 Fixtures.start)
    as (_ & _ & _ & Hsmall & _); [lia | vm_compute; reflexivity |].
  exact (Hsmall eq_refl).
Defined.

(** ** Result codes for metrics that are not enabled or not supported *)

Lemma store_fabric_stats_row_loop core entries device deviceId p_data count stored :
  row_loop_code
    (fst (fst (store_fabric_stats core entries device deviceId p_data count stored))).
Proof.
  pose proof (store_fabric_stats_outcome core entries device deviceId p_data count stored)
    as Hout.
  destruct (store_fabric_stats core entries device deviceId p_data count stored)
    as [[code n] rows].
  unfold row_loop_code. cbn. destruct Hout as [_ [[-> _] | [-> _]]]; auto.
Qed.

Lemma store_fabric_metrics_row_loop core entries device p_data count stored :
  row_loop_code
    (fst (fst (store_fabric_metrics core entries device p_data count stored))).
Proof.
  revert stored.
  induction entries as [| [fabricId measurementData] rest IH]; intros stored;
    cbn [store_fabric_metrics].
  - left. reflexivity.
  - destruct (Device.getFabricThroughputInfo device fabricId) as [info |]; [| apply IH].
    destruct (Core.getDeviceIDByFabricID core (FabricThroughputInfo.remote_fabric_id info));
      [| right; right; reflexivity].
    destruct (Z.of_nat (List.length stored) >=? count); [right; left; reflexivity | apply IH].
Qed.

Lemma store_engine_metrics_row_loop core entries device p_data count stored :
  row_loop_code
    (fst (fst (DataLogicQueries.store_engine_metrics core entries device p_data count
                 stored))).
Proof.
  pose proof (store_engine_metrics_outcome core entries device p_data count stored) as Hout.
  destruct (DataLogicQueries.store_engine_metrics core entries device p_data count stored)
    as [[code n] rows].
  unfold row_loop_code. cbn. destruct Hout as [(-> & _) | (-> & _)]; auto.
Qed.

(** How [getFabricThroughputStatistics], [getFabricThroughput] and
    [getEngineUtilizations] tell the error cases apart, with or without a
    buffer and before any data is looked at.  When the device is unknown,
    the metric is not enabled, or it is enabled but the device does not
    list its capability, the call returns [DEVICE_NOT_FOUND],
    [METRIC_NOT_ENABLED] or [METRIC_NOT_SUPPORTED] (in this order of
    precedence) with [*count = 0], no row and no access to the store;
    otherwise it returns none of the three. *)
Theorem availability_codes core deviceId dataList count session_id w :
  let outcome_of {row : Type} (metric : MeasurementType) (call : M (Reply.t row)) :=
    forall reply w',
      call w = Returns reply w' ->
      (availability_code core deviceId metric <> XPUM_OK ->
       Reply.result reply = availability_code core deviceId metric
       /\ Reply.count reply = 0 /\ Reply.dataList reply = [] /\ w' = w)
      /\ (availability_code core deviceId metric = XPUM_OK ->
          row_loop_code (Reply.result reply)) in
  outcome_of METRIC_FABRIC_THROUGHPUT
    (getFabricThroughputStatistics core deviceId dataList count session_id)
  /\ outcome_of METRIC_FABRIC_THROUGHPUT (getFabricThroughput core deviceId dataList count)
  /\ outcome_of METRIC_ENGINE_UTILIZATION
       (DataLogicQueries.getEngineUtilizations core deviceId dataList count).
Proof.
  cbv zeta.
  unfold availability_code, getFabricThroughputStatistics, getFabricThroughput,
    DataLogicQueries.getEngineUtilizations.
  destruct (Core.getDevice core deviceId) as [device |].
  2:{ repeat split; unfold ret in *;
      match goal with H : Returns _ _ = Returns _ _ |- _ => inversion H; subst end;
      try reflexivity; congruence. }
  rewrite !contains_erase_unsupported.
  split; [| split]; intros reply w' Hcall.
  - destruct (contains (Core.getEnabledMetrics core) METRIC_FABRIC_THROUGHPUT);
      cbn [negb andb] in Hcall |- *.
    2:{ unfold ret in Hcall. inversion Hcall; subst. cbn. repeat split; congruence. }
    destruct (has_capability (Device.getCapability device) METRIC_FABRIC_THROUGHPUT);
      cbn [negb] in Hcall |- *.
    2:{ unfold ret in Hcall. inversion Hcall; subst. cbn. repeat split; congruence. }
    split; [congruence |]. intros _.
    destruct (is_nullptr dataList || (Device.getFabricThroughputInfoCount device =? 0)).
    { unfold ret in Hcall. inversion Hcall; subst. left. reflexivity. }
    apply bind_inv in Hcall. destruct Hcall as (p_data & w1 & _ & Hcall).
    destruct p_data as [data |].
    2:{ unfold ret in Hcall. inversion Hcall; subst. left. reflexivity. }
    destruct (fabric_total device (getMultiMetricsDatas data) >? count).
    { unfold ret in Hcall. inversion Hcall; subst. right. left. reflexivity. }
    apply bind_inv in Hcall. destruct Hcall as (begin & w2 & _ & Hcall).
    apply bind_inv in Hcall. destruct Hcall as (end_ & w3 & _ & Hcall).
    destruct (getTimestamp data <? begin).
    { unfold ret in Hcall. inversion Hcall; subst. left. reflexivity. }
    pose proof (store_fabric_stats_row_loop core (getMultiMetricsDatas data) device
                  deviceId data count []) as Hloop.
    destruct (store_fabric_stats core (getMultiMetricsDatas data) device deviceId data
                count []) as [[code n] rows].
    unfold ret in Hcall. inversion Hcall; subst. exact Hloop.
  - destruct (contains (Core.getEnabledMetrics core) METRIC_FABRIC_THROUGHPUT);
      cbn [negb andb] in Hcall |- *.
    2:{ unfold ret in Hcall. inversion Hcall; subst. cbn. repeat split; congruence. }
    destruct (has_capability (Device.getCapability device) METRIC_FABRIC_THROUGHPUT);
      cbn [negb] in Hcall |- *.
    2:{ unfold ret in Hcall. inversion Hcall; subst. cbn. repeat split; congruence. }
    split; [congruence |]. intros _.
    destruct (is_nullptr dataList || (count =? 0)).
    { unfold ret in Hcall. inversion Hcall; subst. left. reflexivity. }
    apply bind_inv in Hcall. destruct Hcall as (p_data & w1 & _ & Hcall).
    destruct p_data as [data |].
    2:{ unfold ret in Hcall. inversion Hcall; subst. left. reflexivity. }
    pose proof (store_fabric_metrics_row_loop core (getMultiMetricsDatas data) device
                  data count []) as Hloop.
    destruct (store_fabric_metrics core (getMultiMetricsDatas data) device data count [])
      as [[code n] rows].
    unfold ret in Hcall. inversion Hcall; subst. exact Hloop.
  - destruct (contains (Core.getEnabledMetrics core) METRIC_ENGINE_UTILIZATION);
      cbn [negb andb] in Hcall |- *.
    2:{ unfold ret in Hcall. inversion Hcall; subst. cbn. repeat split; congruence. }
    destruct (has_capability (Device.getCapability device) METRIC_ENGINE_UTILIZATION);
      cbn [negb] in Hcall |- *.
    2:{ unfold ret in Hcall. inversion Hcall; subst. cbn. repeat split; congruence. }
    split; [congruence |]. intros _.
    destruct dataList.
    { unfold ret in Hcall. inversion Hcall; subst. left. reflexivity. }
    apply bind_inv in Hcall. destruct Hcall as (p_data & w1 & _ & Hcall).
    destruct p_data as [data |].
    2:{ unfold ret in Hcall. inversion Hcall; subst. left. reflexivity. }
    pose proof (store_engine_metrics_row_loop core (getMultiMetricsDatas data) device
                  data (Device.getEngineCount device) []) as Hloop.
    destruct (DataLogicQueries.store_engine_metrics core (getMultiMetricsDatas data) device
                data (Device.getEngineCount device) []) as [[code n] rows].
    unfold ret in Hcall. inversion Hcall; subst. exact Hloop.
Qed.

Lemma availability_codes_witness :
  let core := Fixtures.core [METRIC_POWER; METRIC_ENGINE_UTILIZATION] Fixtures.no_data [] in
  exists reply,
    getFabricThroughput core 0 array 4 Fixtures.start = Returns reply Fixtures.start
    /\ Reply.result reply = XPUM_METRIC_NOT_ENABLED
    /\ Reply.count reply = 0
    /\ Reply.dataList reply = [].
Proof.
  intros core. eexists. split; [vm_compute; reflexivity |].
  destruct (availability_codes core 0 array 4 0 Fixtures.start) as (_ & Hfabric & _).
  edestruct Hfabric as [Hcode _]; [vm_compute; reflexivity |].
  destruct Hcode as (Hresult & Hcount & Hrows & _); [vm_compute; discriminate |].
  auto.
Defined.

(** ** Columns of the raw-data dump *)

(** The text of the throttle-reason column: the names of the reasons
    whose flag is set in the value, in the order of the tests and joined
    by [" | "] with no separator at the end, and ["Not Throttled"] when
    no flag is set. *)
Theorem throttle_reasons_text
        FLAG_AVE_PWR_CAP FLAG_BURST_PWR_CAP FLAG_CURRENT_LIMIT FLAG_THERMAL_LIMIT
        FLAG_PSU_ALERT FLAG_SW_RANGE FLAG_HW_RANGE value :
  DumpRawDataTask.throttle_reasons
    FLAG_AVE_PWR_CAP FLAG_BURST_PWR_CAP FLAG_CURRENT_LIMIT FLAG_THERMAL_LIMIT
    FLAG_PSU_ALERT FLAG_SW_RANGE FLAG_HW_RANGE value
  = match DumpRawDataTask.reasons_of
            FLAG_AVE_PWR_CAP FLAG_BURST_PWR_CAP FLAG_CURRENT_LIMIT FLAG_THERMAL_LIMIT
            FLAG_PSU_ALERT FLAG_SW_RANGE FLAG_HW_RANGE value with
    | [] => "Not Throttled"%string
    | names => String.concat " | " names
    end.
Proof.
  unfold DumpRawDataTask.throttle_reasons, DumpRawDataTask.reasons_of,
    DumpRawDataTask.reasons, DumpRawDataTask.add_reason.
  cbn [filter fst snd].
  generalize (negb (Z.land value FLAG_HW_RANGE =? 0)),
             (negb (Z.land value FLAG_SW_RANGE =? 0)),
             (negb (Z.land value FLAG_PSU_ALERT =? 0)),
             (negb (Z.land value FLAG_THERMAL_LIMIT =? 0)),
             (negb (Z.land value FLAG_CURRENT_LIMIT =? 0)),
             (negb (Z.land value FLAG_BURST_PWR_CAP =? 0)),
             (negb (Z.land value FLAG_AVE_PWR_CAP =? 0)).
  intros [|] [|] [|] [|] [|] [|] [|]; reflexivity.
Qed.

(** What the two kinds of column do when they are asked again for data
    that has not changed.  A statistics column records the timestamp of
    the data it was shown, so a second call on the same data prints
    nothing.  The throttle-reason column never changes its
    [lastTimestamp]: it gives the same answer on every call with the same
    data, and its timestamp stays what it was whatever it is shown. *)
Theorem columns_on_unchanged_data
        scaled_value
        FLAG_AVE_PWR_CAP FLAG_BURST_PWR_CAP FLAG_CURRENT_LIMIT FLAG_THERMAL_LIMIT
        FLAG_PSU_ALERT FLAG_SW_RANGE FLAG_HW_RANGE lastTimestamp found :
  let stats := DumpRawDataTask.stats_column scaled_value in
  let throttle :=
    DumpRawDataTask.throttle_column
      FLAG_AVE_PWR_CAP FLAG_BURST_PWR_CAP FLAG_CURRENT_LIMIT FLAG_THERMAL_LIMIT
      FLAG_PSU_ALERT FLAG_SW_RANGE FLAG_HW_RANGE in
  fst (stats (snd (stats lastTimestamp found)) found) = EmptyString
  /\ snd (stats (snd (stats lastTimestamp found)) found) = snd (stats lastTimestamp found)
  /\ snd (throttle lastTimestamp found) = lastTimestamp
  /\ throttle (snd (throttle lastTimestamp found)) found = throttle lastTimestamp found.
Proof.
  cbv zeta.
  unfold DumpRawDataTask.stats_column, DumpRawDataTask.throttle_column.
  destruct found as [data |]; cbn [fst snd].
  - rewrite Z.eqb_refl. cbn [negb fst snd].
    destruct (Z.eqb_spec lastTimestamp (xpum_device_metric_data_t.timestamp data))
      as [Heq | Hneq]; cbn [negb fst snd].
    + rewrite <- Heq, Z.eqb_refl. auto.
    + apply Z.eqb_neq in Hneq. rewrite Hneq. auto.
  - auto.
Qed.

(** ** Further properties of the rate computation *)

Lemma device_level_rate_exact_witness :
  exists cur' md',
    calculateData (Some [("0"%string, Samples.sample (Some (10, 1)) [])])
                  (Some [("0"%string, Samples.sample (Some (20, 2)) [])])
    = Some cur'
    /\ Map.find "0"%string cur' = Some md'
    /\ getCurrent md' = (20 - 10) / (2 - 1).
Proof.
  apply (device_level_rate_exact
           [("0"%string, Samples.sample (Some (10, 1)) [])]
           [("0"%string, Samples.sample (Some (20, 2)) [])]
           "0"%string
           (Samples.sample (Some (20, 2)) []) (Samples.sample (Some (10, 1)) []));
    try reflexivity; try (vm_compute; split; congruence); try (vm_compute; congruence).
Defined.

Lemma subdevice_rate_exact_witness :
  exists cur' md',
    calculateData
      (Some [("0"%string, Samples.sample None [(0, Samples.reading 10 1)])])
      (Some [("0"%string, Samples.sample None [(0, Samples.reading 20 2)])])
    = Some cur'
    /\ Map.find "0"%string cur' = Some md'
    /\ getSubdeviceDataCurrent md' 0 = (20 - 10) / (2 - 1).
Proof.
  apply (subdevice_rate_exact
           [("0"%string, Samples.sample None [(0, Samples.reading 10 1)])]
           [("0"%string, Samples.sample None [(0, Samples.reading 20 2)])]
           "0"%string
           (Samples.sample None [(0, Samples.reading 20 2)])
           (Samples.sample None [(0, Samples.reading 10 1)])
           0 (Samples.reading 20 2) (Samples.reading 10 1));
    try reflexivity; try (vm_compute; split; congruence); try (vm_compute; congruence).
Defined.

(** The rate computation does not check that time went forward.  For a
    device-level pair of valid readings whose current raw timestamp is
    older than the previous one, the time difference wraps around: the
    rate is the value difference divided by [2^64] minus the step back,
    which is zero whenever the value difference is below that divisor. *)
Theorem rate_with_older_timestamp (pre cur : SharedData) d md pmd :
  Map.find d cur = Some md ->
  Map.find d pre = Some pmd ->
  hasRawDataOnDevice md = true ->
  hasRawDataOnDevice pmd = true ->
  U64.in_range (getRawdata md) -> U64.in_range (getRawdata pmd) ->
  U64.in_range (getRawTimestamp md) -> U64.in_range (getRawTimestamp pmd) ->
  getRawdata md <> U64.max ->
  getRawdata pmd <= getRawdata md ->
  getRawTimestamp md < getRawTimestamp pmd ->
  exists cur' md',
    calculateData (Some pre) (Some cur) = Some cur'
    /\ Map.find d cur' = Some md'
    /\ getCurrent md'
       = (getRawdata md - getRawdata pmd)
         / (U64.modulus - (getRawTimestamp pmd - getRawTimestamp md))
    /\ (getRawdata md - getRawdata pmd
        < U64.modulus - (getRawTimestamp pmd - getRawTimestamp md) ->
        getCurrent md' = 0).
Proof.
  intros Hcur Hpre Hraw Hpraw Rc Rp Rtc Rtp Hvalid Hle Hback.
  destruct (find_calculateData pre cur d) as (cur' & Hcalc & Hfind).
  rewrite Hcur in Hfind. simpl in Hfind.
  exists cur', (calculate_device pre d md).
  split; [exact Hcalc |]. split; [exact Hfind |].
  assert (Hrate : getCurrent (calculate_device pre d md)
                  = (getRawdata md - getRawdata pmd)
                    / (U64.modulus - (getRawTimestamp pmd - getRawTimestamp md))).
  { rewrite (calculate_device_level_found _ _ _ _ Hpre), Hraw, Hpraw.
    assert (Hvalue : U64.sub (getRawdata md) (getRawdata pmd)
                     = getRawdata md - getRawdata pmd).
    { unfold U64.sub, U64.wrap. apply Z.mod_small.
      unfold U64.in_range in *. lia. }
    assert (Htime : U64.sub (getRawTimestamp md) (getRawTimestamp pmd)
                    = U64.modulus - (getRawTimestamp pmd - getRawTimestamp md)).
    { unfold U64.sub, U64.wrap.
      replace (getRawTimestamp md - getRawTimestamp pmd)
        with (U64.modulus - (getRawTimestamp pmd - getRawTimestamp md)
              + (-1) * U64.modulus) by lia.
      rewrite Z.mod_add by (unfold U64.modulus; lia).
      apply Z.mod_small. unfold U64.in_range in *. lia. }
    rewrite Hvalue, Htime.
    unfold both_valid, U64.div.
    destruct (Z.eqb_spec (getRawdata pmd) U64.max);
      [unfold U64.in_range, U64.max in *; lia |].
    destruct (Z.eqb_spec (getRawdata md) U64.max); [contradiction |].
    destruct (Z.eqb_spec (U64.modulus - (getRawTimestamp pmd - getRawTimestamp md)) 0);
      [unfold U64.in_range in *; lia |].
    reflexivity. }
  split; [exact Hrate |].
  intros Hsmall. rewrite Hrate. apply Z.div_small.
  unfold U64.in_range in *. lia.
Qed.

Lemma rate_with_older_timestamp_witness :
  exists cur' md',
    calculateData (Some [("0"%string, Samples.sample (Some (10, 5)) [])])
                  (Some [("0"%string, Samples.sample (Some (20, 2)) [])])
    = Some cur'
    /\ Map.find "0"%string cur' = Some md'
    /\ getCurrent md' = (20 - 10) / (U64.modulus - (5 - 2))
    /\ (20 - 10 < U64.modulus - (5 - 2) -> getCurrent md' = 0).
Proof.
  apply (rate_with_older_timestamp
           [("0"%string, Samples.sample (Some (10, 5)) [])]
           [("0"%string, Samples.sample (Some (20, 2)) [])]
           "0"%string
           (Samples.sample (Some (20, 2)) []) (Samples.sample (Some (10, 5)) []));
    try reflexivity; try (vm_compute; split; congruence); try (vm_compute; congruence).
Defined.

(** ** How long a statistics call can block *)

Lemma poll_statistics_duration core fuel metric device_id session_id :
  forall start_time end_time w polled w',
    poll_statistics core fuel metric device_id session_id start_time end_time w
    = Returns polled w' ->
    millis w <= millis w' <= millis w + 1000 * Z.of_nat fuel.
Proof.
  induction fuel as [| fuel IH]; intros start_time end_time w polled w' Hpoll;
    cbn [poll_statistics] in Hpoll.
  - destruct (end_time - start_time <=? 30);
      unfold ret in Hpoll; inversion Hpoll; subst; simpl; lia.
  - destruct (end_time - start_time <=? 30).
    2:{ unfold ret in Hpoll. inversion Hpoll; subst. lia. }
    apply bind_inv in Hpoll. destruct Hpoll as (p_data & w1 & Hquery & Hpoll).
    assert (Hw1 : millis w1 = millis w).
    { unfold getLatestStatistics in Hquery.
      destruct (Core.p_data_handler_manager core); [| discriminate].
      inversion Hquery; subst. reflexivity. }
    destruct p_data as [data |].
    + unfold ret in Hpoll. inversion Hpoll; subst. lia.
    + apply bind_inv in Hpoll. destruct Hpoll as ([] & w2 & Hsleep & Hpoll).
      apply bind_inv in Hpoll. destruct Hpoll as (end_time' & w3 & Hnow & Hpoll).
      unfold sleep_for in Hsleep. inversion Hsleep; subst w2.
      unfold now_seconds in Hnow. inversion Hnow; subst w3.
      apply IH in Hpoll. cbn [millis] in Hpoll.
      rewrite Nat2Z.inj_succ. lia.
Qed.

Lemma statistics_of_metric_duration enum_value core bdf device_id session_id metric
      acc w acc' w' :
  statistics_of_metric enum_value core bdf device_id session_id metric acc w
  = Returns acc' w' ->
  millis w <= millis w'
  <= millis w + (if waits_for enum_value metric then 31000 else 0).
Proof.
  unfold statistics_of_metric, waits_for.
  destruct (negb (is_multi_entity metric)); cbn [andb].
  2:{ unfold ret. intros Hret. inversion Hret; subst. lia. }
  intros Hret. apply bind_inv in Hret. destruct Hret as (p_data & w1 & Hquery & Hrest).
  assert (Hw1 : millis w1 = millis w).
  { destruct (is_power metric && hasDataOnDevice (Core.loadPVCIdlePowers core bdf)).
    - unfold ret in Hquery. inversion Hquery; subst. reflexivity.
    - unfold getLatestStatistics in Hquery.
      destruct (Core.p_data_handler_manager core); [| discriminate].
      inversion Hquery; subst. reflexivity. }
  destruct p_data as [data |].
  { unfold ret in Hrest. inversion Hrest; subst.
    destruct (is_polled enum_value metric); lia. }
  destruct (is_polled enum_value metric).
  2:{ unfold ret in Hrest. inversion Hrest; subst. lia. }
  apply bind_inv in Hrest. destruct Hrest as (start_time & w2 & Hstart & Hrest).
  apply bind_inv in Hrest. destruct Hrest as (end_time & w3 & Hend & Hrest).
  apply bind_inv in Hrest. destruct Hrest as (polled & w4 & Hpoll & Hrest).
  unfold now_seconds in Hstart, Hend.
  inversion Hstart; subst. inversion Hend; subst.
  apply poll_statistics_duration in Hpoll.
  unfold poll_turns in Hpoll.
  replace (31 - (millis w3 / 1000 - millis w3 / 1000)) with 31 in Hpoll by lia.
  change (Z.of_nat (Z.to_nat 31)) with 31 in Hpoll.
  assert (Hw4 : millis w' = millis w4).
  { destruct polled; unfold ret in Hrest; inversion Hrest; subst; reflexivity. }
  lia.
Qed.

Lemma collect_statistics_duration enum_value core bdf device_id session_id metric_types :
  forall acc w acc' w',
    collect_statistics enum_value core bdf device_id session_id metric_types acc w
    = Returns acc' w' ->
    millis w <= millis w'
    <= millis w
       + 31000 * Z.of_nat (List.length (filter (waits_for enum_value) metric_types)).
Proof.
  induction metric_types as [| metric rest IH]; intros acc w acc' w' Hret;
    cbn [collect_statistics filter] in Hret |- *.
  - unfold ret in Hret. inversion Hret; subst. simpl. lia.
  - apply bind_inv in Hret. destruct Hret as (acc1 & w1 & Hone & Hrest).
    apply statistics_of_metric_duration in Hone.
    apply IH in Hrest.
    destruct (waits_for enum_value metric); cbn [List.length].
    + rewrite Nat2Z.inj_succ. lia.
    + lia.
Qed.

(** How long [getMetricsStatistics] can block.  The clock never goes
    back during a call, a call without a buffer or for an unknown device
    takes no time, and a call with a buffer ends at most 31 seconds per
    enabled and supported metric of the two polled ranges after it began:
    the waits for the individual metrics add up. *)
Theorem statistics_call_duration enum_value core deviceId dataList count session_id w
        reply w' :
  getMetricsStatistics enum_value core deviceId dataList count session_id w
  = Returns reply w' ->
  millis w <= millis w'
  /\ (dataList = nullptr \/ Core.getDevice core deviceId = None -> w' = w)
  /\ forall device,
      Core.getDevice core deviceId = Some device ->
      millis w'
      <= millis w
         + 31000
           * Z.of_nat (List.length
                         (filter (waits_for enum_value)
                                 (erase_unsupported (Device.getCapability device)
                                                    (Core.getEnabledMetrics core)))).
Proof.
  unfold getMetricsStatistics. intros Hcall.
  destruct (Core.getDevice core deviceId) as [device |].
  2:{ unfold ret in Hcall. inversion Hcall; subst.
      split; [lia |]. split; [reflexivity |]. discriminate. }
  destruct dataList.
  { unfold ret in Hcall. inversion Hcall; subst.
    split; [lia |]. split; [reflexivity |].
    intros device' _. lia. }
  apply bind_inv in Hcall. destruct Hcall as (datas & w1 & Hcollect & Hcall).
  apply bind_inv in Hcall. destruct Hcall as (begin & w2 & Hbegin & Hcall).
  apply bind_inv in Hcall. destruct Hcall as (end_ & w3 & Hend & Hcall).
  apply collect_statistics_duration in Hcollect.
  assert (Hw2 : w2 = w1).
  { unfold getStatsTimestamp in Hbegin.
    destruct (Core.p_data_handler_manager core); [| discriminate].
    inversion Hbegin; subst. reflexivity. }
  unfold getCurrentTime in Hend. inversion Hend; subst.
  assert (Hw' : w' = w3).
  { destruct (store_stats (Device.NUMBER_OF_SUBDEVICE device) deviceId datas count)
      as [[code n] stored].
    unfold ret in Hcall. inversion Hcall; subst. reflexivity. }
  subst w'.
  split; [lia |]. split.
  - intros [Hnull | Hnone]; discriminate.
  - intros device' Hdevice. inversion Hdevice; subst device'. lia.
Qed.

Lemma statistics_call_duration_witness :
  let core := Fixtures.core [METRIC_POWER; METRIC_EU_ACTIVE; METRIC_EU_IDLE]
                            Fixtures.no_data [] in
  exists reply w',
    getMetricsStatistics Fixtures.declared_order core 0 array 3 0 Fixtures.start
    = Returns reply w'
    /\ millis Fixtures.start <= millis w'
    /\ millis w' <= millis Fixtures.start + 31000 * 2.
Proof.
  intros core. eexists. eexists. split; [vm_compute; reflexivity |].
  edestruct (statistics_call_duration Fixtures.declared_order core 0 array 3 0
               Fixtures.start) as (Hforward & _ & Hbound);
    [vm_compute; reflexivity |].
  split; [exact Hforward | exact (Hbound Fixtures.device eq_refl)].
Defined.

(** ** Buffer protocol of [getEngineStatistics] *)

Lemma store_engine_stats_outcome core entries device deviceId p_data capacity stored :
  Z.of_nat (List.length stored) <= capacity ->
  let '(code, n, rows) :=
    store_engine_stats core entries device deviceId p_data capacity stored in
  Z.of_nat (List.length rows) <= capacity
  /\ ((code = XPUM_OK /\ n = Z.of_nat (List.length rows))
      \/ (code = XPUM_BUFFER_TOO_SMALL /\ n = capacity
          /\ Z.of_nat (List.length rows) = capacity)).
Proof.
  revert stored.
  induction entries as [| entry rest IH]; intros stored Hlen;
    cbn [store_engine_stats].
  - auto.
  - destruct (engine_entry_usable device entry); [| apply IH; exact Hlen].
    destruct (Z.of_nat (List.length stored) >=? capacity) eqn:Hfull.
    + apply Z.geb_le in Hfull. split; [exact Hlen |]. right. repeat split; lia.
    + apply IH. rewrite Z.geb_leb in Hfull. apply Z.leb_gt in Hfull.
      rewrite length_app, Nat2Z.inj_add. simpl. lia.
Qed.

(** The buffer protocol of [getEngineStatistics] for a call with a buffer
    that returns: it never stores more rows than the announced capacity;
    [XPUM_OK] comes with the number of stored rows in [*count];
    [XPUM_BUFFER_TOO_SMALL] comes with the buffer filled to its capacity
    and [*count] as it was, so that the caller does not learn the size
    it needs from this call; an error code comes with no row. *)
Theorem engine_statistics_buffer_protocol core deviceId count session_id w reply w' :
  0 <= count ->
  getEngineStatistics core deviceId array count session_id w = Returns reply w' ->
  Z.of_nat (List.length (Reply.dataList reply)) <= count
  /\ (Reply.result reply = XPUM_OK ->
      Reply.count reply = Z.of_nat (List.length (Reply.dataList reply)))
  /\ (Reply.result reply = XPUM_BUFFER_TOO_SMALL ->
      Reply.count reply = count
      /\ Z.of_nat (List.length (Reply.dataList reply)) = count)
  /\ (Reply.result reply <> XPUM_OK ->
      Reply.result reply <> XPUM_BUFFER_TOO_SMALL ->
      Reply.dataList reply = []).
Proof.
  intros Hcount Hcall.
  unfold getEngineStatistics in Hcall.
  destruct (Core.getDevice core deviceId) as [device |].
  2:{ unfold ret in Hcall. inversion Hcall; subst. cbn.
      repeat split; try discriminate; lia. }
  apply bind_inv in Hcall. destruct Hcall as (begin & w1 & _ & Hcall).
  apply bind_inv in Hcall. destruct Hcall as (end_ & w2 & _ & Hcall).
  destruct (negb (contains (Core.getEnabledMetrics core) METRIC_ENGINE_UTILIZATION)).
  { unfold ret in Hcall. inversion Hcall; subst. cbn.
    repeat split; try discriminate; lia. }
  destruct (negb (contains (erase_unsupported (Device.getCapability device)
                              (Core.getEnabledMetrics core))
                           METRIC_ENGINE_UTILIZATION)).
  { unfold ret in Hcall. inversion Hcall; subst. cbn.
    repeat split; try discriminate; lia. }
  apply bind_inv in Hcall. destruct Hcall as (p_data & w3 & _ & Hcall).
  destruct p_data as [data |].
  2:{ unfold ret in Hcall. inversion Hcall; subst. cbn.
      repeat split; try discriminate; lia. }
  pose proof (store_engine_stats_outcome core (getMultiMetricsDatas data) device deviceId
                data count [] Hcount) as Hout.
  destruct (store_engine_stats core (getMultiMetricsDatas data) device deviceId data
              count []) as [[code n] rows].
  unfold ret in Hcall. inversion Hcall; subst.
  cbn [Reply.result Reply.count Reply.dataList].
  destruct Hout as [Hlen [[-> ->] | (-> & -> & Hfull)]];
    repeat split; try discriminate; try congruence; auto.
Qed.

Lemma engine_statistics_buffer_protocol_witness :
  let core := Fixtures.core [METRIC_ENGINE_UTILIZATION] Fixtures.no_data [] in
  exists reply w',
    getEngineStatistics core 0 array 0 0 Fixtures.start = Returns reply w'
    /\ Reply.result reply = XPUM_BUFFER_TOO_SMALL
    /\ Reply.count reply = 0
    /\ Z.of_nat (List.length (Reply.dataList reply)) = 0.
Proof.
  intros core. eexists. eexists. split; [vm_compute; reflexivity |].
  split; [reflexivity |].
  edestruct (engine_statistics_buffer_protocol core 0 0 0 Fixtures.start)
    as (_ & _ & Hsmall & _); [lia | vm_compute; reflexivity |].
  exact (Hsmall eq_refl).
Defined.

(** ** The device-level rate through [handleData] *)

(** [handleData] on a sample in which no device-level counter dropped
    (the detection keeps [p_preData]): a device whose current and previous
    device-level readings are valid, with a raw value that did not go
    down and a raw timestamp that went up, gets the exact quotient of
    the two differences as its derived value, whatever the detection did
    to sub-device baselines. *)
Theorem handle_data_device_rate (pre cur pre' : SharedData) d md pmd :
  Map.unique_keys cur = true ->
  counterOverflowDetection (Some pre) (Some cur) = Some pre' ->
  Map.find d cur = Some md ->
  Map.find d pre = Some pmd ->
  hasRawDataOnDevice md = true ->
  hasRawDataOnDevice pmd = true ->
  U64.in_range (getRawdata md) -> U64.in_range (getRawdata pmd) ->
  U64.in_range (getRawTimestamp md) -> U64.in_range (getRawTimestamp pmd) ->
  getRawdata md <> U64.max ->
  getRawdata pmd <= getRawdata md ->
  getRawTimestamp pmd < getRawTimestamp md ->
  exists cur' md',
    handleData (Some pre) (Some cur) = (Some pre', Some cur')
    /\ Map.find d cur' = Some md'
    /\ getCurrent md'
       = (getRawdata md - getRawdata pmd) / (getRawTimestamp md - getRawTimestamp pmd).
Proof.
  intros Hunique Hdetect Hcur Hpre Hraw Hpraw Rc Rp Rtc Rtp Hvalid Hle Htlt.
  cbn [counterOverflowDetection] in Hdetect.
  pose proof (overflow_devices_Some cur pre pre' Hunique Hdetect d) as Hpre'.
  rewrite Hcur, Hpre in Hpre'. cbn [option_map] in Hpre'.
  destruct (detect_entry_device_level md pmd) as (Hflag & Hvalue & Htime).
  destruct (find_calculateData pre' cur d) as (cur' & Hcalc & Hfind).
  rewrite Hcur in Hfind. cbn [option_map] in Hfind.
  exists cur', (calculate_device pre' d md).
  split; [| split; [exact Hfind |]].
  - rewrite handleData_unfold, Hdetect, Hcalc. reflexivity.
  - rewrite (calculate_device_level_found _ _ _ _ Hpre'), Hflag, Hvalue, Htime, Hraw, Hpraw.
    rewrite !U64_sub_no_borrow by (auto; lia).
    unfold both_valid, U64.div.
    destruct (Z.eqb_spec (getRawdata pmd) U64.max);
      [unfold U64.in_range, U64.max in *; lia |].
    destruct (Z.eqb_spec (getRawdata md) U64.max); [contradiction |].
    destruct (Z.eqb_spec (getRawTimestamp md - getRawTimestamp pmd) 0); [lia |].
    reflexivity.
Qed.

Lemma handle_data_device_rate_witness :
  exists cur' md',
    handleData
      (Some [("0"%string, Samples.sample (Some (10, 1)) [(0, Samples.reading 100 1)])])
      (Some [("0"%string, Samples.sample (Some (30, 3)) [(0, Samples.reading 40 3)])])
    = (Some [("0"%string, Samples.sample (Some (10, 1)) [])], Some cur')
    /\ Map.find "0"%string cur' = Some md'
    /\ getCurrent md' = (30 - 10) / (3 - 1).
Proof.
  apply (handle_data_device_rate
           [("0"%string, Samples.sample (Some (10, 1)) [(0, Samples.reading 100 1)])]
           [("0"%string, Samples.sample (Some (30, 3)) [(0, Samples.reading 40 3)])]
           [("0"%string, Samples.sample (Some (10, 1)) [])]
           "0"%string
           (Samples.sample (Some (30, 3)) [(0, Samples.reading 40 3)])
           (Samples.sample (Some (10, 1)) [(0, Samples.reading 100 1)]));
    try reflexivity; try (vm_compute; split; congruence); try (vm_compute; congruence).
Defined.

(** ** The metric loop inside a statistics call *)

Lemma slept_app a b : slept (a ++ b) = slept a + slept b.
Proof.
  induction a as [| [type at_millis | seconds] rest IH]; cbn [app slept]; lia.
Qed.

Lemma queries_within_not_query_of metric metric_types trace :
  ~ In metric metric_types ->
  Forall (queries_within metric_types) trace ->
  Forall (not_query_of metric) trace.
Proof.
  intros Hnotin. apply Forall_impl.
  intros [type at_millis | seconds]; cbn [queries_within not_query_of]; [| auto].
  intros Hin ->. contradiction.
Qed.

Lemma poll_statistics_events core fuel metric device_id session_id :
  forall start_time end_time w polled w',
    poll_statistics core fuel metric device_id session_id start_time end_time w
    = Returns polled w' ->
    exists trace,
      events w' = events w ++ trace
      /\ Forall (queries_within [metric]) trace
      /\ millis w' = millis w + 1000 * slept trace.
Proof.
  induction fuel as [| fuel IH]; intros start_time end_time w polled w' Hpoll;
    cbn [poll_statistics] in Hpoll.
  - exists []. rewrite app_nil_r.
    destruct (end_time - start_time <=? 30);
      unfold ret in Hpoll; inversion Hpoll; subst;
      (split; [reflexivity | split; [constructor | simpl; lia]]).
  - destruct (end_time - start_time <=? 30).
    2:{ exists []. rewrite app_nil_r. unfold ret in Hpoll. inversion Hpoll; subst.
        split; [reflexivity | split; [constructor | simpl; lia]]. }
    apply bind_inv in Hpoll. destruct Hpoll as (p_data & w1 & Hquery & Hpoll).
    unfold getLatestStatistics in Hquery.
    destruct (Core.p_data_handler_manager core); [| discriminate].
    inversion Hquery; subst w1. clear Hquery.
    destruct p_data as [data |].
    + unfold ret in Hpoll. inversion Hpoll; subst.
      exists [LatestStatistics metric (millis w)]. cbn [millis events slept].
      split; [reflexivity |].
      split; [constructor; [left; reflexivity | constructor] | lia].
    + apply bind_inv in Hpoll. destruct Hpoll as ([] & w2 & Hsleep & Hpoll).
      apply bind_inv in Hpoll. destruct Hpoll as (end_time' & w3 & Hnow & Hpoll).
      unfold sleep_for in Hsleep. inversion Hsleep; subst w2.
      unfold now_seconds in Hnow. inversion Hnow; subst w3.
      apply IH in Hpoll. destruct Hpoll as (trace & Hevents & Hwithin & Hmillis).
      cbn [millis events] in Hevents, Hmillis.
      exists (LatestStatistics metric (millis w) :: SleepFor 1 :: trace).
      split; [rewrite Hevents, <- !app_assoc; reflexivity |].
      split.
      * constructor; [left; reflexivity |]. constructor; [exact I | exact Hwithin].
      * cbn [slept]. lia.
Qed.

Lemma statistics_of_metric_events enum_value core bdf device_id session_id metric
      acc w acc' w' :
  statistics_of_metric enum_value core bdf device_id session_id metric acc w
  = Returns acc' w' ->
  exists trace,
    events w' = events w ++ trace
    /\ Forall (queries_within [metric]) trace
    /\ millis w' = millis w + 1000 * slept trace.
Proof.
  unfold statistics_of_metric.
  destruct (negb (is_multi_entity metric)).
  2:{ unfold ret. intros Hret. inversion Hret; subst. exists []. rewrite app_nil_r.
      split; [reflexivity | split; [constructor | simpl; lia]]. }
  intros Hret. apply bind_inv in Hret. destruct Hret as (p_data & w1 & Hquery & Hrest).
  assert (Hfirst : exists first,
             events w1 = events w ++ first
             /\ Forall (queries_within [metric]) first
             /\ millis w1 = millis w + 1000 * slept first).
  { destruct (is_power metric && hasDataOnDevice (Core.loadPVCIdlePowers core bdf)).
    - unfold ret in Hquery. inversion Hquery; subst. exists []. rewrite app_nil_r.
      split; [reflexivity | split; [constructor | simpl; lia]].
    - unfold getLatestStatistics in Hquery.
      destruct (Core.p_data_handler_manager core); [| discriminate].
      inversion Hquery; subst. exists [LatestStatistics metric (millis w)].
      cbn [millis events slept].
      split; [reflexivity |].
      split; [constructor; [left; reflexivity | constructor] | lia]. }
  destruct Hfirst as (first & Hevents1 & Hwithin1 & Hmillis1).
  assert (Hdone : forall (datas : Datas), ret datas w1 = Returns acc' w' ->
             exists trace,
               events w' = events w ++ trace
               /\ Forall (queries_within [metric]) trace
               /\ millis w' = millis w + 1000 * slept trace).
  { intros datas Hr. unfold ret in Hr. inversion Hr; subst. exists first. auto. }
  destruct p_data as [data |]; [exact (Hdone _ Hrest) |].
  destruct (is_polled enum_value metric); [| exact (Hdone _ Hrest)].
  apply bind_inv in Hrest. destruct Hrest as (start_time & w2 & Hstart & Hrest).
  apply bind_inv in Hrest. destruct Hrest as (end_time & w3 & Hend & Hrest).
  apply bind_inv in Hrest. destruct Hrest as (polled & w4 & Hpoll & Hrest).
  unfold now_seconds in Hstart, Hend.
  inversion Hstart; subst. inversion Hend; subst.
  apply poll_statistics_events in Hpoll.
  destruct Hpoll as (trace & Hevents & Hwithin & Hmillis).
  assert (Hw4 : w' = w4).
  { destruct polled; unfold ret in Hrest; inversion Hrest; subst; reflexivity. }
  subst w'. exists (first ++ trace).
  split; [rewrite Hevents, Hevents1, <- app_assoc; reflexivity |].
  split; [apply Forall_app; auto |].
  rewrite slept_app. lia.
Qed.

Lemma collect_statistics_events enum_value core bdf device_id session_id metric_types :
  forall acc w acc' w',
    collect_statistics enum_value core bdf device_id session_id metric_types acc w
    = Returns acc' w' ->
    exists trace,
      events w' = events w ++ trace
      /\ Forall (queries_within metric_types) trace
      /\ millis w' = millis w + 1000 * slept trace.
Proof.
  induction metric_types as [| metric rest IH]; intros acc w acc' w' Hret;
    cbn [collect_statistics] in Hret.
  - unfold ret in Hret. inversion Hret; subst. exists []. rewrite app_nil_r.
    split; [reflexivity | split; [constructor | simpl; lia]].
  - apply bind_inv in Hret. destruct Hret as (acc1 & w1 & Hone & Hrest).
    apply statistics_of_metric_events in Hone.
    destruct Hone as (first & Hevents1 & Hwithin1 & Hmillis1).
    apply IH in Hrest. destruct Hrest as (trace & Hevents & Hwithin & Hmillis).
    exists (first ++ trace).
    split; [rewrite Hevents, Hevents1, <- app_assoc; reflexivity |].
    split.
    + apply Forall_app. split.
      * revert Hwithin1. apply Forall_impl.
        intros [type at_millis | seconds]; cbn [queries_within]; [| auto].
        intros [-> | []]. left. reflexivity.
      * revert Hwithin. apply Forall_impl.
        intros [type at_millis | seconds]; cbn [queries_within]; [| auto].
        intros Hin. right. exact Hin.
    + rewrite slept_app. lia.
Qed.

Lemma collect_statistics_app enum_value core bdf device_id session_id before after :
  forall acc w,
    collect_statistics enum_value core bdf device_id session_id (before ++ after) acc w
    = bind (collect_statistics enum_value core bdf device_id session_id before acc)
           (fun acc' =>
              collect_statistics enum_value core bdf device_id session_id after acc') w.
Proof.
  induction before as [| metric rest IH]; intros acc w.
  - reflexivity.
  - cbn [app collect_statistics]. unfold bind in *.
    destruct (statistics_of_metric enum_value core bdf device_id session_id metric acc w)
      as [acc1 w1 | what]; [apply IH | reflexivity].
Qed.

Lemma In_insert_keeps {K V : Type} `{Key K} (k : K) (v : V) m e :
  In e m -> In e (Map.insert k v m).
Proof.
  unfold Map.insert. destruct (Map.find k m); [auto |].
  intros Hin. apply in_or_app. left. exact Hin.
Qed.

Lemma find_None_of_keys {K V : Type} `{Key K} (k : K) (m : list (K * V)) :
  (forall e, In e m -> fst e <> k) -> Map.find k m = None.
Proof.
  induction m as [| [k0 v0] rest IH]; intros Hkeys; cbn [Map.find]; [reflexivity |].
  destruct (key_eqb k k0) eqn:Heq.
  - apply key_eqb_eq in Heq. subst k0.
    exfalso. apply (Hkeys (k, v0)); [left |]; reflexivity.
  - apply IH. intros e Hin. apply Hkeys. right. exact Hin.
Qed.

Lemma record_data_keeps metric data acc :
  (forall entry, In entry (fst acc) -> In entry (fst (record_data metric data acc)))
  /\ (snd acc = true -> snd (record_data metric data acc) = true).
Proof.
  unfold record_data. cbn [fst snd]. split.
  - intros entry. apply In_insert_keeps.
  - intros ->. reflexivity.
Qed.

Lemma statistics_of_metric_keeps enum_value core bdf device_id session_id metric
      acc w acc' w' :
  statistics_of_metric enum_value core bdf device_id session_id metric acc w
  = Returns acc' w' ->
  (forall entry, In entry (fst acc) -> In entry (fst acc'))
  /\ (snd acc = true -> snd acc' = true).
Proof.
  unfold statistics_of_metric.
  destruct (negb (is_multi_entity metric)).
  2:{ unfold ret. intros Hret. inversion Hret; subst. auto. }
  intros Hret. apply bind_inv in Hret. destruct Hret as (p_data & w1 & _ & Hrest).
  assert (Hrecord : forall data w0,
             ret (record_data metric data acc) w0 = Returns acc' w' ->
             (forall entry, In entry (fst acc) -> In entry (fst acc'))
             /\ (snd acc = true -> snd acc' = true)).
  { intros data w0 Hr. unfold ret in Hr. inversion Hr; subst.
    apply record_data_keeps. }
  destruct p_data as [data |]; [exact (Hrecord data w1 Hrest) |].
  destruct (is_polled enum_value metric).
  - apply bind_inv in Hrest. destruct Hrest as (start_time & w2 & _ & Hrest).
    apply bind_inv in Hrest. destruct Hrest as (end_time & w3 & _ & Hrest).
    apply bind_inv in Hrest. destruct Hrest as (polled & w4 & _ & Hrest).
    destruct polled as [data |]; [exact (Hrecord data w4 Hrest) |].
    unfold ret in Hrest. inversion Hrest; subst. auto.
  - unfold ret in Hrest. inversion Hrest; subst. auto.
Qed.

Lemma collect_statistics_keeps enum_value core bdf device_id session_id metric_types :
  forall acc w acc' w',
    collect_statistics enum_value core bdf device_id session_id metric_types acc w
    = Returns acc' w' ->
    (forall entry, In entry (fst acc) -> In entry (fst acc'))
    /\ (snd acc = true -> snd acc' = true).
Proof.
  induction metric_types as [| metric rest IH]; intros acc w acc' w' Hret;
    cbn [collect_statistics] in Hret.
  - unfold ret in Hret. inversion Hret; subst. auto.
  - apply bind_inv in Hret. destruct Hret as (acc1 & w1 & Hone & Hrest).
    apply statistics_of_metric_keeps in Hone. apply IH in Hrest.
    destruct Hone as [Hin1 Hflag1]. destruct Hrest as [Hin Hflag]. auto.
Qed.

(** The first query of a turn finds data: it is recorded and the store
    is not asked again. *)
Lemma statistics_of_metric_answers enum_value core manager bdf device_id session_id
      metric acc w data :
  Core.p_data_handler_manager core = Some manager ->
  is_multi_entity metric = false ->
  is_power metric && hasDataOnDevice (Core.loadPVCIdlePowers core bdf) = false ->
  DataHandlerManager.getLatestStatistics manager (millis w) metric device_id session_id
  = Some data ->
  statistics_of_metric enum_value core bdf device_id session_id metric acc w
  = Returns (record_data metric data acc)
      {| millis := millis w; events := events w ++ [LatestStatistics metric (millis w)] |}.
Proof.
  intros Hm Hmulti Hprobe Hfirst.
  unfold statistics_of_metric. rewrite Hmulti, Hprobe. cbn [negb].
  unfold bind at 1. unfold getLatestStatistics. rewrite Hm, Hfirst. reflexivity.
Qed.

Lemma store_subdevice_stats_keeps tiles deviceId datas capacity :
  forall stored stats,
    In stats stored ->
    In stats (snd (store_subdevice_stats tiles deviceId datas capacity stored)).
Proof.
  induction tiles as [| i rest IH]; intros stored stats Hin;
    cbn [store_subdevice_stats].
  - exact Hin.
  - destruct (Z.of_nat (List.length stored) >=? capacity); [exact Hin |].
    apply IH. apply in_or_app. left. exact Hin.
Qed.

Lemma store_stats_device_row n deviceId datas capacity :
  0 < capacity ->
  In (device_stats deviceId datas) (snd (store_stats n deviceId datas capacity)).
Proof.
  intros Hpos. unfold store_stats.
  destruct (Z.geb_spec 0 capacity) as [Hge | Hlt]; [lia |].
  apply store_subdevice_stats_keeps. left. reflexivity.
Qed.

Lemma no_row_without_entry metric n deviceId datas capacity stats row :
  (forall entry, In entry (fst datas) -> fst entry <> metric) ->
  Utility.xpumStatsTypeFromMeasurementType metric <> XPUM_STATS_MAX ->
  In stats (snd (store_stats n deviceId datas capacity)) ->
  In row (xpum_device_stats_t.dataList stats) ->
  xpum_device_stats_data_t.metricsType row
  <> Utility.xpumStatsTypeFromMeasurementType metric.
Proof.
  intros Hkeys Hstats Hin Hrow.
  assert (Hentry : exists entry,
             In entry (fst datas)
             /\ xpum_device_stats_data_t.metricsType row
                = Utility.xpumStatsTypeFromMeasurementType (fst entry)).
  { apply store_stats_rows in Hin. destruct Hin as [-> | (i & ->)].
    - unfold device_stats in Hrow. cbn [xpum_device_stats_t.dataList] in Hrow.
      destruct (snd datas); [| contradiction].
      apply in_map_iff in Hrow. destruct Hrow as (entry & <- & Hentry).
      apply filter_In in Hentry. destruct Hentry as [Hentry _].
      exists entry. split; [exact Hentry |].
      unfold device_stats_data. apply stats_data_type.
    - unfold subdevice_stats in Hrow. cbn [xpum_device_stats_t.dataList] in Hrow.
      apply in_map_iff in Hrow. destruct Hrow as (entry & <- & Hentry).
      apply filter_In in Hentry. destruct Hentry as [Hentry _].
      exists entry. split; [exact Hentry |].
      unfold subdevice_stats_data. apply stats_data_type. }
  destruct Hentry as (entry & Hentry & ->).
  intros Heq. apply (Hkeys entry Hentry).
  apply xpumStatsType_injective; [| | exact Heq].
  - intros Hmax. rewrite Hmax in Heq. apply Hstats. rewrite <- Heq. reflexivity.
  - intros Hmax. rewrite Hmax in Hstats. apply Hstats. reflexivity.
Qed.

(** A turn for a multi-entity metric, or for power when the idle-power
    probe has data, makes no query and does not wait. *)
Lemma statistics_of_metric_silent enum_value core bdf device_id session_id metric acc w :
  is_multi_entity metric = true
  \/ is_power metric && hasDataOnDevice (Core.loadPVCIdlePowers core bdf) = true ->
  exists acc',
    statistics_of_metric enum_value core bdf device_id session_id metric acc w
    = Returns acc' w.
Proof.
  intros Hsilent. unfold statistics_of_metric.
  destruct (is_multi_entity metric); cbn [negb]; [eexists; reflexivity |].
  destruct Hsilent as [Hmulti | Hprobe]; [discriminate |].
  rewrite Hprobe. eexists. reflexivity.
Qed.

(** C8.  A call of [getMetricsStatistics] with a buffer, on a device that
    supports the enabled metric [metric].  The call returns, and the
    queries it makes to the store fall into those of the metrics before
    [metric], the turn of [metric] that starts at the time [t], and those
    of the metrics after it; only the turn asks for [metric], and the
    clock advances by the seconds slept.

    A multi-entity metric, and power when the idle-power probe has data,
    are not asked for at all.  For any other metric: if it lies outside
    the two polled ranges of the enumeration (the RAS error categories and
    EU active to idle), or the store has data at [t], the turn is one
    query, with no sleep: a metric outside the ranges is never asked for
    again, and without data it gets no row.  If the metric lies inside the
    ranges and the store has nothing at [t], the store is asked again at
    [t], [t] + 1 s, ..., [t] + 30 s, with a sleep of one second after
    every query that finds nothing.  The first answer ends the turn and is
    reported in the device row; when none comes, the turn ends after the
    31st sleep and no row of the reply is about the metric. *)
Theorem sparse_metrics_are_polled :
  forall (enum_value : MeasurementType -> Z) (core : Core.t) (manager : DataHandlerManager.t)
         (device : Device.t) (deviceId count session_id : Z) (w : World)
         (metric : MeasurementType) (before after : list MeasurementType),
    Core.getDevice core deviceId = Some device ->
    Core.p_data_handler_manager core = Some manager ->
    erase_unsupported (Device.getCapability device) (Core.getEnabledMetrics core)
    = before ++ metric :: after ->
    ~ In metric before ->
    ~ In metric after ->
    let probed :=
      is_power metric
      && hasDataOnDevice (Core.loadPVCIdlePowers core (Device.PCI_BDF_ADDRESS device)) in
    let store t :=
      DataHandlerManager.getLatestStatistics manager t metric deviceId session_id in
    let reported := Utility.xpumStatsTypeFromMeasurementType metric <> XPUM_STATS_MAX in
    exists reply w' t earlier turn later,
      getMetricsStatistics enum_value core deviceId array count session_id w
      = Returns reply w'
      /\ events w' = events w ++ earlier ++ turn ++ later
      /\ Forall (not_query_of metric) earlier
      /\ Forall (not_query_of metric) later
      /\ t = millis w + 1000 * slept earlier
      /\ millis w' = t + 1000 * slept (turn ++ later)
      /\ Reply.end_time reply = Some (millis w')
      /\ (is_multi_entity metric = true \/ probed = true -> turn = [])
      /\ (is_multi_entity metric = false -> probed = false ->
          (is_polled enum_value metric = false \/ store t <> None ->
           turn = [LatestStatistics metric t])
          /\ (is_polled enum_value metric = false -> store t = None -> reported ->
              no_row_of metric reply)
          /\ (is_polled enum_value metric = true -> store t = None ->
              ((forall t', store t' = None) ->
               turn = LatestStatistics metric t :: poll_events metric t 31
               /\ (reported -> no_row_of metric reply))
              /\ (forall (k : nat) (data : MeasurementData),
                    (k <= 30)%nat ->
                    (forall i, 0 <= i < Z.of_nat k -> store (t + 1000 * i) = None) ->
                    store (t + 1000 * Z.of_nat k) = Some data ->
                    turn = LatestStatistics metric t
                           :: poll_events metric t k
                           ++ [LatestStatistics metric (t + 1000 * Z.of_nat k)]
                    /\ (0 < count -> hasDataOnDevice data = true ->
                        exists stats,
                          In stats (Reply.dataList reply)
                          /\ In (device_stats_data (metric, data))
                                (xpum_device_stats_t.dataList stats))))).
Proof.
  intros enum_value core manager device deviceId count session_id w metric before after
         Hdevice Hm Htypes Hnb Hna probed store reported.
  set (bdf := Device.PCI_BDF_ADDRESS device) in *.
  destruct (collect_statistics_returns enum_value core manager bdf deviceId session_id
              before ([], false) w Hm) as (acc1 & w1 & Hbefore).
  destruct (statistics_of_metric_returns enum_value core manager bdf deviceId session_id
              metric acc1 w1 Hm) as (acc2 & w2 & Hturn).
  destruct (collect_statistics_returns enum_value core manager bdf deviceId session_id
              after acc2 w2 Hm) as (datas & w3 & Hafter).
  assert (Hcollect : collect_statistics enum_value core bdf deviceId session_id
                       (before ++ metric :: after) ([], false) w
                     = Returns datas w3).
  { rewrite collect_statistics_app. rewrite (bind_Returns _ _ _ _ _ Hbefore).
    cbn [collect_statistics]. rewrite (bind_Returns _ _ _ _ _ Hturn). exact Hafter. }
  destruct (collect_statistics_events _ _ _ _ _ _ _ _ _ _ Hbefore)
    as (earlier & He1 & Hw1 & Hm1).
  destruct (statistics_of_metric_events _ _ _ _ _ _ _ _ _ _ Hturn)
    as (turn & He2 & Hw2 & Hm2).
  destruct (collect_statistics_events _ _ _ _ _ _ _ _ _ _ Hafter)
    as (later & He3 & Hw3 & Hm3).
  cbn [events millis] in He1, Hm1.
  (* the entries collected before the turn, and after the whole loop *)
  assert (Hkeys1 : forall entry, In entry (fst acc1) -> fst entry <> metric).
  { intros entry Hin Heq.
    destruct (proj2 (collect_statistics_entries _ _ _ _ _ _ _ _ _ _ Hbefore) entry Hin)
      as [[] | [Hlisted _]].
    apply Hnb. rewrite <- Heq. exact Hlisted. }
  assert (Hkeys : acc2 = acc1 -> forall entry, In entry (fst datas) -> fst entry <> metric).
  { intros -> entry Hin Heq.
    destruct (proj2 (collect_statistics_entries _ _ _ _ _ _ _ _ _ _ Hafter) entry Hin)
      as [Hold | [Hlisted _]].
    - exact (Hkeys1 entry Hold Heq).
    - apply Hna. rewrite <- Heq. exact Hlisted. }
  set (reply :=
         let '(code, count', stored) :=
           store_stats (Device.NUMBER_OF_SUBDEVICE device) deviceId datas count in
         {| Reply.result := code; Reply.count := count'; Reply.dataList := stored;
            Reply.begin_time :=
              Some (DataHandlerManager.getStatsTimestamp manager session_id deviceId);
            Reply.end_time := Some (millis w3) |}).
  assert (Hrows : Reply.dataList reply
                  = snd (store_stats (Device.NUMBER_OF_SUBDEVICE device) deviceId datas
                           count)).
  { unfold reply. destruct (store_stats _ _ _ _) as [[code count'] stored]. reflexivity. }
  assert (Hnone : acc2 = acc1 -> reported -> no_row_of metric reply).
  { intros Hsame Hreported stats row Hstats Hrow. rewrite Hrows in Hstats.
    exact (no_row_without_entry metric _ _ _ _ stats row (Hkeys Hsame) Hreported
             Hstats Hrow). }
  assert (Hshape : forall acc' millis' trace,
             statistics_of_metric enum_value core bdf deviceId session_id metric acc1 w1
             = Returns acc' {| millis := millis'; events := events w1 ++ trace |} ->
             acc2 = acc' /\ turn = trace).
  { intros acc' millis' trace Heq. rewrite Hturn in Heq. inversion Heq; subst.
    split; [reflexivity |].
    cbn [events] in He2. apply app_inv_head in He2. symmetry. exact He2. }
  exists reply, w3, (millis w1), earlier, turn, later.
  split.
  { unfold getMetricsStatistics. rewrite Hdevice. fold bdf. rewrite Htypes.
    rewrite (bind_Returns _ _ _ _ _ Hcollect).
    unfold getStatsTimestamp. rewrite Hm.
    unfold bind, ret, getCurrentTime. unfold reply.
    destruct (store_stats _ _ _ _) as [[code count'] stored]. reflexivity. }
  split; [rewrite He3, He2, He1, <- !app_assoc; reflexivity |].
  split; [exact (queries_within_not_query_of metric before earlier Hnb Hw1) |].
  split; [exact (queries_within_not_query_of metric after later Hna Hw3) |].
  split; [exact Hm1 |].
  split; [rewrite slept_app; lia |].
  split.
  { unfold reply. destruct (store_stats _ _ _ _) as [[code count'] stored]. reflexivity. }
  split.
  { (* a turn without a query *)
    intros Hsilent.
    destruct (statistics_of_metric_silent enum_value core bdf deviceId session_id metric
                acc1 w1 Hsilent) as (acc' & Hquiet).
    rewrite Hturn in Hquiet. inversion Hquiet; subst w2.
    rewrite <- (app_nil_r (events w1)) in He2 at 1.
    apply app_inv_head in He2. symmetry. exact He2. }
  (* the turn of a metric the store is asked for *)
  intros Hmulti Hprobe.
  pose proof (fun Hfirst =>
                statistics_of_metric_polls enum_value core manager bdf deviceId session_id
                  metric acc1 w1 Hm Hmulti Hprobe Hfirst) as Hpolls.
  cbv zeta in Hpolls.
  split; [| split].
  - intros Hcase.
    destruct (store (millis w1)) as [data |] eqn:Hfirst.
    + pose proof (statistics_of_metric_answers enum_value core manager bdf deviceId
                    session_id metric acc1 w1 data Hm Hmulti Hprobe Hfirst) as Hanswer.
      exact (proj2 (Hshape _ _ _ Hanswer)).
    + destruct Hcase as [Hplain | Hsome]; [| contradiction].
      destruct (Hpolls Hfirst) as [Hone _].
      exact (proj2 (Hshape _ _ _ (Hone Hplain))).
  - intros Hplain Hfirst.
    destruct (Hpolls Hfirst) as [Hone _].
    apply Hnone. exact (proj1 (Hshape _ _ _ (Hone Hplain))).
  - intros Hpolled Hfirst.
    destruct (Hpolls Hfirst) as [_ Hpoll].
    destruct (Hpoll Hpolled) as [Hgives_up Hfinds].
    split.
    + intros Hnever. specialize (Hgives_up Hnever).
      rewrite <- app_assoc in Hgives_up. cbn [app] in Hgives_up.
      destruct (Hshape _ _ _ Hgives_up) as [Hsame Htrace].
      split; [exact Htrace | exact (Hnone Hsame)].
    + intros k data Hk Hbefore_k Hat_k.
      specialize (Hfinds k data Hk Hbefore_k Hat_k).
      rewrite <- app_assoc in Hfinds. cbn [app] in Hfinds.
      destruct (Hshape _ _ _ Hfinds) as [Hrecorded Htrace].
      split; [exact Htrace |].
      intros Hcount Hdata.
      exists (device_stats deviceId datas).
      split; [rewrite Hrows; apply store_stats_device_row; exact Hcount |].
      assert (Hin2 : In (metric, data) (fst acc2) /\ snd acc2 = true).
      { rewrite Hrecorded. unfold record_data. cbn [fst snd].
        split; [| rewrite Hdata; apply orb_true_r].
        unfold Map.insert. rewrite (find_None_of_keys metric (fst acc1) Hkeys1).
        apply in_or_app. right. left. reflexivity. }
      destruct (collect_statistics_keeps _ _ _ _ _ _ _ _ _ _ Hafter) as [Hkept Hflag].
      unfold device_stats. cbn [xpum_device_stats_t.dataList].
      rewrite (Hflag (proj2 Hin2)).
      apply in_map. apply filter_In. split; [exact (Hkept _ (proj1 Hin2)) | exact Hdata].
Qed.

(** The fixture with power, EU active and EU stall enabled: power has
    statistics, EU active has none at any time.  The call asks for EU
    active 32 times and sleeps 31 times in its turn, and the reply has no
    row about it. *)
Lemma sparse_metrics_are_polled_witness :
  let core :=
    Fixtures.core [METRIC_POWER; METRIC_EU_ACTIVE; METRIC_EU_STALL] Fixtures.no_data [] in
  exists reply w' t earlier later,
    getMetricsStatistics Fixtures.declared_order core 0 array 3 0 Fixtures.start
    = Returns reply w'
    /\ events w' = events Fixtures.start ++ earlier
                   ++ (LatestStatistics METRIC_EU_ACTIVE t
                       :: poll_events METRIC_EU_ACTIVE t 31)
                   ++ later
    /\ Forall (not_query_of METRIC_EU_ACTIVE) earlier
    /\ Forall (not_query_of METRIC_EU_ACTIVE) later
    /\ t = millis Fixtures.start + 1000 * slept earlier
    /\ Reply.end_time reply = Some (millis w')
    /\ no_row_of METRIC_EU_ACTIVE reply.
Proof.
  intros core.
  destruct (sparse_metrics_are_polled Fixtures.declared_order core (Fixtures.manager [])
              Fixtures.device 0 3 0 Fixtures.start METRIC_EU_ACTIVE
              [METRIC_POWER] [METRIC_EU_STALL]
              eq_refl eq_refl eq_refl)
    as (reply & w' & t & earlier & turn & later
        & Hcall & Hevents & Hearlier & Hlater & Ht & _ & Hend & _ & Hasked).
  - intros [Heq | []]. discriminate Heq.
  - intros [Heq | []]. discriminate Heq.
  - destruct (Hasked eq_refl eq_refl) as (_ & _ & Hpolled).
    destruct (Hpolled eq_refl eq_refl) as [Hgives_up _].
    destruct (Hgives_up (fun _ => eq_refl)) as [Hturn Hnone].
    exists reply, w', t, earlier, later.
    rewrite <- Hturn.
    split; [exact Hcall |]. split; [exact Hevents |].
    split; [exact Hearlier |]. split; [exact Hlater |].
    split; [exact Ht |]. split; [exact Hend |].
    apply Hnone. discriminate.
Defined.
